(** * Project Samarth: the fetch/retry loops and the CSV-to-SQL pass

    A shallow embedding of [crop_data.py], [rainfall.py] and
    [db_creator.py], and the properties of the specification proved (or
    refuted) on it.

    - [Http]       the boundary with the [requests] library: requests,
                   replies, the trace of observable effects;
    - [CropData]   [crop_data.py]: [fetch_all_data];
    - [Rainfall]   [rainfall.py]: [fetch_paginated_data] and [main];
    - [Pandas]     the few DataFrame operations the cleaning uses;
    - [DbCreator]  [db_creator.py]: [process_crop_data],
                   [process_rainfall_data] and [main];
    - [Samples], [TableSamples]   servers and tables to run the code on;
    - [FetchFacts], [FetchPages], [TableFacts]  lemmas on the loops and on
                   the tables.

    The programs loop with [while True]: their embeddings take a number of
    pages they may ask for ([fuel]) and return [None] when it does not
    suffice.  Effects are kept as a trace of events; the server is a
    function of the number of calls made so far.  The numbers of a table
    and what pandas does with them (reading, printing, comparing, summing)
    are parameters of the cleaning, so that nothing here depends on how
    floats round; strings are held as their UTF-8 bytes. *)

From Stdlib Require Import ZArith List String Ascii Bool Lia Arith.
From Stdlib Require Import QArith Qcanon Permutation Sorted DecimalString.
Import ListNotations.

Local Open Scope string_scope.
Local Open Scope Z_scope.
Local Open Scope list_scope.

(* ================================================================== *)
(** * The HTTP boundary *)
(* ================================================================== *)

Module Http.

(** A raw record of the API: a flat mapping from field names to values. *)
Definition record := list (string * string).

(** What [response.json()] can hand back.  The scripts only look at the
    member ["records"] of an object; a bare JSON string is kept apart
    because [rainfall.py] compares the decoded body with a string. *)
Inductive json :=
| JDict (records : option (list record))
| JString (s : string)
| JOther.

(** The query of one [requests.get] call: the resource of the URL and the
    [params] dictionary ([format] is always ["json"]). *)
Record request := mkRequest {
  resource_id : string;
  api_key : string;
  filters : list (string * string);
  limit : Z;
  offset : Z
}.

(** What one call meets: a response with its status code and decoded body,
    or no response at all (timeout, connection error, SSL error: a
    [RequestException] whose [response] is [None]).  A body that is not
    JSON is not modelled. *)
Inductive reply :=
| Response (status_code : Z) (body : json)
| NoResponse.

(** The remote side: the reply to the [t]-th call of the run. *)
Definition server := nat -> request -> reply.

(** [Response.raise_for_status]: raises [HTTPError], with the response
    attached to the exception, for the status codes 400 to 599. *)
Definition raises_for_status (status_code : Z) : bool :=
  (400 <=? status_code) && (status_code <? 600).

(** [Response.ok], which is also the truth value of a response object
    ([Response.__bool__] returns [self.ok]): [False] exactly when
    [raise_for_status] raises. *)
Definition Response_ok (status_code : Z) : bool :=
  negb (raises_for_status status_code).

(** [data.get("records", [])]; [None] stands for the [AttributeError] of
    a body that is not an object. *)
Definition get_records (data : json) : option (list record) :=
  match data with
  | JDict (Some records) => Some records
  | JDict None => Some []
  | JString _ | JOther => None
  end.

(** [data == s] for a string [s]. *)
Definition json_is_string (data : json) (s : string) : bool :=
  match data with
  | JString s' => String.eqb s' s
  | _ => false
  end.

(** Effects, in the order they happen.  [Extend] records the growth of the
    accumulated list, with the offset of the page that was appended. *)
Inductive event :=
| Get (r : request)                       (* requests.get *)
| Sleep (seconds : Q)                     (* time.sleep *)
| Extend (offset : Z) (n : nat)           (* all_records.extend(records) *)
| ToCsv (path : string) (rows : list record).   (* DataFrame.to_csv *)

Definition is_get (e : event) : bool :=
  match e with Get _ => true | _ => false end.

Definition is_to_csv (e : event) : bool :=
  match e with ToCsv _ _ => true | _ => false end.

(** The offsets at which a page was appended to [all_records]. *)
Fixpoint extended_offsets (tr : list event) : list Z :=
  match tr with
  | [] => []
  | Extend o _ :: tr' => o :: extended_offsets tr'
  | _ :: tr' => extended_offsets tr'
  end.

(** The sizes of the pages appended to [all_records]. *)
Fixpoint extended_counts (tr : list event) : list nat :=
  match tr with
  | [] => []
  | Extend _ n :: tr' => n :: extended_counts tr'
  | _ :: tr' => extended_counts tr'
  end.

Definition count_gets (tr : list event) : nat :=
  List.length (filter is_get tr).

(** What a function call ends with: a returned value or an exception that
    nothing in the script catches. *)
Inductive outcome (A : Type) :=
| Returned (a : A)
| Raised.
Arguments Returned {A} a.
Arguments Raised {A}.

End Http.

(* ================================================================== *)
(** * crop_data.py *)
(* ================================================================== *)

Module CropData.
Import Http.

Definition API_KEY := "579b464db66ec23bdd000001a2498286a9ab43a0426909464c78de93".
Definition CROP_RESOURCE_ID := "35be999b-0208-4354-b557-f6ca9a5355de".
Definition RAIN_RESOURCE_ID := "6c05cd1b-ed59-40c2-bc31-e314f39c6971".

Definition limit : Z := 1000.
Definition max_retries : nat := 5.

Definition params (resource : string) (offset : Z) : request :=
  {| resource_id := resource; api_key := API_KEY; filters := [];
     Http.limit := limit; Http.offset := offset |}.

(** How the retry loop of one page ends: with the decoded body ([break]),
    or with the [else] branch of the [for]. *)
Inductive attempt :=
| Got (data : json)
| GaveUp.

(** [for current_retry in range(max_retries)]: every [RequestException]
    (an HTTP error status as much as a transport error) is answered by a
    3-second sleep and the next round.  [t] is the number of calls made
    so far; the result carries the new count and the events of the loop.
    The clause [except Exception] has nothing to catch in this model: the
    calls of the [try] block raise [RequestException]s only. *)
Fixpoint retry_loop (srv : server) (req : request) (retries : nat) (t : nat)
  : attempt * nat * list event :=
  match retries with
  | O => (GaveUp, t, [])
  | S retries' =>
      match srv t req with
      | Response status_code body =>
          if raises_for_status status_code then
            let '(a, t', tr) := retry_loop srv req retries' (S t) in
            (a, t', Get req :: Sleep 3 :: tr)
          else (Got body, S t, [Get req])
      | NoResponse =>
          let '(a, t', tr) := retry_loop srv req retries' (S t) in
          (a, t', Get req :: Sleep 3 :: tr)
      end
  end.

(** [while True]: one unit of [fuel] per page; [None] when the fuel runs
    out before the loop breaks. *)
Fixpoint fetch_loop (srv : server) (resource : string) (fuel : nat)
    (offset : Z) (all_records : list record) (t : nat)
  : option (outcome (list record) * nat * list event) :=
  match fuel with
  | O => None
  | S fuel' =>
      let '(a, t1, tr) := retry_loop srv (params resource offset) max_retries t in
      match a with
      | GaveUp => Some (Returned all_records, t1, tr)
      | Got data =>
          match get_records data with
          | None => Some (Raised, t1, tr)
          | Some [] => Some (Returned all_records, t1, tr)
          | Some records =>
              let all_records' := all_records ++ records in
              let tr' := tr ++ [Extend offset (List.length records)] in
              if Z.of_nat (List.length records) <? limit then
                Some (Returned all_records', t1, tr')
              else
                match fetch_loop srv resource fuel' (offset + limit) all_records' t1 with
                | Some (r, t2, tr2) => Some (r, t2, tr' ++ tr2)
                | None => None
                end
          end
      end
  end.

(** [fetch_all_data(resource_id)]; the returned [DataFrame] is the list of
    its rows. *)
Definition fetch_all_data (srv : server) (resource : string) (fuel : nat) (t : nat)
  : option (outcome (list record) * nat * list event) :=
  fetch_loop srv resource fuel 0 [] t.

End CropData.

(* ================================================================== *)
(** * rainfall.py *)
(* ================================================================== *)

Module Rainfall.
Import Http.

Definition API_KEY := "579b464db66ec23bdd00000171c6ef9a5e35496551607d9840a03284".
Definition RAIN_RESOURCE_ID := "6c05cd1b-ed59-40c2-bc31-e314f39c6971".
Definition RAIN_OUTPUT_FILE := "raw_rainfall_data.csv".

Definition YEARS_TO_FETCH : list string :=
  ["2018"; "2019"; "2020"; "2021"; "2022"; "2023"; "2024"; "2025"].

Definition STATES_LIST : list string :=
  [ "Uttar Pradesh"; "Madhya Pradesh"; "Karnataka"; "Bihar"; "Assam"; "Odisha";
    "Tamil Nadu"; "Maharashtra"; "Rajasthan"; "Chhattisgarh"; "Andhra Pradesh";
    "West Bengal"; "Gujarat"; "Haryana"; "Telangana"; "Uttarakhand"; "Kerala";
    "Nagaland"; "Punjab"; "Meghalaya"; "Arunachal Pradesh"; "Himachal Pradesh";
    "Jammu and Kashmir"; "Tripura"; "Manipur"; "Jharkhand"; "Mizoram";
    "Puducherry"; "Sikkim"; "Dadra and Nagar Haveli"; "Goa";
    "Andaman and Nicobar Islands"; "Chandigarh" ].

Definition limit : Z := 1000.
Definition max_retries : nat := 5.

Definition params (resource : string) (query_filters : list (string * string))
    (offset : Z) : request :=
  {| resource_id := resource; api_key := API_KEY; filters := query_filters;
     Http.limit := limit; Http.offset := offset |}.

(** What [fetch_paginated_data] returns: the accumulated list, or the
    string ["FATAL_ERROR"]. *)
Inductive fetched :=
| Records (all_records : list record)
| FATAL_ERROR.

Inductive attempt :=
| Got (data : json)
| Fatal
| GaveUp.

(** The test [e.response and e.response.status_code == 403] of the
    [except] clause.  The left operand is the response object itself, and
    [and] goes on to the comparison only if that object is true: its truth
    value is [Response.ok].  An exception without a response carries
    [None]. *)
Definition forbidden (r : reply) : bool :=
  match r with
  | Response status_code _ => Response_ok status_code && (status_code =? 403)
  | NoResponse => false
  end.

Fixpoint retry_loop (srv : server) (req : request) (retries : nat) (t : nat)
  : attempt * nat * list event :=
  match retries with
  | O => (GaveUp, t, [])
  | S retries' =>
      match srv t req with
      | Response status_code body =>
          if raises_for_status status_code then
            if forbidden (Response status_code body) then (Fatal, S t, [Get req])
            else
              let '(a, t', tr) := retry_loop srv req retries' (S t) in
              (a, t', Get req :: Sleep 3 :: tr)
          else (Got body, S t, [Get req])
      | NoResponse =>
          if forbidden NoResponse then (Fatal, S t, [Get req])
          else
            let '(a, t', tr) := retry_loop srv req retries' (S t) in
            (a, t', Get req :: Sleep 3 :: tr)
      end
  end.

Fixpoint fetch_loop (srv : server) (resource : string)
    (query_filters : list (string * string)) (fuel : nat)
    (offset : Z) (all_records : list record) (t : nat)
  : option (outcome fetched * nat * list event) :=
  match fuel with
  | O => None
  | S fuel' =>
      let '(a, t1, tr) :=
        retry_loop srv (params resource query_filters offset) max_retries t in
      match a with
      | Fatal => Some (Returned FATAL_ERROR, t1, tr)
      | GaveUp => Some (Returned (Records all_records), t1, tr)
      | Got data =>
          if json_is_string data "FATAL_ERROR" then
            Some (Returned FATAL_ERROR, t1, tr)
          else
            match get_records data with
            | None => Some (Raised, t1, tr)
            | Some [] => Some (Returned (Records all_records), t1, tr)
            | Some records =>
                let all_records' := all_records ++ records in
                let tr' := tr ++ [Extend offset (List.length records)] in
                if Z.of_nat (List.length records) <? limit then
                  Some (Returned (Records all_records'), t1, tr')
                else
                  match fetch_loop srv resource query_filters fuel'
                          (offset + limit) all_records' t1 with
                  | Some (r, t2, tr2) => Some (r, t2, tr' ++ tr2)
                  | None => None
                  end
            end
      end
  end.

(** [fetch_paginated_data(resource_id, filters)]. *)
Definition fetch_paginated_data (srv : server) (resource : string)
    (query_filters : list (string * string)) (fuel : nat) (t : nat)
  : option (outcome fetched * nat * list event) :=
  fetch_loop srv resource query_filters fuel 0 [] t.

Definition query_filters (year state : string) : list (string * string) :=
  [("Year", year); ("State", state); ("Agency_name", "NRSC VIC MODEL")].

(** How [main] leaves its two loops. *)
Inductive loop_exit :=
| Finished (all_rainfall_records : list record)
| Stopped                       (* the [return] after the fatal signal *)
| Uncaught                      (* an exception leaves [main] *)
| Unconfigured.                 (* the [return] for the placeholder key *)

(** [for state in STATES_LIST] for one year. *)
Fixpoint states_loop (srv : server) (fuel : nat) (year : string)
    (states : list string) (all_rainfall_records : list record) (t : nat)
  : option (loop_exit * nat * list event) :=
  match states with
  | [] => Some (Finished all_rainfall_records, t, [])
  | state :: states' =>
      match fetch_paginated_data srv RAIN_RESOURCE_ID (query_filters year state) fuel t with
      | None => None
      | Some (Raised, t1, tr) => Some (Uncaught, t1, tr)
      | Some (Returned FATAL_ERROR, t1, tr) => Some (Stopped, t1, tr)
      | Some (Returned (Records records_for_query), t1, tr) =>
          let all_rainfall_records' :=
            match records_for_query with
            | [] => all_rainfall_records
            | _ => all_rainfall_records ++ records_for_query
            end in
          match states_loop srv fuel year states' all_rainfall_records' t1 with
          | Some (e, t2, tr2) => Some (e, t2, tr ++ Sleep (1 # 2) :: tr2)
          | None => None
          end
      end
  end.

(** [for year in YEARS_TO_FETCH]. *)
Fixpoint years_loop (srv : server) (fuel : nat) (years : list string)
    (all_rainfall_records : list record) (t : nat)
  : option (loop_exit * nat * list event) :=
  match years with
  | [] => Some (Finished all_rainfall_records, t, [])
  | year :: years' =>
      match states_loop srv fuel year STATES_LIST all_rainfall_records t with
      | None => None
      | Some (Finished all_rainfall_records', t1, tr) =>
          match years_loop srv fuel years' all_rainfall_records' t1 with
          | Some (e, t2, tr2) => Some (e, t2, tr ++ tr2)
          | None => None
          end
      | Some (e, t1, tr) => Some (e, t1, tr)
      end
  end.

(** [main()]: the exit of the loops and the whole trace of the run.  The
    output file is written, once, only when the loops finish with a
    non-empty list. *)
Definition main (srv : server) (fuel : nat)
  : option (loop_exit * list event) :=
  if String.eqb API_KEY "YOUR_PERSONAL_API_KEY_GOES_HERE" then
    Some (Unconfigured, [])
  else
    match years_loop srv fuel YEARS_TO_FETCH [] O with
    | None => None
    | Some (Finished all_rainfall_records, _, tr) =>
        match all_rainfall_records with
        | [] => Some (Finished [], tr)
        | _ => Some (Finished all_rainfall_records,
                     tr ++ [ToCsv RAIN_OUTPUT_FILE all_rainfall_records])
        end
    | Some (e, _, tr) => Some (e, tr)
    end.

End Rainfall.

(* ================================================================== *)
(** * The DataFrame operations of the cleaning *)
(* ================================================================== *)

Module Pandas.

(** What pandas and Python supply and the scripts only call: the numbers
    of a numeric column and the functions on them.  The cleaning is
    parametric in all of it.

    [number] is the type of the values a numeric column holds, the missing
    marker apart: the int64 or float64 values, whichever the column has,
    infinities included.  Two numbers are one when pandas finds them equal
    as group keys ([number_eqb]); [number_leb] is their order.  [zero] is
    the [0] that
    [replace('NR', 0)] and [fillna(0)] put into a column.
    [parse_number s] is [pd.to_numeric] on the string [s], [None] when it
    reads no number (or reads NaN).  [str_of_number] is [str()] of a
    number, behind [astype(str)].  [sum_numbers xs] is the sum of [xs], in
    this order, as [groupby(...).sum()] computes it in the arithmetic of
    the column: it rounds as float64 does and wraps as int64 does, and it
    is [None] when the sum is NaN (as is the sum of the two infinities). *)
Class Conversions := {
  number : Type;
  number_eqb : number -> number -> bool;
  number_eqb_eq : forall x y : number, number_eqb x y = true <-> x = y;
  number_leb : number -> number -> bool;
  zero : number;
  parse_number : string -> option number;
  str_of_number : number -> string;
  sum_numbers : list number -> option number
}.

(** ** Strings *)

(** A string is held as its UTF-8 bytes.  Python's [str.isspace] takes
    for white space the characters U+0009 to U+000D and U+001C to U+0020
    (one byte each), U+0085 and U+00A0 (two bytes), and U+1680, U+2000 to
    U+200A, U+2028, U+2029, U+202F, U+205F and U+3000 (three bytes). *)
Definition is_space (a : ascii) : bool :=
  let n := nat_of_ascii a in
  (Nat.leb 9 n && Nat.leb n 13) || (Nat.leb 28 n && Nat.leb n 32).

Definition is_space2 (a b : ascii) : bool :=
  Nat.eqb (nat_of_ascii a) 194
  && (Nat.eqb (nat_of_ascii b) 133 || Nat.eqb (nat_of_ascii b) 160).

Definition is_space3 (a b c : ascii) : bool :=
  let x := nat_of_ascii a in
  let y := nat_of_ascii b in
  let z := nat_of_ascii c in
  (Nat.eqb x 225 && Nat.eqb y 154 && Nat.eqb z 128)
  || (Nat.eqb x 226 && Nat.eqb y 128
      && ((Nat.leb 128 z && Nat.leb z 138)
          || Nat.eqb z 168 || Nat.eqb z 169 || Nat.eqb z 175))
  || (Nat.eqb x 226 && Nat.eqb y 129 && Nat.eqb z 159)
  || (Nat.eqb x 227 && Nat.eqb y 128 && Nat.eqb z 128).

(** Drop the white-space characters a list of bytes begins with, for
    characters of one, two and three bytes. *)
Fixpoint lstrip_with (sp1 : ascii -> bool) (sp2 : ascii -> ascii -> bool)
    (sp3 : ascii -> ascii -> ascii -> bool) (s : list ascii) : list ascii :=
  match s with
  | [] => []
  | a :: s1 =>
      if sp1 a then lstrip_with sp1 sp2 sp3 s1
      else
        match s1 with
        | [] => s
        | b :: s2 =>
            if sp2 a b then lstrip_with sp1 sp2 sp3 s2
            else
              match s2 with
              | [] => s
              | c :: s3 =>
                  if sp3 a b c then lstrip_with sp1 sp2 sp3 s3 else s
              end
        end
  end.

(** [str.lstrip()]. *)
Definition lstrip (s : list ascii) : list ascii :=
  lstrip_with is_space is_space2 is_space3 s.

(** [str.rstrip()]: the same from the end, where the bytes of a character
    are met last byte first. *)
Definition rstrip (s : list ascii) : list ascii :=
  rev (lstrip_with is_space (fun a b => is_space2 b a)
         (fun a b c => is_space3 c b a) (rev s)).

(** [str.strip()]. *)
Definition strip (s : string) : string :=
  string_of_list_ascii (rstrip (lstrip (list_ascii_of_string s))).

Fixpoint renamed (mapping : list (string * string)) (label : string) : string :=
  match mapping with
  | [] => label
  | (old, new) :: mapping' =>
      if String.eqb old label then new else renamed mapping' label
  end.

Section Frames.
Context `{pandas : Conversions}.

(** A cell of a frame read from a CSV file: a number, a string, or the
    missing marker. *)
Inductive cell :=
| Num (x : number)
| Str (s : string)
| NaN.

(** A row maps column labels to cells; a frame keeps its labels apart
    from its rows, as an empty frame still has columns. *)
Definition row := list (string * cell).

Record DataFrame := mkDataFrame {
  columns : list string;
  rows : list row
}.

Definition len (df : DataFrame) : nat := List.length (rows df).

Definition isna (c : cell) : bool :=
  match c with NaN => true | _ => false end.

Definition notna (c : cell) : bool := negb (isna c).

(** The cell of a row under a label; a row that lacks it (a short line of
    the file) reads as missing. *)
Fixpoint get (r : row) (label : string) : cell :=
  match r with
  | [] => NaN
  | (k, v) :: r' => if String.eqb k label then v else get r' label
  end.

Fixpoint set (r : row) (label : string) (v : cell) : row :=
  match r with
  | [] => [(label, v)]
  | (k, w) :: r' =>
      if String.eqb k label then (k, v) :: r' else (k, w) :: set r' label v
  end.

(** [df[label]] is a Series exactly when one column carries the label:
    none is a [KeyError], and with several the Series methods the scripts
    call on the result do not exist. *)
Definition has_column (df : DataFrame) (label : string) : bool :=
  Nat.eqb (count_occ string_dec (columns df) label) 1.

(** [df[label] = f(df[label])], cell by cell. *)
Definition update_column (f : cell -> cell) (label : string) (df : DataFrame)
  : option DataFrame :=
  if has_column df label then
    Some {| columns := columns df;
            rows := map (fun r => set r label (f (get r label))) (rows df) |}
  else None.

(** [for col in labels: df[col] = f(df[col])]. *)
Fixpoint update_columns (f : cell -> cell) (labels : list string) (df : DataFrame)
  : option DataFrame :=
  match labels with
  | [] => Some df
  | col :: labels' =>
      match update_column f col df with
      | Some df' => update_columns f labels' df'
      | None => None
      end
  end.

(** [df[label] = v] for a constant [v]: overwrites the column or appends
    a new one. *)
Definition assign (label : string) (v : cell) (df : DataFrame) : DataFrame :=
  {| columns := if existsb (String.eqb label) (columns df)
                then columns df else columns df ++ [label];
     rows := map (fun r => set r label v) (rows df) |}.

Definition rename_row (mapping : list (string * string)) (r : row) : row :=
  map (fun kv => (renamed mapping (fst kv), snd kv)) r.

(** [df.rename(columns=mapping)]. *)
Definition rename (mapping : list (string * string)) (df : DataFrame) : DataFrame :=
  {| columns := map (renamed mapping) (columns df);
     rows := map (rename_row mapping) (rows df) |}.

Definition select_row (labels : list string) (r : row) : row :=
  flat_map (fun l => filter (fun kv => String.eqb (fst kv) l) r) labels.

(** [df[labels]]: a [KeyError] when a label is absent; every column that
    carries a requested label is taken. *)
Definition select (labels : list string) (df : DataFrame) : option DataFrame :=
  if forallb (fun l => existsb (String.eqb l) (columns df)) labels then
    Some {| columns := flat_map (fun l => filter (String.eqb l) (columns df)) labels;
            rows := map (select_row labels) (rows df) |}
  else None.

(** [df.dropna(subset=[label])]. *)
Definition dropna (label : string) (df : DataFrame) : DataFrame :=
  {| columns := columns df;
     rows := filter (fun r => notna (get r label)) (rows df) |}.

(** ** Cell conversions *)

(** [Series.astype(str).str.strip()] on one cell; the missing marker
    becomes the string ["nan"]. *)
Definition astype_str_strip (c : cell) : cell :=
  match c with
  | Num x => Str (strip (str_of_number x))
  | Str s => Str (strip s)
  | NaN => Str (strip "nan")
  end.

(** [pd.to_numeric(_, errors='coerce')] on one cell. *)
Definition to_numeric (c : cell) : cell :=
  match c with
  | Num x => Num x
  | Str s => match parse_number s with
             | Some x => Num x
             | None => NaN
             end
  | NaN => NaN
  end.

(** [Series.replace(old, new)] on one cell, for a string [old]. *)
Definition replace (old : string) (new : cell) (c : cell) : cell :=
  match c with
  | Str s => if String.eqb s old then new else c
  | _ => c
  end.

(** [Series.fillna(v)] on one cell. *)
Definition fillna (v : cell) (c : cell) : cell :=
  match c with NaN => v | _ => c end.

(** ** Grouping *)

Definition cell_eqb (c d : cell) : bool :=
  match c, d with
  | Num x, Num y => number_eqb x y
  | Str s, Str u => String.eqb s u
  | NaN, NaN => true
  | _, _ => false
  end.

(** The order in which group keys are sorted: numbers by value, strings
    by code point; numbers before strings. *)
Definition cell_leb (c d : cell) : bool :=
  match c, d with
  | Num x, Num y => number_leb x y
  | Num _, _ => true
  | Str _, Num _ => false
  | Str s, Str u => String.leb s u
  | Str _, NaN => true
  | NaN, NaN => true
  | NaN, _ => false
  end.

Definition key := list cell.

Fixpoint key_eqb (k k' : key) : bool :=
  match k, k' with
  | [], [] => true
  | c :: k1, d :: k1' => cell_eqb c d && key_eqb k1 k1'
  | _, _ => false
  end.

Fixpoint key_leb (k k' : key) : bool :=
  match k, k' with
  | [], _ => true
  | _ :: _, [] => false
  | c :: k1, d :: k1' =>
      if cell_eqb c d then key_leb k1 k1' else cell_leb c d
  end.

(** The key of a row under [groupby(by)]; with the default [dropna=True]
    a row with a missing key cell belongs to no group. *)
Definition group_key (by_ : list string) (r : row) : option key :=
  let k := map (get r) by_ in
  if existsb isna k then None else Some k.

(** The numbers among the cells of a group: [sum] skips the missing
    ones.  (The scripts group a column that holds no strings.) *)
Definition numbers_of (cells : list cell) : list number :=
  flat_map (fun c => match c with Num x => [x] | _ => [] end) cells.

(** [sum()] of the cells of one group, in their order. *)
Definition sum_cells (cells : list cell) : cell :=
  match sum_numbers (numbers_of cells) with
  | Some x => Num x
  | None => NaN
  end.

(** Put one cell into its group, after the cells that are there, opening
    the group at the end when the key is new. *)
Fixpoint accumulate (k : key) (v : cell) (groups : list (key * list cell))
  : list (key * list cell) :=
  match groups with
  | [] => [(k, [v])]
  | (k', vs) :: groups' =>
      if key_eqb k k' then (k', vs ++ [v]) :: groups'
      else (k', vs) :: accumulate k v groups'
  end.

(** The groups of the rows with the cells of the column [value], each
    group in the order of its rows. *)
Definition group_values (by_ : list string) (value : string) (rs : list row)
  : list (key * list cell) :=
  fold_left
    (fun groups r =>
       match group_key by_ r with
       | Some k => accumulate k (get r value) groups
       | None => groups
       end)
    rs [].

(** The groups with their sums. *)
Definition group_sums (by_ : list string) (value : string) (rs : list row)
  : list (key * cell) :=
  map (fun g => (fst g, sum_cells (snd g))) (group_values by_ value rs).

Fixpoint insert_sorted (g : key * cell) (gs : list (key * cell)) : list (key * cell) :=
  match gs with
  | [] => [g]
  | g' :: gs' =>
      if key_leb (fst g) (fst g') then g :: g' :: gs'
      else g' :: insert_sorted g gs'
  end.

Fixpoint sort_groups (gs : list (key * cell)) : list (key * cell) :=
  match gs with
  | [] => []
  | g :: gs' => insert_sorted g (sort_groups gs')
  end.

Definition group_row (by_ : list string) (value : string) (g : key * cell) : row :=
  combine by_ (fst g) ++ [(value, snd g)].

(** [df.groupby(by)[value].sum().reset_index()]: one row per group, the
    groups sorted by key. *)
Definition groupby_sum (by_ : list string) (value : string) (df : DataFrame)
  : option DataFrame :=
  if forallb (has_column df) by_ && has_column df value then
    Some {| columns := by_ ++ [value];
            rows := map (group_row by_ value)
                        (sort_groups (group_sums by_ value (rows df))) |}
  else None.

End Frames.

End Pandas.

(* ================================================================== *)
(** * db_creator.py *)
(* ================================================================== *)

Module DbCreator.
Import Http Pandas.

Section Cleaning.
Context `{pandas : Conversions}.

Definition CROP_FILE := "raw_crop_data.csv".
Definition RAIN_FILE := "raw_rainfall_data.csv".
Definition DB_FILE := "data.gov.db".

Definition CROP_API_URL :=
  "https.api.data.gov.in/resource/35be999b-0208-4354-b557-f6ca9a5355de".
Definition RAIN_API_URL :=
  "https.api.data.gov.in/resource/6c05cd1b-ed59-40c2-bc31-e314f39c6971".

(** ** Files *)

Definition database := list (string * DataFrame).

Inductive file :=
| CsvFile (df : DataFrame)
| SqliteFile (tables : database).

Definition filesystem := string -> option file.

Definition write (fs : filesystem) (path : string) (f : file) : filesystem :=
  fun p => if String.eqb p path then Some f else fs p.

Definition remove (fs : filesystem) (path : string) : filesystem :=
  fun p => if String.eqb p path then None else fs p.

Inductive read :=
| Frame (df : DataFrame)
| FileNotFoundError
| ParserError.

(** [pd.read_csv(filepath, low_memory=False)]. *)
Definition read_csv (fs : filesystem) (filepath : string) : read :=
  match fs filepath with
  | Some (CsvFile df) => Frame df
  | Some (SqliteFile _) => ParserError
  | None => FileNotFoundError
  end.

(** What the script prints. *)
Inductive message :=
| NotFound (filepath : string)
| Processing (n : nat) (filepath : string)
| Dropped (dropped_count : nat)
| Aggregating
| Complete (n : nat)
| RemovedOld
| Saving
| Saved (table : string)
| BuildComplete
| SaveError
| BuildFailed.

(** ** process_crop_data *)

Definition crop_renames : list (string * string) :=
  [ ("state_name", "state"); ("district_name", "district");
    ("crop_year", "year"); ("season", "season"); ("crop", "crop");
    ("area_", "area_hectares"); ("production_", "production_tonnes") ].

Definition crop_str_cols := ["state"; "district"; "crop"; "season"].
Definition crop_num_cols := ["area_hectares"; "production_tonnes"].
Definition crop_final_cols :=
  ["state"; "district"; "year"; "season"; "crop"; "area_hectares";
   "production_tonnes"; "source_name"; "source_url"].

Definition process_crop_data (fs : filesystem) (filepath : string)
  : list message * outcome (option DataFrame) :=
  match read_csv fs filepath with
  | FileNotFoundError => ([NotFound filepath], Returned None)
  | ParserError => ([], Raised)
  | Frame df =>
      let printed := [Processing (len df) filepath] in
      (* 1. Rename Columns *)
      let df := rename crop_renames df in
      (* 2. Clean String Data *)
      match update_columns astype_str_strip crop_str_cols df with
      | None => (printed, Raised)
      | Some df =>
      (* 3. Handle Bad Numeric Data *)
      match update_columns to_numeric crop_num_cols df with
      | None => (printed, Raised)
      | Some df =>
      (* 4. Handle Missing Data *)
      let original_count := len df in
      let df := dropna "production_tonnes" df in
      let dropped_count := (original_count - len df)%nat in
      let printed :=
        printed ++ (if Nat.ltb 0 dropped_count then [Dropped dropped_count] else []) in
      (* 5. Add Traceability *)
      let df := assign "source_name"
                  (Str "District-wise, season-wise crop production statistics") df in
      let df := assign "source_url" (Str CROP_API_URL) df in
      match select crop_final_cols df with
      | None => (printed, Raised)
      | Some df_clean =>
          (printed ++ [Complete (len df_clean)], Returned (Some df_clean))
      end
      end
      end
  end.

(** ** process_rainfall_data *)

Definition rain_renames : list (string * string) :=
  [ ("State", "state"); ("District", "district"); ("Year", "year");
    ("Avg_rainfall", "rainfall_mm") ].

Definition rain_str_cols := ["state"; "district"].
Definition rain_by := ["state"; "district"; "year"].

(** Steps 3a, 3b, 3c on one cell of [rainfall_mm]. *)
Definition rain_repair (c : cell) : cell :=
  fillna (Num zero) (to_numeric (replace "NR" (Num zero) c)).

Definition process_rainfall_data (fs : filesystem) (filepath : string)
  : list message * outcome (option DataFrame) :=
  match read_csv fs filepath with
  | FileNotFoundError => ([NotFound filepath], Returned None)
  | ParserError => ([], Raised)
  | Frame df =>
      let printed := [Processing (len df) filepath] in
      (* 1. Rename Columns *)
      let df := rename rain_renames df in
      (* 2. Clean String Data *)
      match update_columns astype_str_strip rain_str_cols df with
      | None => (printed, Raised)
      | Some df =>
      (* 3. Handle Bad Numeric Data *)
      match update_column (replace "NR" (Num zero)) "rainfall_mm" df with
      | None => (printed, Raised)
      | Some df =>
      match update_column to_numeric "rainfall_mm" df with
      | None => (printed, Raised)
      | Some df =>
      match update_column (fillna (Num zero)) "rainfall_mm" df with
      | None => (printed, Raised)
      | Some df =>
      (* 4. The Core Transformation (Aggregation) *)
      let printed := printed ++ [Aggregating] in
      match groupby_sum rain_by "rainfall_mm" df with
      | None => (printed, Raised)
      | Some annual_rainfall =>
      let annual_rainfall :=
        rename [("rainfall_mm", "annual_rainfall_mm")] annual_rainfall in
      (* 5. Add Traceability *)
      let annual_rainfall :=
        assign "source_name"
          (Str "Daily District-wise Rainfall Data (Aggregated to Annual)")
          annual_rainfall in
      let annual_rainfall := assign "source_url" (Str RAIN_API_URL) annual_rainfall in
      (printed ++ [Complete (len annual_rainfall)], Returned (Some annual_rainfall))
      end
      end
      end
      end
      end
  end.

(** ** main *)

(** [df.to_sql(name, conn, if_exists="replace", index=False)]: the table
    of that name is replaced; SQLite refuses a table with two columns of
    one name. *)
Fixpoint replace_table (name : string) (df : DataFrame) (db : database) : database :=
  match db with
  | [] => [(name, df)]
  | (n, t) :: db' =>
      if String.eqb n name then (n, df) :: db'
      else (n, t) :: replace_table name df db'
  end.

Fixpoint distinct (labels : list string) : bool :=
  match labels with
  | [] => true
  | l :: labels' => negb (existsb (String.eqb l) labels') && distinct labels'
  end.

Definition to_sql (name : string) (df : DataFrame) (db : database) : option database :=
  if distinct (columns df) then Some (replace_table name df db) else None.

Definition exists_ (fs : filesystem) (path : string) : bool :=
  match fs path with Some _ => true | None => false end.

(** [main()]: the file system it leaves, what it printed, and whether an
    exception left it. *)
Definition main (fs : filesystem)
  : filesystem * list message * outcome unit :=
  let '(printed1, df_crop_clean) := process_crop_data fs CROP_FILE in
  match df_crop_clean with
  | Raised => (fs, printed1, Raised)
  | Returned df_crop_clean =>
  let '(printed2, df_rain_clean) := process_rainfall_data fs RAIN_FILE in
  let printed := printed1 ++ printed2 in
  match df_rain_clean with
  | Raised => (fs, printed, Raised)
  | Returned df_rain_clean =>
  match df_crop_clean, df_rain_clean with
  | Some df_crop_clean, Some df_rain_clean =>
      let '(fs, printed) :=
        if exists_ fs DB_FILE
        then (remove fs DB_FILE, printed ++ [RemovedOld])
        else (fs, printed) in
      (* conn = sqlite3.connect(DB_FILE) *)
      let fs := write fs DB_FILE (SqliteFile []) in
      let printed := printed ++ [Saving] in
      match to_sql "agriculture_production" df_crop_clean [] with
      | None => (fs, printed ++ [SaveError], Returned tt)
      | Some db =>
      let fs := write fs DB_FILE (SqliteFile db) in
      let printed := printed ++ [Saved "agriculture_production"] in
      match to_sql "climate_rainfall" df_rain_clean db with
      | None => (fs, printed ++ [SaveError], Returned tt)
      | Some db =>
      let fs := write fs DB_FILE (SqliteFile db) in
      let printed := printed ++ [Saved "climate_rainfall"] in
      (fs, printed ++ [BuildComplete], Returned tt)
      end
      end
  | _, _ => (fs, printed ++ [BuildFailed], Returned tt)
  end
  end
  end.

End Cleaning.

End DbCreator.

(* ================================================================== *)
(** * Sample inputs *)
(* ================================================================== *)

Module Samples.
Import Http.

(** The page of a record set [db] that a request asks for. *)
Definition page (db : list record) (req : request) : list record :=
  firstn (Z.to_nat (limit req)) (skipn (Z.to_nat (offset req)) db).

(** A well-behaved API over a fixed record set. *)
Definition api (db : list record) : server :=
  fun _ req => Response 200 (JDict (Some (page db req))).

(** The network is down: no call gets a response. *)
Definition unreachable : server := fun _ _ => NoResponse.

(** The API key is refused: every call is answered 403. *)
Definition refused : server := fun _ _ => Response 403 JOther.

Definition a_record : record := [("State", "Goa"); ("Year", "2019")].

(** One record for the first query, 403 ever after. *)
Definition refused_after_first : server :=
  fun t _ =>
    match t with
    | O => Response 200 (JDict (Some [a_record]))
    | _ => Response 403 JOther
    end.

(** One full page, 403 ever after. *)
Definition refused_after_full_page : server :=
  fun t _ =>
    match t with
    | O => Response 200 (JDict (Some (repeat a_record 1000)))
    | _ => Response 403 JOther
    end.

(** A server whose body is the JSON string ["FATAL_ERROR"]. *)
Definition says_fatal : server := fun _ _ => Response 200 (JString "FATAL_ERROR").

End Samples.

Module TableSamples.
Import Http Pandas DbCreator.

(** A stand-in for the library, enough to run the examples: its numbers
    are the rationals, read from plain decimal literals ([12], [-3.5]),
    printed as reduced fractions, and summed without rounding. *)
Definition digit (a : ascii) : option Z :=
  let n := nat_of_ascii a in
  if Nat.leb 48 n && Nat.leb n 57 then Some (Z.of_nat (n - 48)) else None.

Fixpoint decimal (s : string) (mantissa : Z) (scale : option positive) (seen : bool)
  : option Q :=
  match s with
  | EmptyString =>
      if seen
      then Some (mantissa # match scale with Some p => p | None => 1 end)
      else None
  | String a s' =>
      match digit a with
      | Some d => decimal s' (10 * mantissa + d) (option_map (Pos.mul 10) scale) true
      | None =>
          match scale with
          | None => if Ascii.eqb a "." then decimal s' mantissa (Some 1%positive) seen
                    else None
          | Some _ => None
          end
      end
  end.

Definition parse_decimal (s : string) : option Qc :=
  match s with
  | String a s' =>
      if Ascii.eqb a "-"
      then option_map (fun q => Q2Qc (- q)) (decimal s' 0 None false)
      else option_map Q2Qc (decimal s 0 None false)
  | EmptyString => None
  end.

Definition print_fraction (x : Qc) : string :=
  NilZero.string_of_int (Z.to_int (Qnum x)) ++ "/" ++
  NilZero.string_of_uint (Pos.to_uint (Qden x)).

Definition Qc_eqb (x y : Qc) : bool := Qeq_bool x y.

Lemma Qc_eqb_eq (x y : Qc) : Qc_eqb x y = true <-> x = y.
Proof.
  unfold Qc_eqb. rewrite Qeq_bool_iff. split.
  - apply Qc_is_canon.
  - intros ->. reflexivity.
Qed.

Definition Qc_leb (x y : Qc) : bool := Qle_bool x y.

Definition exact_sum (xs : list Qc) : option Qc :=
  Some (fold_right Qcplus (Q2Qc 0) xs).

Definition plain_decimals : Conversions :=
  {| number := Qc;
     number_eqb := Qc_eqb;
     number_eqb_eq := Qc_eqb_eq;
     number_leb := Qc_leb;
     zero := Q2Qc 0;
     parse_number := parse_decimal;
     str_of_number := print_fraction;
     sum_numbers := exact_sum |}.

#[local] Existing Instance plain_decimals.

(** A file system that holds one CSV file. *)
Definition only (path : string) (df : DataFrame) : filesystem :=
  fun p => if String.eqb p path then Some (CsvFile df) else None.

Definition crop_columns :=
  ["state_name"; "district_name"; "crop_year"; "season"; "crop"; "area_"; "production_"].

Definition crop_row (state : string) (year : Qc) (production : cell) : row :=
  [ ("state_name", Str state); ("district_name", Str "LUDHIANA");
    ("crop_year", Num year); ("season", Str "Kharif     "); ("crop", Str "Rice");
    ("area_", Num (Q2Qc 10)); ("production_", production) ].

(** The crop example of the specification: one good row and one row
    without a production figure. *)
Definition crop_example : DataFrame :=
  {| columns := crop_columns;
     rows := [ crop_row " Punjab " (Q2Qc 2005) (Num (Q2Qc (1234 # 10)));
               crop_row "Punjab" (Q2Qc 2006) NaN ] |}.

(** A crop table whose second row carries the sentinel in place of the
    production figure. *)
Definition crop_with_sentinel : DataFrame :=
  {| columns := crop_columns;
     rows := [ crop_row "Punjab" (Q2Qc 2005) (Str "12.5");
               crop_row "Punjab" (Q2Qc 2006) (Str "NR") ] |}.

Definition rain_columns := ["State"; "District"; "Year"; "Avg_rainfall"].

Definition rain_row (year rainfall : cell) : row :=
  [ ("State", Str "Goa"); ("District", Str "Panaji"); ("Year", year);
    ("Avg_rainfall", rainfall) ].

(** The rainfall example of the specification. *)
Definition rain_example : DataFrame :=
  {| columns := rain_columns;
     rows := [ rain_row (Num (Q2Qc 2019)) (Str "100");
               rain_row (Num (Q2Qc 2019)) (Str "NR") ] |}.

(** A rainfall table with two daily rows, the second without a year. *)
Definition rain_without_year : DataFrame :=
  {| columns := rain_columns;
     rows := [ rain_row (Num (Q2Qc 2019)) (Num (Q2Qc 5));
               rain_row NaN (Num (Q2Qc 7)) ] |}.

End TableSamples.

(* ================================================================== *)
(** * The fetch loops *)
(* ================================================================== *)

Module FetchFacts.
Import Http.

(** [k] failed rounds of the retry loop on one request. *)
Fixpoint failed_rounds (req : request) (k : nat) : list event :=
  match k with
  | O => []
  | S k' => Get req :: Sleep 3 :: failed_rounds req k'
  end.

(** The next [k] calls, whatever they ask, get no response. *)
Definition down (srv : server) (t k : nat) : Prop :=
  forall i req, (i < k)%nat -> srv (t + i)%nat req = NoResponse.

(** The next [k] calls, whatever they ask, are answered with [status]. *)
Definition answers (srv : server) (status : Z) (t k : nat) : Prop :=
  forall i req, (i < k)%nat -> exists body, srv (t + i)%nat req = Response status body.

Lemma down_tail srv t k : down srv t (S k) -> down srv (S t) k.
Proof.
  intros H i req Hi. replace (S t + i)%nat with (t + S i)%nat by lia.
  apply H. lia.
Qed.

Lemma answers_tail srv st t k : answers srv st t (S k) -> answers srv st (S t) k.
Proof.
  intros H i req Hi. replace (S t + i)%nat with (t + S i)%nat by lia.
  apply H. lia.
Qed.

Lemma extended_offsets_app tr1 tr2 :
  extended_offsets (tr1 ++ tr2) = extended_offsets tr1 ++ extended_offsets tr2.
Proof.
  induction tr1 as [|e tr1 IH]; simpl; [reflexivity|].
  destruct e; simpl; rewrite IH; reflexivity.
Qed.

Lemma extended_counts_app tr1 tr2 :
  extended_counts (tr1 ++ tr2) = extended_counts tr1 ++ extended_counts tr2.
Proof.
  induction tr1 as [|e tr1 IH]; simpl; [reflexivity|].
  destruct e; simpl; rewrite IH; reflexivity.
Qed.

Lemma count_gets_app tr1 tr2 :
  count_gets (tr1 ++ tr2) = (count_gets tr1 + count_gets tr2)%nat.
Proof. unfold count_gets. rewrite filter_app, length_app. reflexivity. Qed.

Lemma forbidden_is_dead r : Rainfall.forbidden r = false.
Proof.
  destruct r as [code body|]; [|reflexivity].
  unfold Rainfall.forbidden, Response_ok, raises_for_status.
  destruct (code =? 403) eqn:E; [|apply andb_false_r].
  apply Z.eqb_eq in E. subst code. reflexivity.
Qed.

(** ** crop_data.py *)

Module Crop.
Import CropData.

Lemma crop_retry_loop_down srv req : forall k n t,
  down srv t k ->
  retry_loop srv req (k + n) t =
    let '(a, t', tr) := retry_loop srv req n (t + k) in
    (a, t', failed_rounds req k ++ tr).
Proof.
  induction k as [|k IH]; intros n t H.
  - simpl. rewrite Nat.add_0_r. destruct (retry_loop srv req n t) as [[a t'] tr].
    reflexivity.
  - simpl. rewrite <- (Nat.add_0_r t) at 1. rewrite (H 0%nat req) by lia.
    rewrite (IH n (S t) (down_tail _ _ _ H)).
    replace (S t + k)%nat with (t + S k)%nat by lia.
    destruct (retry_loop srv req n (t + S k)) as [[a t'] tr]. reflexivity.
Qed.

Lemma crop_retry_loop_answers srv req st : forall k n t,
  raises_for_status st = true ->
  answers srv st t k ->
  retry_loop srv req (k + n) t =
    let '(a, t', tr) := retry_loop srv req n (t + k) in
    (a, t', failed_rounds req k ++ tr).
Proof.
  induction k as [|k IH]; intros n t Hst H.
  - simpl. rewrite Nat.add_0_r. destruct (retry_loop srv req n t) as [[a t'] tr].
    reflexivity.
  - simpl. destruct (H 0%nat req) as [body Hb]; [lia|].
    rewrite Nat.add_0_r in Hb. rewrite Hb, Hst.
    rewrite (IH n (S t) Hst (answers_tail _ _ _ _ H)).
    replace (S t + k)%nat with (t + S k)%nat by lia.
    destruct (retry_loop srv req n (t + S k)) as [[a t'] tr]. reflexivity.
Qed.

Lemma crop_retry_loop_trace srv req : forall n t a t' tr,
  retry_loop srv req n t = (a, t', tr) ->
  extended_offsets tr = [] /\ extended_counts tr = [].
Proof.
  induction n as [|n IH]; intros t a t' tr H; simpl in H.
  - inversion H; subst. split; reflexivity.
  - destruct (srv t req) as [code body|].
    + destruct (raises_for_status code).
      * destruct (retry_loop srv req n (S t)) as [[a1 t1] tr1] eqn:E.
        inversion H; subst. simpl. exact (IH _ _ _ _ E).
      * inversion H; subst. split; reflexivity.
    + destruct (retry_loop srv req n (S t)) as [[a1 t1] tr1] eqn:E.
      inversion H; subst. simpl. exact (IH _ _ _ _ E).
Qed.

Lemma crop_fetch_loop_more_fuel srv resource : forall fuel fuel' offset all_records t x,
  fetch_loop srv resource fuel offset all_records t = Some x ->
  (fuel <= fuel')%nat ->
  fetch_loop srv resource fuel' offset all_records t = Some x.
Proof.
  induction fuel as [|fuel IH]; intros fuel' offset all_records t x H Hle;
    [discriminate|].
  destruct fuel' as [|fuel']; [lia|].
  cbn [fetch_loop] in *.
  destruct (retry_loop srv (params resource offset) max_retries t) as [[a t1] tr].
  destruct a as [data|]; [|exact H].
  destruct (get_records data) as [[|r records]|]; try exact H.
  destruct (Z.of_nat (List.length (r :: records)) <? limit); [exact H|].
  destruct (fetch_loop srv resource fuel (offset + limit) (all_records ++ r :: records) t1)
    as [[[r1 t2] tr2]|] eqn:E; [|discriminate].
  rewrite (IH fuel' _ _ _ _ E) by lia. exact H.
Qed.

Lemma crop_retry_loop_ok srv req n t code body :
  srv t req = Response code body ->
  raises_for_status code = false ->
  retry_loop srv req (S n) t = (Got body, S t, [Get req]).
Proof. intros H Hc. simpl. rewrite H, Hc. reflexivity. Qed.

(** Against the well-behaved API the loop walks the record set page by
    page and returns all of it. *)
Lemma crop_fetch_loop_api db resource : forall fuel offset all_records t,
  0 <= offset ->
  (List.length (skipn (Z.to_nat offset) db) / 1000 < fuel)%nat ->
  exists tr,
    fetch_loop (Samples.api db) resource fuel offset all_records t =
      Some (Returned (all_records ++ skipn (Z.to_nat offset) db),
            (t + List.length (skipn (Z.to_nat offset) db) / 1000 + 1)%nat, tr)
    /\ count_gets tr = (List.length (skipn (Z.to_nat offset) db) / 1000 + 1)%nat.
Proof.
  induction fuel as [|fuel IH]; intros offset all_records t Ho Hfuel; [lia|].
  cbn [fetch_loop]. change max_retries with 5%nat.
  rewrite (crop_retry_loop_ok _ _ _ _ 200 (JDict (Some (Samples.page db (params resource offset)))))
    by reflexivity.
  cbn [get_records]. unfold Samples.page. cbn [Http.limit Http.offset params].
  change (Z.to_nat limit) with 1000%nat.
  set (rest := skipn (Z.to_nat offset) db) in *.
  destruct (Nat.ltb (List.length rest) 1000) eqn:Hshort.
  - apply Nat.ltb_lt in Hshort.
    rewrite firstn_all2 by lia.
    rewrite (Nat.div_small (List.length rest) 1000) by exact Hshort.
    destruct rest as [|r rest'] eqn:Hrest.
    + exists [Get (params resource offset)]. rewrite app_nil_r.
      split; [f_equal; f_equal; f_equal; lia | reflexivity].
    + assert (Hlt : (Z.of_nat (List.length (r :: rest')) <? limit) = true)
        by (apply Z.ltb_lt; unfold limit; lia).
      rewrite Hlt. eexists. split; [f_equal; f_equal; f_equal; lia|].
      reflexivity.
  - apply Nat.ltb_ge in Hshort.
    assert (Hlen : List.length (firstn 1000 rest) = 1000%nat)
      by (rewrite length_firstn; lia).
    destruct (firstn 1000 rest) as [|r first] eqn:Hfirst; [discriminate|].
    assert (Hge : (Z.of_nat (List.length (r :: first)) <? limit) = false)
      by (apply Z.ltb_ge; unfold limit; lia).
    rewrite Hge.
    assert (Hskip : skipn (Z.to_nat (offset + limit)) db = skipn 1000 rest).
    { unfold rest. rewrite skipn_skipn. f_equal. unfold limit. lia. }
    assert (Hdiv : (List.length rest / 1000 =
                    S (List.length (skipn 1000 rest) / 1000))%nat).
    { rewrite length_skipn.
      replace (List.length rest) with
        ((List.length rest - 1000) + 1 * 1000)%nat at 1 by lia.
      rewrite Nat.div_add by lia. lia. }
    destruct (IH (offset + limit) (all_records ++ r :: first) (S t))
      as [tr [Hrun Hgets]].
    { unfold limit. lia. }
    { rewrite Hskip. lia. }
    rewrite Hrun. eexists. split.
    + f_equal. f_equal. f_equal.
      * f_equal. rewrite Hskip, <- app_assoc, <- Hfirst.
        rewrite firstn_skipn. reflexivity.
      * rewrite Hskip. lia.
    + rewrite count_gets_app, Hgets, Hskip, Hdiv. reflexivity.
Qed.

(** Whatever the server answers, a returned list is the concatenation
    of the pages appended at offsets [offset], [offset + limit], ... *)
Lemma crop_fetch_loop_pages srv resource : forall fuel offset all_records t rs t' tr,
  fetch_loop srv resource fuel offset all_records t = Some (Returned rs, t', tr) ->
  exists pages : list (list record),
    rs = all_records ++ List.concat pages
    /\ extended_counts tr = map (@List.length record) pages
    /\ extended_offsets tr =
         map (fun i => offset + Z.of_nat i * limit) (seq 0 (List.length pages)).
Proof.
  induction fuel as [|fuel IH]; intros offset all_records t rs t' tr H;
    [discriminate|].
  cbn [fetch_loop] in H.
  destruct (retry_loop srv (params resource offset) max_retries t)
    as [[a t1] tr1] eqn:Hretry.
  destruct (crop_retry_loop_trace _ _ _ _ _ _ _ Hretry) as [Hoff Hcnt].
  destruct a as [data|].
  - destruct (get_records data) as [[|r records]|]; [| |discriminate].
    + inversion H; subst. exists []. simpl. rewrite app_nil_r. auto.
    + destruct (Z.of_nat (List.length (r :: records)) <? limit).
      * inversion H; subst. exists [r :: records].
        rewrite extended_counts_app, extended_offsets_app, Hoff, Hcnt.
        simpl. rewrite app_nil_r. repeat split. f_equal. lia.
      * destruct (fetch_loop srv resource fuel (offset + limit)
                    (all_records ++ r :: records) t1)
          as [[[r1 t2] tr2]|] eqn:E; [|discriminate].
        inversion H; subst.
        destruct (IH _ _ _ _ _ _ E) as [pages [Hrs [Hc Ho]]].
        exists ((r :: records) :: pages).
        rewrite !extended_counts_app, !extended_offsets_app, Hoff, Hcnt, Hc, Ho.
        cbn [List.concat map seq List.length app extended_counts extended_offsets].
        repeat split.
        -- rewrite Hrs, <- app_assoc. reflexivity.
        -- f_equal; [lia|]. rewrite <- seq_shift, map_map.
           apply map_ext. intros i. lia.
  - inversion H; subst. exists []. simpl. rewrite app_nil_r. auto.
Qed.

End Crop.

(** ** rainfall.py *)

Module Rain.
Import Rainfall.

Lemma rain_retry_loop_down srv req : forall k n t,
  down srv t k ->
  retry_loop srv req (k + n) t =
    let '(a, t', tr) := retry_loop srv req n (t + k) in
    (a, t', failed_rounds req k ++ tr).
Proof.
  induction k as [|k IH]; intros n t H.
  - simpl. rewrite Nat.add_0_r. destruct (retry_loop srv req n t) as [[a t'] tr].
    reflexivity.
  - simpl. rewrite <- (Nat.add_0_r t) at 1. rewrite (H 0%nat req) by lia.
    rewrite (IH n (S t) (down_tail _ _ _ H)).
    replace (S t + k)%nat with (t + S k)%nat by lia.
    destruct (retry_loop srv req n (t + S k)) as [[a t'] tr]. reflexivity.
Qed.

Lemma rain_retry_loop_answers srv req st : forall k n t,
  raises_for_status st = true ->
  answers srv st t k ->
  retry_loop srv req (k + n) t =
    let '(a, t', tr) := retry_loop srv req n (t + k) in
    (a, t', failed_rounds req k ++ tr).
Proof.
  induction k as [|k IH]; intros n t Hst H.
  - simpl. rewrite Nat.add_0_r. destruct (retry_loop srv req n t) as [[a t'] tr].
    reflexivity.
  - cbn [retry_loop Nat.add]. destruct (H 0%nat req) as [body Hb]; [lia|].
    rewrite Nat.add_0_r in Hb. rewrite Hb, Hst, forbidden_is_dead.
    rewrite (IH n (S t) Hst (answers_tail _ _ _ _ H)).
    replace (S t + k)%nat with (t + S k)%nat by lia.
    destruct (retry_loop srv req n (t + S k)) as [[a t'] tr]. reflexivity.
Qed.

Lemma rain_retry_loop_ok srv req n t code body :
  srv t req = Response code body ->
  raises_for_status code = false ->
  retry_loop srv req (S n) t = (Got body, S t, [Get req]).
Proof. intros H Hc. simpl. rewrite H, Hc. reflexivity. Qed.

(** The retry loop never ends with the fatal signal. *)
Lemma rain_retry_loop_never_fatal srv req : forall n t,
  fst (fst (retry_loop srv req n t)) <> Fatal.
Proof.
  induction n as [|n IH]; intros t; cbn [retry_loop]; [discriminate|].
  destruct (srv t req) as [code body|].
  - destruct (raises_for_status code); [|discriminate].
    rewrite forbidden_is_dead. specialize (IH (S t)).
    destruct (retry_loop srv req n (S t)) as [[a t'] tr]. exact IH.
  - specialize (IH (S t)).
    destruct (retry_loop srv req n (S t)) as [[a t'] tr]. exact IH.
Qed.

Lemma rain_retry_loop_trace srv req : forall n t a t' tr,
  retry_loop srv req n t = (a, t', tr) ->
  extended_offsets tr = [] /\ extended_counts tr = [] /\ filter is_to_csv tr = [].
Proof.
  induction n as [|n IH]; intros t a t' tr H; cbn [retry_loop] in H.
  - inversion H; subst. repeat split.
  - destruct (srv t req) as [code body|]; rewrite ?forbidden_is_dead in H.
    + destruct (raises_for_status code).
      * destruct (retry_loop srv req n (S t)) as [[a1 t1] tr1] eqn:E.
        inversion H; subst. simpl. exact (IH _ _ _ _ E).
      * inversion H; subst. repeat split.
    + destruct (retry_loop srv req n (S t)) as [[a1 t1] tr1] eqn:E.
      inversion H; subst. simpl. exact (IH _ _ _ _ E).
Qed.

Lemma rain_fetch_loop_more_fuel srv resource qf : forall fuel fuel' offset all_records t x,
  fetch_loop srv resource qf fuel offset all_records t = Some x ->
  (fuel <= fuel')%nat ->
  fetch_loop srv resource qf fuel' offset all_records t = Some x.
Proof.
  induction fuel as [|fuel IH]; intros fuel' offset all_records t x H Hle;
    [discriminate|].
  destruct fuel' as [|fuel']; [lia|].
  cbn [fetch_loop] in *.
  destruct (retry_loop srv (params resource qf offset) max_retries t) as [[a t1] tr].
  destruct a as [data| |]; try exact H.
  destruct (json_is_string data "FATAL_ERROR"); [exact H|].
  destruct (get_records data) as [[|r records]|]; try exact H.
  destruct (Z.of_nat (List.length (r :: records)) <? limit); [exact H|].
  destruct (fetch_loop srv resource qf fuel (offset + limit) (all_records ++ r :: records) t1)
    as [[[r1 t2] tr2]|] eqn:E; [|discriminate].
  rewrite (IH fuel' _ _ _ _ E) by lia. exact H.
Qed.

Lemma rain_fetch_loop_api db resource qf : forall fuel offset all_records t,
  0 <= offset ->
  (List.length (skipn (Z.to_nat offset) db) / 1000 < fuel)%nat ->
  exists tr,
    fetch_loop (Samples.api db) resource qf fuel offset all_records t =
      Some (Returned (Records (all_records ++ skipn (Z.to_nat offset) db)),
            (t + List.length (skipn (Z.to_nat offset) db) / 1000 + 1)%nat, tr)
    /\ count_gets tr = (List.length (skipn (Z.to_nat offset) db) / 1000 + 1)%nat.
Proof.
  induction fuel as [|fuel IH]; intros offset all_records t Ho Hfuel; [lia|].
  cbn [fetch_loop]. change max_retries with 5%nat.
  rewrite (rain_retry_loop_ok _ _ _ _ 200
             (JDict (Some (Samples.page db (params resource qf offset)))))
    by reflexivity.
  cbn [json_is_string get_records]. unfold Samples.page.
  cbn [Http.limit Http.offset params].
  change (Z.to_nat limit) with 1000%nat.
  set (rest := skipn (Z.to_nat offset) db) in *.
  destruct (Nat.ltb (List.length rest) 1000) eqn:Hshort.
  - apply Nat.ltb_lt in Hshort.
    rewrite firstn_all2 by lia.
    rewrite (Nat.div_small (List.length rest) 1000) by exact Hshort.
    destruct rest as [|r rest'] eqn:Hrest.
    + exists [Get (params resource qf offset)]. rewrite app_nil_r.
      split; [f_equal; f_equal; f_equal; lia | reflexivity].
    + assert (Hlt : (Z.of_nat (List.length (r :: rest')) <? limit) = true)
        by (apply Z.ltb_lt; unfold limit; lia).
      rewrite Hlt. eexists. split; [f_equal; f_equal; f_equal; lia|].
      reflexivity.
  - apply Nat.ltb_ge in Hshort.
    assert (Hlen : List.length (firstn 1000 rest) = 1000%nat)
      by (rewrite length_firstn; lia).
    destruct (firstn 1000 rest) as [|r first] eqn:Hfirst; [discriminate|].
    assert (Hge : (Z.of_nat (List.length (r :: first)) <? limit) = false)
      by (apply Z.ltb_ge; unfold limit; lia).
    rewrite Hge.
    assert (Hskip : skipn (Z.to_nat (offset + limit)) db = skipn 1000 rest).
    { unfold rest. rewrite skipn_skipn. f_equal. unfold limit. lia. }
    assert (Hdiv : (List.length rest / 1000 =
                    S (List.length (skipn 1000 rest) / 1000))%nat).
    { rewrite length_skipn.
      replace (List.length rest) with
        ((List.length rest - 1000) + 1 * 1000)%nat at 1 by lia.
      rewrite Nat.div_add by lia. lia. }
    destruct (IH (offset + limit) (all_records ++ r :: first) (S t))
      as [tr [Hrun Hgets]].
    { unfold limit. lia. }
    { rewrite Hskip. lia. }
    rewrite Hrun. eexists. split.
    + f_equal. f_equal. f_equal.
      * f_equal. f_equal. rewrite Hskip, <- app_assoc, <- Hfirst.
        rewrite firstn_skipn. reflexivity.
      * rewrite Hskip. lia.
    + rewrite count_gets_app, Hgets, Hskip, Hdiv. reflexivity.
Qed.

Lemma rain_fetch_loop_pages srv resource qf : forall fuel offset all_records t rs t' tr,
  fetch_loop srv resource qf fuel offset all_records t =
    Some (Returned (Records rs), t', tr) ->
  exists pages : list (list record),
    rs = all_records ++ List.concat pages
    /\ extended_counts tr = map (@List.length record) pages
    /\ extended_offsets tr =
         map (fun i => offset + Z.of_nat i * limit) (seq 0 (List.length pages)).
Proof.
  induction fuel as [|fuel IH]; intros offset all_records t rs t' tr H;
    [discriminate|].
  cbn [fetch_loop] in H.
  destruct (retry_loop srv (params resource qf offset) max_retries t)
    as [[a t1] tr1] eqn:Hretry.
  destruct (rain_retry_loop_trace _ _ _ _ _ _ _ Hretry) as [Hoff [Hcnt _]].
  destruct a as [data| |]; [|discriminate|].
  - destruct (json_is_string data "FATAL_ERROR"); [discriminate|].
    destruct (get_records data) as [[|r records]|]; [| |discriminate].
    + inversion H; subst. exists []. simpl. rewrite app_nil_r. auto.
    + destruct (Z.of_nat (List.length (r :: records)) <? limit).
      * inversion H; subst. exists [r :: records].
        rewrite extended_counts_app, extended_offsets_app, Hoff, Hcnt.
        simpl. rewrite app_nil_r. repeat split. f_equal. lia.
      * destruct (fetch_loop srv resource qf fuel (offset + limit)
                    (all_records ++ r :: records) t1)
          as [[[r1 t2] tr2]|] eqn:E; [|discriminate].
        inversion H; subst.
        destruct (IH _ _ _ _ _ _ E) as [pages [Hrs [Hc Ho]]].
        exists ((r :: records) :: pages).
        rewrite !extended_counts_app, !extended_offsets_app, Hoff, Hcnt, Hc, Ho.
        cbn [List.concat map seq List.length app extended_counts extended_offsets].
        repeat split.
        -- rewrite Hrs, <- app_assoc. reflexivity.
        -- f_equal; [lia|]. rewrite <- seq_shift, map_map.
           apply map_ext. intros i. lia.
  - inversion H; subst. exists []. simpl. rewrite app_nil_r. auto.
Qed.

(** No loop of [main] writes a file. *)
Lemma fetch_loop_writes_nothing srv resource qf : forall fuel offset all_records t r t' tr,
  fetch_loop srv resource qf fuel offset all_records t = Some (r, t', tr) ->
  filter is_to_csv tr = [].
Proof.
  induction fuel as [|fuel IH]; intros offset all_records t r t' tr H;
    [discriminate|].
  cbn [fetch_loop] in H.
  destruct (retry_loop srv (params resource qf offset) max_retries t)
    as [[a t1] tr1] eqn:Hretry.
  destruct (rain_retry_loop_trace _ _ _ _ _ _ _ Hretry) as [_ [_ Hw]].
  destruct a as [data| |]; try (inversion H; subst; exact Hw).
  destruct (json_is_string data "FATAL_ERROR"); [inversion H; subst; exact Hw|].
  destruct (get_records data) as [[|r0 records]|];
    try (inversion H; subst; exact Hw).
  destruct (Z.of_nat (List.length (r0 :: records)) <? limit).
  - inversion H; subst. rewrite filter_app, Hw. reflexivity.
  - destruct (fetch_loop srv resource qf fuel (offset + limit)
                (all_records ++ r0 :: records) t1)
      as [[[r1 t2] tr2]|] eqn:E; [|discriminate].
    inversion H; subst. rewrite !filter_app, Hw, (IH _ _ _ _ _ _ E). reflexivity.
Qed.

Lemma states_loop_writes_nothing srv fuel year : forall states all_records t e t' tr,
  states_loop srv fuel year states all_records t = Some (e, t', tr) ->
  filter is_to_csv tr = [].
Proof.
  induction states as [|state states IH]; intros all_records t e t' tr H;
    cbn [states_loop] in H.
  - inversion H; subst. reflexivity.
  - unfold fetch_paginated_data in H.
    destruct (fetch_loop srv RAIN_RESOURCE_ID (query_filters year state) fuel 0 [] t)
      as [[[r t1] tr1]|] eqn:E; [|discriminate].
    pose proof (fetch_loop_writes_nothing _ _ _ _ _ _ _ _ _ _ E) as Hw.
    destruct r as [[records|]|]; try (inversion H; subst; exact Hw).
    destruct (states_loop srv fuel year states _ t1) as [[[e2 t2] tr2]|] eqn:E2;
      [|discriminate].
    inversion H; subst. rewrite filter_app, Hw. cbn [filter is_to_csv app].
    exact (IH _ _ _ _ _ E2).
Qed.

Lemma years_loop_cons srv fuel year years all_records t :
  years_loop srv fuel (year :: years) all_records t =
    match states_loop srv fuel year STATES_LIST all_records t with
    | None => None
    | Some (Finished all_records', t1, tr) =>
        match years_loop srv fuel years all_records' t1 with
        | Some (e, t2, tr2) => Some (e, t2, tr ++ tr2)
        | None => None
        end
    | Some (e, t1, tr) => Some (e, t1, tr)
    end.
Proof. reflexivity. Qed.

Lemma years_loop_writes_nothing srv fuel : forall years all_records t e t' tr,
  years_loop srv fuel years all_records t = Some (e, t', tr) ->
  filter is_to_csv tr = [].
Proof.
  induction years as [|year years IH]; intros all_records t e t' tr H.
  - inversion H; subst. reflexivity.
  - rewrite years_loop_cons in H. destruct (states_loop srv fuel year STATES_LIST all_records t)
      as [[[e1 t1] tr1]|] eqn:E; [|discriminate].
    pose proof (states_loop_writes_nothing _ _ _ _ _ _ _ _ _ E) as Hw.
    destruct e1 as [all'| | |]; try (inversion H; subst; exact Hw).
    destruct (years_loop srv fuel years all' t1) as [[[e2 t2] tr2]|] eqn:E2;
      [|discriminate].
    inversion H; subst. rewrite filter_app, Hw. exact (IH _ _ _ _ _ E2).
Qed.

End Rain.

End FetchFacts.

(* ================================================================== *)
(** * What the server served *)
(* ================================================================== *)

Module FetchPages.
Import Http FetchFacts.

(** The calls of a trace with the replies they met: the calls of a run are
    numbered, and the server answers the call numbered [t] with
    [srv t req]. *)
Fixpoint replies (srv : server) (t : nat) (tr : list event) : list (request * reply) :=
  match tr with
  | [] => []
  | Get req :: tr' => (req, srv t req) :: replies srv (S t) tr'
  | _ :: tr' => replies srv t tr'
  end.

(** A call that raised in the [try] block. *)
Definition failed (x : request * reply) : bool :=
  match snd x with
  | Response status_code _ => raises_for_status status_code
  | NoResponse => true
  end.

(** The page a call was served: the records of a good response, with the
    offset that was asked for. *)
Definition page_of (x : request * reply) : list (Z * list record) :=
  match snd x with
  | Response status_code body =>
      if raises_for_status status_code then []
      else match get_records body with
           | Some records => [(offset (fst x), records)]
           | None => []
           end
  | NoResponse => []
  end.

(** The pages the server served to a run, in the order of the calls. *)
Definition pages_served (srv : server) (t : nat) (tr : list event)
  : list (Z * list record) :=
  flat_map page_of (replies srv t tr).

(** Every page but the last holds at least [step] records. *)
Fixpoint all_but_last_full (step : Z) (served : list (Z * list record)) : Prop :=
  match served with
  | [] => True
  | p :: rest =>
      match rest with
      | [] => True
      | _ => step <= Z.of_nat (List.length (snd p)) /\ all_but_last_full step rest
      end
  end.

(** How a run that returns has ended: its last call was served a page of
    fewer than [step] records, or its last [retries] calls failed. *)
Definition ended (step : Z) (retries : nat) (calls : list (request * reply)) : Prop :=
  (exists before x o records,
     calls = before ++ [x] /\ page_of x = [(o, records)]
     /\ Z.of_nat (List.length records) < step)
  \/ (exists before fails,
        calls = before ++ fails /\ List.length fails = retries
        /\ forallb failed fails = true).

(** The returned list against the pages the server served: it is these
    pages one after the other, each once and none left out; they were
    asked for at the offsets 0, [step], [2 * step], ...; the loop went on
    after full pages only, and ended for one of its two reasons. *)
Definition as_served (step : Z) (retries : nat) (srv : server) (t : nat)
    (rs : list record) (tr : list event) : Prop :=
  rs = List.concat (map snd (pages_served srv t tr))
  /\ map fst (pages_served srv t tr) =
       map (fun i => Z.of_nat i * step) (seq 0 (List.length (pages_served srv t tr)))
  /\ all_but_last_full step (pages_served srv t tr)
  /\ ended step retries (replies srv t tr).

(** The server serves, from call [t] on and to the requests [req_at] makes
    of the offsets 0, [step], [2 * step], ..., the full [pages] and then the
    short page [last]. *)
Definition serves (step : Z) (srv : server) (req_at : Z -> request) (t : nat)
    (pages : list (list record)) (last : list record) : Prop :=
  (forall i p, nth_error pages i = Some p ->
     exists code,
       srv (t + i)%nat (req_at (Z.of_nat i * step)) = Response code (JDict (Some p))
       /\ raises_for_status code = false
       /\ step <= Z.of_nat (List.length p))
  /\ exists code,
       srv (t + List.length pages)%nat (req_at (Z.of_nat (List.length pages) * step)) =
         Response code (JDict (Some last))
       /\ raises_for_status code = false
       /\ Z.of_nat (List.length last) < step.

Lemma count_gets_cons e tr :
  count_gets (e :: tr) = ((if is_get e then 1 else 0) + count_gets tr)%nat.
Proof. unfold count_gets. cbn [filter]. destruct (is_get e); reflexivity. Qed.

Lemma replies_app srv tr1 : forall t tr2,
  replies srv t (tr1 ++ tr2) =
    replies srv t tr1 ++ replies srv (t + count_gets tr1) tr2.
Proof.
  induction tr1 as [|e tr1 IH]; intros t tr2; cbn [app replies].
  - rewrite Nat.add_0_r. reflexivity.
  - rewrite count_gets_cons.
    destruct e as [req|s|o n|p rows]; cbn [replies is_get]; rewrite IH.
    + replace (t + (1 + count_gets tr1))%nat with (S t + count_gets tr1)%nat by lia.
      reflexivity.
    + reflexivity.
    + reflexivity.
    + reflexivity.
Qed.

Lemma failed_no_page calls : forallb failed calls = true -> flat_map page_of calls = [].
Proof.
  induction calls as [|x calls IH]; [reflexivity|]. cbn [forallb flat_map].
  intros Hall. apply andb_true_iff in Hall. destruct Hall as [Hx Hall].
  rewrite (IH Hall), app_nil_r. unfold failed in Hx. unfold page_of.
  destruct (snd x) as [code body|]; [rewrite Hx|]; reflexivity.
Qed.

Lemma ended_after step retries before calls :
  ended step retries calls -> ended step retries (before ++ calls).
Proof.
  intros [[b [x [o [records [-> [Hp Hlen]]]]]]|[b [fails [-> [Hn Hf]]]]].
  - left. exists (before ++ b), x, o, records. rewrite app_assoc. auto.
  - right. exists (before ++ b), fails. rewrite app_assoc. auto.
Qed.

Lemma offsets_from (offset step : Z) (n : nat) :
  offset :: map (fun i => offset + step + Z.of_nat i * step) (seq 0 n) =
    map (fun i => offset + Z.of_nat i * step) (seq 0 (S n)).
Proof.
  cbn [seq map]. f_equal; [lia|].
  rewrite <- seq_shift, map_map. apply map_ext. intros i. lia.
Qed.

Lemma all_but_last_full_cons step p rest :
  step <= Z.of_nat (List.length (snd p)) ->
  all_but_last_full step rest -> all_but_last_full step (p :: rest).
Proof. intros Hp Hrest. cbn [all_but_last_full]. destruct rest; [exact I | auto]. Qed.

(** ** The retry loops *)

Lemma crop_retry_loop_replies srv req : forall retries t a t' tr,
  CropData.retry_loop srv req retries t = (a, t', tr) ->
  t' = (t + count_gets tr)%nat
  /\ match a with
     | CropData.Got data =>
         exists fails code,
           replies srv t tr = fails ++ [(req, Response code data)]
           /\ raises_for_status code = false
           /\ forallb failed fails = true
     | CropData.GaveUp =>
         List.length (replies srv t tr) = retries
         /\ forallb failed (replies srv t tr) = true
     end.
Proof.
  induction retries as [|n IH]; intros t a t' tr H; cbn [CropData.retry_loop] in H.
  - inversion H; subst. cbn. split; [lia | split; reflexivity].
  - assert (Hfail : failed (req, srv t req) = true ->
                    forall a1 t1 tr1,
                      CropData.retry_loop srv req n (S t) = (a1, t1, tr1) ->
                      (a, t', tr) = (a1, t1, Get req :: Sleep 3 :: tr1) ->
                      t' = (t + count_gets tr)%nat
                      /\ match a with
                         | CropData.Got data =>
                             exists fails code,
                               replies srv t tr = fails ++ [(req, Response code data)]
                               /\ raises_for_status code = false
                               /\ forallb failed fails = true
                         | CropData.GaveUp =>
                             List.length (replies srv t tr) = S n
                             /\ forallb failed (replies srv t tr) = true
                         end).
    { intros Hf a1 t1 tr1 E Heq. inversion Heq; subst. clear Heq.
      destruct (IH _ _ _ _ E) as [Ht Ha]. cbn [replies].
      change (count_gets (Get req :: Sleep 3 :: tr1)) with (S (count_gets tr1)).
      split; [lia|]. destruct a1 as [data|].
      - destruct Ha as [fails [code [Hr [Hc Hfs]]]].
        exists ((req, srv t req) :: fails), code. rewrite Hr. cbn [forallb app].
        rewrite Hf, Hfs. auto.
      - destruct Ha as [Hlen Hfs]. cbn [List.length forallb].
        rewrite Hf, Hfs, Hlen. auto. }
    destruct (srv t req) as [code body|] eqn:Hsrv.
    + destruct (raises_for_status code) eqn:Hc.
      * destruct (CropData.retry_loop srv req n (S t)) as [[a1 t1] tr1] eqn:E.
        apply (Hfail Hc a1 t1 tr1 eq_refl). symmetry. exact H.
      * inversion H; subst. cbn [replies]. split; [cbn; lia|].
        exists [], code. rewrite Hsrv. auto.
    + destruct (CropData.retry_loop srv req n (S t)) as [[a1 t1] tr1] eqn:E.
      apply (Hfail eq_refl a1 t1 tr1 eq_refl). symmetry. exact H.
Qed.

Lemma rain_retry_loop_replies srv req : forall retries t a t' tr,
  Rainfall.retry_loop srv req retries t = (a, t', tr) ->
  t' = (t + count_gets tr)%nat
  /\ match a with
     | Rainfall.Got data =>
         exists fails code,
           replies srv t tr = fails ++ [(req, Response code data)]
           /\ raises_for_status code = false
           /\ forallb failed fails = true
     | Rainfall.Fatal => False
     | Rainfall.GaveUp =>
         List.length (replies srv t tr) = retries
         /\ forallb failed (replies srv t tr) = true
     end.
Proof.
  induction retries as [|n IH]; intros t a t' tr H; cbn [Rainfall.retry_loop] in H.
  - inversion H; subst. cbn. split; [lia | split; reflexivity].
  - rewrite ?forbidden_is_dead in H.
    assert (Hfail : failed (req, srv t req) = true ->
                    forall a1 t1 tr1,
                      Rainfall.retry_loop srv req n (S t) = (a1, t1, tr1) ->
                      (a, t', tr) = (a1, t1, Get req :: Sleep 3 :: tr1) ->
                      t' = (t + count_gets tr)%nat
                      /\ match a with
                         | Rainfall.Got data =>
                             exists fails code,
                               replies srv t tr = fails ++ [(req, Response code data)]
                               /\ raises_for_status code = false
                               /\ forallb failed fails = true
                         | Rainfall.Fatal => False
                         | Rainfall.GaveUp =>
                             List.length (replies srv t tr) = S n
                             /\ forallb failed (replies srv t tr) = true
                         end).
    { intros Hf a1 t1 tr1 E Heq. inversion Heq; subst. clear Heq.
      destruct (IH _ _ _ _ E) as [Ht Ha]. cbn [replies].
      change (count_gets (Get req :: Sleep 3 :: tr1)) with (S (count_gets tr1)).
      split; [lia|]. destruct a1 as [data| |].
      - destruct Ha as [fails [code [Hr [Hc Hfs]]]].
        exists ((req, srv t req) :: fails), code. rewrite Hr. cbn [forallb app].
        rewrite Hf, Hfs. auto.
      - exact Ha.
      - destruct Ha as [Hlen Hfs]. cbn [List.length forallb].
        rewrite Hf, Hfs, Hlen. auto. }
    destruct (srv t req) as [code body|] eqn:Hsrv.
    + rewrite ?forbidden_is_dead in H.
      destruct (raises_for_status code) eqn:Hc.
      * destruct (Rainfall.retry_loop srv req n (S t)) as [[a1 t1] tr1] eqn:E.
        apply (Hfail Hc a1 t1 tr1 eq_refl). symmetry. exact H.
      * inversion H; subst. cbn [replies]. split; [cbn; lia|].
        exists [], code. rewrite Hsrv. auto.
    + destruct (Rainfall.retry_loop srv req n (S t)) as [[a1 t1] tr1] eqn:E.
      apply (Hfail eq_refl a1 t1 tr1 eq_refl). symmetry. exact H.
Qed.

(** ** The page loops *)

(** The returned list against what the server served, from any offset and
    on top of any list gathered before. *)
Definition served_from (step : Z) (retries : nat) (srv : server) (t : nat)
    (offset : Z) (all_records rs : list record) (tr : list event) : Prop :=
  rs = all_records ++ List.concat (map snd (pages_served srv t tr))
  /\ map fst (pages_served srv t tr) =
       map (fun i => offset + Z.of_nat i * step)
           (seq 0 (List.length (pages_served srv t tr)))
  /\ all_but_last_full step (pages_served srv t tr)
  /\ ended step retries (replies srv t tr).

Lemma served_from_start step retries srv t rs tr :
  served_from step retries srv t 0 [] rs tr -> as_served step retries srv t rs tr.
Proof.
  intros [Hrs [Ho [Hfull Hend]]]. split; [exact Hrs|]. split; [|split; assumption].
  rewrite Ho. apply map_ext. intros i. lia.
Qed.

Lemma served_gave_up step retries srv t offset all_records tr :
  List.length (replies srv t tr) = retries ->
  forallb failed (replies srv t tr) = true ->
  served_from step retries srv t offset all_records all_records tr.
Proof.
  intros Hlen Hf. unfold served_from, pages_served.
  rewrite (failed_no_page _ Hf). cbn. rewrite app_nil_r.
  split; [reflexivity|]. split; [reflexivity|]. split; [exact I|].
  right. exists [], (replies srv t tr). auto.
Qed.

Lemma served_short_page step retries srv t resource_req offset all_records tr
    fails code data records extended :
  Http.offset resource_req = offset ->
  replies srv t tr = fails ++ [(resource_req, Response code data)] ->
  raises_for_status code = false ->
  forallb failed fails = true ->
  get_records data = Some records ->
  Z.of_nat (List.length records) < step ->
  replies srv t (tr ++ extended) = replies srv t tr ->
  served_from step retries srv t offset all_records (all_records ++ records)
    (tr ++ extended).
Proof.
  intros Hoff Hr Hc Hf Hg Hlen Hsame.
  assert (Hpage : page_of (resource_req, Response code data) = [(offset, records)]).
  { unfold page_of. cbn [fst snd]. rewrite Hc, Hg, Hoff. reflexivity. }
  unfold served_from, pages_served.
  rewrite Hsame, Hr, flat_map_app, (failed_no_page _ Hf).
  cbn [flat_map app]. rewrite Hpage.
  cbn [app map fst snd List.concat List.length seq]. rewrite app_nil_r.
  split; [reflexivity|]. split; [f_equal; lia|]. split; [exact I|].
  left. exists fails, (resource_req, Response code data), offset, records. auto.
Qed.

Lemma served_full_page step retries srv t resource_req offset all_records tr
    fails code data records rs tr2 :
  Http.offset resource_req = offset ->
  replies srv t tr = fails ++ [(resource_req, Response code data)] ->
  raises_for_status code = false ->
  forallb failed fails = true ->
  get_records data = Some records ->
  step <= Z.of_nat (List.length records) ->
  served_from step retries srv (t + count_gets tr) (offset + step)
    (all_records ++ records) rs tr2 ->
  served_from step retries srv t offset all_records rs
    ((tr ++ [Extend offset (List.length records)]) ++ tr2).
Proof.
  intros Hoff Hr Hc Hf Hg Hlen [Hrs [Ho [Hfull Hend]]].
  assert (Hcalls : replies srv t ((tr ++ [Extend offset (List.length records)]) ++ tr2) =
                   replies srv t tr ++ replies srv (t + count_gets tr) tr2).
  { rewrite <- app_assoc, replies_app. reflexivity. }
  assert (Hpage : page_of (resource_req, Response code data) = [(offset, records)]).
  { unfold page_of. cbn [fst snd]. rewrite Hc, Hg, Hoff. reflexivity. }
  unfold served_from, pages_served in *. rewrite Hcalls, Hr, !flat_map_app.
  rewrite (failed_no_page _ Hf). cbn [flat_map app]. rewrite Hpage.
  cbn [app map fst snd List.concat List.length].
  split; [rewrite Hrs, <- app_assoc; reflexivity|].
  split; [rewrite Ho; apply offsets_from|].
  split; [apply all_but_last_full_cons; assumption|].
  apply ended_after. exact Hend.
Qed.

Lemma crop_fetch_loop_served srv resource : forall fuel offset all_records t rs t' tr,
  CropData.fetch_loop srv resource fuel offset all_records t = Some (Returned rs, t', tr) ->
  served_from CropData.limit CropData.max_retries srv t offset all_records rs tr.
Proof.
  induction fuel as [|fuel IH]; intros offset all_records t rs t' tr H;
    [discriminate|].
  cbn [CropData.fetch_loop] in H.
  destruct (CropData.retry_loop srv (CropData.params resource offset)
              CropData.max_retries t) as [[a t1] tr1] eqn:Hretry.
  destruct (crop_retry_loop_replies _ _ _ _ _ _ _ Hretry) as [Ht1 Ha].
  destruct a as [data|].
  - destruct Ha as [fails [code [Hr [Hc Hf]]]].
    destruct (get_records data) as [[|r records]|] eqn:Hg; [| |discriminate].
    + assert (Hrs : rs = all_records) by congruence.
      assert (Htr : tr = tr1) by congruence. subst rs tr. clear H.
      rewrite <- (app_nil_r all_records) at 2. rewrite <- (app_nil_r tr1).
      apply (served_short_page _ _ _ _ _ _ _ _ _ _ _ _ _ eq_refl Hr Hc Hf Hg);
        [reflexivity | rewrite app_nil_r; reflexivity].
    + destruct (Z.of_nat (List.length (r :: records)) <? CropData.limit) eqn:Hshort.
      * assert (Hrs : rs = all_records ++ r :: records) by congruence.
        assert (Htr : tr = tr1 ++ [Extend offset (List.length (r :: records))])
          by congruence.
        subst rs tr. clear H.
        apply (served_short_page _ _ _ _ _ _ _ _ _ _ _ _ _ eq_refl Hr Hc Hf Hg).
        -- apply Z.ltb_lt. exact Hshort.
        -- rewrite replies_app. cbn [replies]. apply app_nil_r.
      * destruct (CropData.fetch_loop srv resource fuel (offset + CropData.limit)
                    (all_records ++ r :: records) t1) as [[[r2 t2] tr2]|] eqn:E;
          [|discriminate].
        assert (Hrs : Returned rs = r2) by congruence.
        assert (Htr : tr = (tr1 ++ [Extend offset (List.length (r :: records))]) ++ tr2)
          by congruence.
        subst r2 tr. clear H. subst t1.
        apply (served_full_page _ _ _ _ _ _ _ _ _ _ _ _ _ _ eq_refl Hr Hc Hf Hg).
        -- apply Z.ltb_ge. exact Hshort.
        -- exact (IH _ _ _ _ _ _ E).
  - assert (Hrs : rs = all_records) by congruence.
    assert (Htr : tr = tr1) by congruence. subst rs tr. clear H.
    destruct Ha as [Hlen Hf].
    exact (served_gave_up _ _ _ _ _ _ _ Hlen Hf).
Qed.

Lemma rain_fetch_loop_served srv resource qf : forall fuel offset all_records t rs t' tr,
  Rainfall.fetch_loop srv resource qf fuel offset all_records t =
    Some (Returned (Rainfall.Records rs), t', tr) ->
  served_from Rainfall.limit Rainfall.max_retries srv t offset all_records rs tr.
Proof.
  induction fuel as [|fuel IH]; intros offset all_records t rs t' tr H;
    [discriminate|].
  cbn [Rainfall.fetch_loop] in H.
  destruct (Rainfall.retry_loop srv (Rainfall.params resource qf offset)
              Rainfall.max_retries t) as [[a t1] tr1] eqn:Hretry.
  destruct (rain_retry_loop_replies _ _ _ _ _ _ _ Hretry) as [Ht1 Ha].
  destruct a as [data| |]; [|contradiction|].
  - destruct Ha as [fails [code [Hr [Hc Hf]]]].
    destruct (json_is_string data "FATAL_ERROR"); [discriminate|].
    destruct (get_records data) as [[|r records]|] eqn:Hg; [| |discriminate].
    + assert (Hrs : rs = all_records) by congruence.
      assert (Htr : tr = tr1) by congruence. subst rs tr. clear H.
      rewrite <- (app_nil_r all_records) at 2. rewrite <- (app_nil_r tr1).
      apply (served_short_page _ _ _ _ _ _ _ _ _ _ _ _ _ eq_refl Hr Hc Hf Hg);
        [reflexivity | rewrite app_nil_r; reflexivity].
    + destruct (Z.of_nat (List.length (r :: records)) <? Rainfall.limit) eqn:Hshort.
      * assert (Hrs : rs = all_records ++ r :: records) by congruence.
        assert (Htr : tr = tr1 ++ [Extend offset (List.length (r :: records))])
          by congruence.
        subst rs tr. clear H.
        apply (served_short_page _ _ _ _ _ _ _ _ _ _ _ _ _ eq_refl Hr Hc Hf Hg).
        -- apply Z.ltb_lt. exact Hshort.
        -- rewrite replies_app. cbn [replies]. apply app_nil_r.
      * destruct (Rainfall.fetch_loop srv resource qf fuel (offset + Rainfall.limit)
                    (all_records ++ r :: records) t1) as [[[r2 t2] tr2]|] eqn:E;
          [|discriminate].
        assert (Hrs : Returned (Rainfall.Records rs) = r2) by congruence.
        assert (Htr : tr = (tr1 ++ [Extend offset (List.length (r :: records))]) ++ tr2)
          by congruence.
        subst r2 tr. clear H. subst t1.
        apply (served_full_page _ _ _ _ _ _ _ _ _ _ _ _ _ _ eq_refl Hr Hc Hf Hg).
        -- apply Z.ltb_ge. exact Hshort.
        -- exact (IH _ _ _ _ _ _ E).
  - assert (Hrs : rs = all_records) by congruence.
    assert (Htr : tr = tr1) by congruence. subst rs tr. clear H.
    destruct Ha as [Hlen Hf].
    exact (served_gave_up _ _ _ _ _ _ _ Hlen Hf).
Qed.

(** ** A server that serves full pages and then a short one *)

Lemma serves_tail step srv req_at t p pages last :
  serves step srv req_at t (p :: pages) last ->
  serves step srv (fun o => req_at (o + step)) (S t) pages last.
Proof.
  intros [Hpages [code [Hlast [Hc Hlen]]]]. split.
  - intros i q Hq. destruct (Hpages (S i) q Hq) as [c [Hs Hrest]].
    exists c. split; [|exact Hrest].
    replace (S t + i)%nat with (t + S i)%nat by lia.
    replace (Z.of_nat i * step + step) with (Z.of_nat (S i) * step) by lia.
    exact Hs.
  - exists code. split; [|split; assumption].
    replace (S t + List.length pages)%nat with (t + List.length (p :: pages))%nat
      by (cbn [List.length]; lia).
    replace (Z.of_nat (List.length pages) * step + step)
      with (Z.of_nat (List.length (p :: pages)) * step)
      by (cbn [List.length]; lia).
    exact Hlast.
Qed.

Lemma crop_fetch_loop_serves srv resource : forall pages fuel offset all_records t last,
  serves CropData.limit srv (fun o => CropData.params resource (offset + o)) t pages last ->
  (List.length pages < fuel)%nat ->
  exists tr,
    CropData.fetch_loop srv resource fuel offset all_records t =
      Some (Returned (all_records ++ List.concat pages ++ last),
            (t + List.length pages + 1)%nat, tr)
    /\ count_gets tr = (List.length pages + 1)%nat.
Proof.
  induction pages as [|p pages IH]; intros fuel offset all_records t last Hs Hfuel;
    (destruct fuel as [|fuel]; [lia|]); cbn [CropData.fetch_loop].
  - destruct Hs as [_ [code [Hlast [Hc Hlen]]]].
    cbn [List.length] in Hlast. rewrite Nat.add_0_r, Z.add_0_r in Hlast.
    change CropData.max_retries with 5%nat.
    rewrite (Crop.crop_retry_loop_ok _ _ _ _ code _ Hlast Hc). cbn [get_records].
    destruct last as [|r last].
    + exists [Get (CropData.params resource offset)]. split; [|reflexivity].
      cbn [List.concat List.length app]. rewrite app_nil_r.
      replace (t + 0 + 1)%nat with (S t) by lia. reflexivity.
    + apply Z.ltb_lt in Hlen. rewrite Hlen.
      exists ([Get (CropData.params resource offset)]
                ++ [Extend offset (List.length (r :: last))]).
      split; [|reflexivity].
      cbn [List.concat app]. change (List.length (@nil (list record))) with 0%nat.
      replace (t + 0 + 1)%nat with (S t) by lia. reflexivity.
  - pose proof (serves_tail _ _ _ _ _ _ _ Hs) as Htail.
    destruct Hs as [Hpages _].
    destruct (Hpages 0%nat p eq_refl) as [code [Hsrv [Hc Hlen]]].
    rewrite Nat.add_0_r, Z.add_0_r in Hsrv.
    change CropData.max_retries with 5%nat.
    rewrite (Crop.crop_retry_loop_ok _ _ _ _ code _ Hsrv Hc). cbn [get_records].
    destruct p as [|r p]; [cbn in Hlen; unfold CropData.limit in Hlen; lia|].
    apply Z.ltb_ge in Hlen. rewrite Hlen.
    destruct (IH fuel (offset + CropData.limit) (all_records ++ r :: p) (S t) last)
      as [tr2 [Hrun Hgets]].
    + destruct Htail as [Hp Hl]. split.
      * intros i q Hq. destruct (Hp i q Hq) as [c [Hs' Hrest]]. exists c.
        split; [|exact Hrest].
        replace (offset + CropData.limit + Z.of_nat i * CropData.limit)
          with (offset + (Z.of_nat i * CropData.limit + CropData.limit)) by lia.
        exact Hs'.
      * destruct Hl as [c [Hs' Hrest]]. exists c. split; [|exact Hrest].
        replace (offset + CropData.limit + Z.of_nat (List.length pages) * CropData.limit)
          with (offset + (Z.of_nat (List.length pages) * CropData.limit + CropData.limit))
          by lia.
        exact Hs'.
    + cbn [List.length] in Hfuel. lia.
    + rewrite Hrun.
      exists (([Get (CropData.params resource offset)] ++ [Extend offset (List.length (r :: p))]) ++ tr2).
      split.
      * cbn [List.concat List.length]. rewrite <- !app_assoc.
        replace (t + S (List.length pages) + 1)%nat
          with (S t + List.length pages + 1)%nat by lia.
        reflexivity.
      * rewrite !count_gets_app, Hgets. cbn [List.length]. cbn. lia.
Qed.

Lemma rain_fetch_loop_serves srv resource qf : forall pages fuel offset all_records t last,
  serves Rainfall.limit srv (fun o => Rainfall.params resource qf (offset + o)) t pages last ->
  (List.length pages < fuel)%nat ->
  exists tr,
    Rainfall.fetch_loop srv resource qf fuel offset all_records t =
      Some (Returned (Rainfall.Records (all_records ++ List.concat pages ++ last)),
            (t + List.length pages + 1)%nat, tr)
    /\ count_gets tr = (List.length pages + 1)%nat.
Proof.
  induction pages as [|p pages IH]; intros fuel offset all_records t last Hs Hfuel;
    (destruct fuel as [|fuel]; [lia|]); cbn [Rainfall.fetch_loop].
  - destruct Hs as [_ [code [Hlast [Hc Hlen]]]].
    cbn [List.length] in Hlast. rewrite Nat.add_0_r, Z.add_0_r in Hlast.
    change Rainfall.max_retries with 5%nat.
    rewrite (Rain.rain_retry_loop_ok _ _ _ _ code _ Hlast Hc).
    cbn [json_is_string get_records].
    destruct last as [|r last].
    + exists [Get (Rainfall.params resource qf offset)]. split; [|reflexivity].
      cbn [List.concat List.length app]. rewrite app_nil_r.
      replace (t + 0 + 1)%nat with (S t) by lia. reflexivity.
    + apply Z.ltb_lt in Hlen. rewrite Hlen.
      exists ([Get (Rainfall.params resource qf offset)]
                ++ [Extend offset (List.length (r :: last))]).
      split; [|reflexivity].
      cbn [List.concat app]. change (List.length (@nil (list record))) with 0%nat.
      replace (t + 0 + 1)%nat with (S t) by lia. reflexivity.
  - pose proof (serves_tail _ _ _ _ _ _ _ Hs) as Htail.
    destruct Hs as [Hpages _].
    destruct (Hpages 0%nat p eq_refl) as [code [Hsrv [Hc Hlen]]].
    rewrite Nat.add_0_r, Z.add_0_r in Hsrv.
    change Rainfall.max_retries with 5%nat.
    rewrite (Rain.rain_retry_loop_ok _ _ _ _ code _ Hsrv Hc).
    cbn [json_is_string get_records].
    destruct p as [|r p]; [cbn in Hlen; unfold Rainfall.limit in Hlen; lia|].
    apply Z.ltb_ge in Hlen. rewrite Hlen.
    destruct (IH fuel (offset + Rainfall.limit) (all_records ++ r :: p) (S t) last)
      as [tr2 [Hrun Hgets]].
    + destruct Htail as [Hp Hl]. split.
      * intros i q Hq. destruct (Hp i q Hq) as [c [Hs' Hrest]]. exists c.
        split; [|exact Hrest].
        replace (offset + Rainfall.limit + Z.of_nat i * Rainfall.limit)
          with (offset + (Z.of_nat i * Rainfall.limit + Rainfall.limit)) by lia.
        exact Hs'.
      * destruct Hl as [c [Hs' Hrest]]. exists c. split; [|exact Hrest].
        replace (offset + Rainfall.limit + Z.of_nat (List.length pages) * Rainfall.limit)
          with (offset + (Z.of_nat (List.length pages) * Rainfall.limit + Rainfall.limit))
          by lia.
        exact Hs'.
    + cbn [List.length] in Hfuel. lia.
    + rewrite Hrun.
      exists (([Get (Rainfall.params resource qf offset)] ++ [Extend offset (List.length (r :: p))]) ++ tr2).
      split.
      * cbn [List.concat List.length]. rewrite <- !app_assoc.
        replace (t + S (List.length pages) + 1)%nat
          with (S t + List.length pages + 1)%nat by lia.
        reflexivity.
      * rewrite !count_gets_app, Hgets. cbn [List.length]. cbn. lia.
Qed.

End FetchPages.

(* ================================================================== *)
(** * Properties of the fetchers *)
(* ================================================================== *)

Section FetcherProperties.
Import Http FetchFacts FetchPages.

(** C5.  While the server gives no response (timeout, connection error,
    SSL error) a page is tried again, each failed try followed by one
    3-second sleep.  After [k < 5] failures a good response is taken
    after exactly [k] sleeps; after 5 failures the loop of either script
    stops and returns the records accumulated so far, as a value. *)
Theorem C5_transient_errors_retried_then_partial :
  forall (srv : server) (t k : nat),
    (k <= 5)%nat ->
    down srv t k ->
    (k = 5%nat ->
     forall resource query_filters fuel offset all_records,
       CropData.fetch_loop srv resource (S fuel) offset all_records t =
         Some (Returned all_records, (t + 5)%nat,
               failed_rounds (CropData.params resource offset) 5)
       /\ Rainfall.fetch_loop srv resource query_filters (S fuel) offset all_records t =
            Some (Returned (Rainfall.Records all_records), (t + 5)%nat,
                  failed_rounds (Rainfall.params resource query_filters offset) 5))
    /\ ((k < 5)%nat ->
        forall req code body,
          srv (t + k)%nat req = Response code body ->
          raises_for_status code = false ->
          CropData.retry_loop srv req CropData.max_retries t =
            (CropData.Got body, (t + k + 1)%nat, failed_rounds req k ++ [Get req])
          /\ Rainfall.retry_loop srv req Rainfall.max_retries t =
               (Rainfall.Got body, (t + k + 1)%nat, failed_rounds req k ++ [Get req])).
Proof.
  intros srv t k Hk Hdown. split.
  - intros -> resource query_filters fuel offset all_records. split.
    + cbn [CropData.fetch_loop]. change CropData.max_retries with (5 + 0)%nat.
      rewrite (Crop.crop_retry_loop_down srv _ 5 0 t Hdown).
      cbn [CropData.retry_loop]. rewrite app_nil_r. reflexivity.
    + cbn [Rainfall.fetch_loop]. change Rainfall.max_retries with (5 + 0)%nat.
      rewrite (Rain.rain_retry_loop_down srv _ 5 0 t Hdown).
      cbn [Rainfall.retry_loop]. rewrite app_nil_r. reflexivity.
  - intros Hlt req code body Hreply Hcode. split.
    + replace CropData.max_retries with (k + S (4 - k))%nat
        by (unfold CropData.max_retries; lia).
      rewrite (Crop.crop_retry_loop_down srv req k _ t Hdown).
      rewrite (Crop.crop_retry_loop_ok srv req _ _ code body Hreply Hcode).
      f_equal. f_equal. lia.
    + replace Rainfall.max_retries with (k + S (4 - k))%nat
        by (unfold Rainfall.max_retries; lia).
      rewrite (Rain.rain_retry_loop_down srv req k _ t Hdown).
      rewrite (Rain.rain_retry_loop_ok srv req _ _ code body Hreply Hcode).
      f_equal. f_equal. lia.
Qed.

Lemma C5_witness :
  (5 <= 5)%nat /\ down Samples.unreachable 0 5
  /\ CropData.fetch_all_data Samples.unreachable CropData.CROP_RESOURCE_ID 1 0 =
       Some (Returned [], 5%nat,
             failed_rounds (CropData.params CropData.CROP_RESOURCE_ID 0) 5).
Proof.
  assert (Hdown : down Samples.unreachable 0 5) by (intros i req _; reflexivity).
  split; [lia|]. split; [exact Hdown|].
  exact (proj1 (proj1 (C5_transient_errors_retried_then_partial
                         Samples.unreachable 0%nat 5%nat (le_n 5) Hdown)
                  eq_refl CropData.CROP_RESOURCE_ID [] 0%nat 0 [])).
Defined.

(** C6.  Against an API that serves a record set of [N] records in pages
    of at most [limit], either fetch returns (for every fuel above
    [N / limit]) the whole set after at most [ceil(N / limit) + 1] page
    requests; and whatever the server, a page of fewer than [limit]
    records (none included) ends the loop with that request. *)
Theorem C6_pagination_terminates :
  (forall (db : list record) (resource : string) (t : nat),
     exists t' tr,
       (forall fuel, (List.length db / 1000 < fuel)%nat ->
          CropData.fetch_all_data (Samples.api db) resource fuel t =
            Some (Returned db, t', tr))
       /\ Z.of_nat (count_gets tr) <=
            (Z.of_nat (List.length db) + CropData.limit - 1) / CropData.limit + 1)
  /\ (forall (db : list record) (resource : string) query_filters (t : nat),
        exists t' tr,
          (forall fuel, (List.length db / 1000 < fuel)%nat ->
             Rainfall.fetch_paginated_data (Samples.api db) resource query_filters fuel t =
               Some (Returned (Rainfall.Records db), t', tr))
          /\ Z.of_nat (count_gets tr) <=
               (Z.of_nat (List.length db) + Rainfall.limit - 1) / Rainfall.limit + 1)
  /\ (forall (srv : server) resource fuel offset all_records t code records,
        srv t (CropData.params resource offset) = Response code (JDict (Some records)) ->
        raises_for_status code = false ->
        Z.of_nat (List.length records) < CropData.limit ->
        exists tr,
          CropData.fetch_loop srv resource (S fuel) offset all_records t =
            Some (Returned (all_records ++ records), S t, tr)
          /\ count_gets tr = 1%nat)
  /\ (forall (srv : server) resource query_filters fuel offset all_records t code records,
        srv t (Rainfall.params resource query_filters offset) =
          Response code (JDict (Some records)) ->
        raises_for_status code = false ->
        Z.of_nat (List.length records) < Rainfall.limit ->
        exists tr,
          Rainfall.fetch_loop srv resource query_filters (S fuel) offset all_records t =
            Some (Returned (Rainfall.Records (all_records ++ records)), S t, tr)
          /\ count_gets tr = 1%nat).
Proof.
  split; [|split; [|split]].
  - intros db resource t.
    destruct (Crop.crop_fetch_loop_api db resource (S (List.length db / 1000)) 0 [] t)
      as [tr [Hrun Hgets]]; [lia | cbn [Z.to_nat skipn]; lia |].
    cbn [Z.to_nat skipn app] in Hrun, Hgets.
    exists (t + List.length db / 1000 + 1)%nat, tr. split.
    + intros fuel Hfuel. unfold CropData.fetch_all_data.
      apply (Crop.crop_fetch_loop_more_fuel _ _ _ _ _ _ _ _ Hrun). lia.
    + rewrite Hgets. unfold CropData.limit.
      rewrite Nat2Z.inj_add, Nat2Z.inj_div. simpl Z.of_nat.
      apply Z.add_le_mono_r. apply Z.div_le_mono; lia.
  - intros db resource query_filters t.
    destruct (Rain.rain_fetch_loop_api db resource query_filters
                (S (List.length db / 1000)) 0 [] t)
      as [tr [Hrun Hgets]]; [lia | cbn [Z.to_nat skipn]; lia |].
    cbn [Z.to_nat skipn app] in Hrun, Hgets.
    exists (t + List.length db / 1000 + 1)%nat, tr. split.
    + intros fuel Hfuel. unfold Rainfall.fetch_paginated_data.
      apply (Rain.rain_fetch_loop_more_fuel _ _ _ _ _ _ _ _ _ Hrun). lia.
    + rewrite Hgets. unfold Rainfall.limit.
      rewrite Nat2Z.inj_add, Nat2Z.inj_div. simpl Z.of_nat.
      apply Z.add_le_mono_r. apply Z.div_le_mono; lia.
  - intros srv resource fuel offset all_records t code records Hcrop Hcode Hshort.
    apply Z.ltb_lt in Hshort.
    cbn [CropData.fetch_loop]. change CropData.max_retries with 5%nat.
    rewrite (Crop.crop_retry_loop_ok _ _ _ _ code (JDict (Some records)) Hcrop Hcode).
    cbn [get_records]. destruct records as [|r records].
    + eexists. rewrite app_nil_r. split; reflexivity.
    + rewrite Hshort. eexists. split; reflexivity.
  - intros srv resource query_filters fuel offset all_records t code records
           Hrain Hcode Hshort.
    apply Z.ltb_lt in Hshort.
    cbn [Rainfall.fetch_loop]. change Rainfall.max_retries with 5%nat.
    rewrite (Rain.rain_retry_loop_ok _ _ _ _ code (JDict (Some records)) Hrain Hcode).
    cbn [json_is_string get_records]. destruct records as [|r records].
    + eexists. rewrite app_nil_r. split; reflexivity.
    + rewrite Hshort. eexists. split; reflexivity.
Qed.

Lemma C6_witness :
  Samples.refused_after_first 0%nat (CropData.params CropData.CROP_RESOURCE_ID 0) =
    Response 200 (JDict (Some [Samples.a_record]))
  /\ raises_for_status 200 = false
  /\ Z.of_nat (List.length [Samples.a_record]) < CropData.limit
  /\ exists tr,
       CropData.fetch_loop Samples.refused_after_first CropData.CROP_RESOURCE_ID 1 0 [] 0 =
         Some (Returned ([] ++ [Samples.a_record]), 1%nat, tr)
       /\ count_gets tr = 1%nat.
Proof.
  split; [reflexivity|]. split; [reflexivity|]. split; [reflexivity|].
  apply (proj1 (proj2 (proj2 C6_pagination_terminates)) Samples.refused_after_first
           CropData.CROP_RESOURCE_ID 0%nat 0 [] 0%nat 200 [Samples.a_record]);
    reflexivity.
Defined.

Lemma multiples_increasing (step : Z) : 0 < step ->
  forall n a, StronglySorted Z.lt (map (fun i => Z.of_nat i * step) (seq a n)).
Proof.
  intros Hstep. induction n as [|n IH]; intros a; simpl; constructor.
  - apply IH.
  - apply Forall_forall. intros x Hx.
    apply in_map_iff in Hx. destruct Hx as [i [<- Hi]].
    apply in_seq in Hi. nia.
Qed.

Lemma increasing_NoDup (l : list Z) : StronglySorted Z.lt l -> NoDup l.
Proof.
  induction 1 as [|x l Hs IH Hall]; constructor; [|exact IH].
  intros Hin. rewrite Forall_forall in Hall. specialize (Hall x Hin). lia.
Qed.

(** The pages of a returned list: as long as the list together, appended
    at the offsets 0, [step], [2 * step], ... *)
Definition page_by_page (step : Z) (rs : list record) (tr : list event) : Prop :=
  List.length rs = list_sum (extended_counts tr)
  /\ extended_offsets tr =
       map (fun i => Z.of_nat i * step) (seq 0 (List.length (extended_counts tr)))
  /\ StronglySorted Z.lt (extended_offsets tr)
  /\ NoDup (extended_offsets tr).

Lemma pages_page_by_page (rs : list record) (tr : list event)
    (pages : list (list record)) :
  rs = [] ++ List.concat pages ->
  extended_counts tr = map (@List.length record) pages ->
  extended_offsets tr = map (fun i => 0 + Z.of_nat i * 1000) (seq 0 (List.length pages)) ->
  page_by_page 1000 rs tr.
Proof.
  intros Hrs Hc Ho. simpl in Hrs. subst rs.
  assert (Hoff : extended_offsets tr =
                 map (fun i => Z.of_nat i * 1000)
                     (seq 0 (List.length (extended_counts tr)))).
  { rewrite Ho, Hc, length_map. apply map_ext. intros i. lia. }
  split; [rewrite length_concat, Hc; reflexivity|].
  split; [exact Hoff|].
  assert (Hs : StronglySorted Z.lt (extended_offsets tr)).
  { rewrite Hoff. apply multiples_increasing. reflexivity. }
  split; [exact Hs | apply increasing_NoDup; exact Hs].
Qed.

(** C7.  For every server and both fetches, the list a fetch returns is
    the pages the server served to its calls, one after the other, each
    once and none left out; the pages were asked for at the offsets 0,
    [limit], [2 * limit], ... in this order, each offset once; its length
    is the sum of the sizes of the pages appended; the loop went on after
    full pages only and ended on a short page or on five failed calls in
    a row.  A fetch does return when the server serves full pages and then
    a short one: it then returns them all after one request each.  A
    record set that comes in pages of 1000, 1000 and 400 is fetched with 3
    requests and gives 2400 records. *)
Theorem C7_pages_neither_duplicated_nor_dropped :
  (forall (srv : server) resource fuel t rs t' tr,
     CropData.fetch_all_data srv resource fuel t = Some (Returned rs, t', tr) ->
     page_by_page CropData.limit rs tr
     /\ as_served CropData.limit CropData.max_retries srv t rs tr)
  /\ (forall (srv : server) resource query_filters fuel t rs t' tr,
        Rainfall.fetch_paginated_data srv resource query_filters fuel t =
          Some (Returned (Rainfall.Records rs), t', tr) ->
        page_by_page Rainfall.limit rs tr
        /\ as_served Rainfall.limit Rainfall.max_retries srv t rs tr)
  /\ (forall (srv : server) resource fuel t pages last,
        serves CropData.limit srv (CropData.params resource) t pages last ->
        (List.length pages < fuel)%nat ->
        exists tr,
          CropData.fetch_all_data srv resource fuel t =
            Some (Returned (List.concat pages ++ last),
                  (t + List.length pages + 1)%nat, tr)
          /\ count_gets tr = (List.length pages + 1)%nat)
  /\ (forall (srv : server) resource query_filters fuel t pages last,
        serves Rainfall.limit srv (Rainfall.params resource query_filters) t pages last ->
        (List.length pages < fuel)%nat ->
        exists tr,
          Rainfall.fetch_paginated_data srv resource query_filters fuel t =
            Some (Returned (Rainfall.Records (List.concat pages ++ last)),
                  (t + List.length pages + 1)%nat, tr)
          /\ count_gets tr = (List.length pages + 1)%nat)
  /\ (CropData.fetch_all_data (Samples.api (repeat Samples.a_record 2400))
        CropData.CROP_RESOURCE_ID 3 0 =
        Some (Returned (repeat Samples.a_record 2400), 3%nat,
              [ Get (CropData.params CropData.CROP_RESOURCE_ID 0); Extend 0 1000;
                Get (CropData.params CropData.CROP_RESOURCE_ID 1000); Extend 1000 1000;
                Get (CropData.params CropData.CROP_RESOURCE_ID 2000); Extend 2000 400 ])
      /\ List.length (repeat Samples.a_record 2400) = 2400%nat).
Proof.
  split; [|split; [|split; [|split]]].
  - intros srv resource fuel t rs t' tr H. split.
    + destruct (Crop.crop_fetch_loop_pages _ _ _ _ _ _ _ _ _ H) as [pages [Hrs [Hc Ho]]].
      exact (pages_page_by_page rs tr pages Hrs Hc Ho).
    + apply served_from_start. exact (crop_fetch_loop_served _ _ _ _ _ _ _ _ _ H).
  - intros srv resource query_filters fuel t rs t' tr H. split.
    + destruct (Rain.rain_fetch_loop_pages _ _ _ _ _ _ _ _ _ _ H)
        as [pages [Hrs [Hc Ho]]].
      exact (pages_page_by_page rs tr pages Hrs Hc Ho).
    + apply served_from_start. exact (rain_fetch_loop_served _ _ _ _ _ _ _ _ _ _ H).
  - intros srv resource fuel t pages last Hs Hfuel.
    exact (crop_fetch_loop_serves srv resource pages fuel 0 [] t last Hs Hfuel).
  - intros srv resource query_filters fuel t pages last Hs Hfuel.
    exact (rain_fetch_loop_serves srv resource query_filters pages fuel 0 [] t last
             Hs Hfuel).
  - split; [vm_compute; reflexivity | apply repeat_length].
Qed.

Lemma C7_witness :
  CropData.fetch_all_data Samples.refused_after_first CropData.CROP_RESOURCE_ID 1 0 =
    Some (Returned [Samples.a_record], 1%nat,
          [Get (CropData.params CropData.CROP_RESOURCE_ID 0); Extend 0 1])
  /\ page_by_page CropData.limit [Samples.a_record]
       [Get (CropData.params CropData.CROP_RESOURCE_ID 0); Extend 0 1]
  /\ as_served CropData.limit CropData.max_retries Samples.refused_after_first 0
       [Samples.a_record]
       [Get (CropData.params CropData.CROP_RESOURCE_ID 0); Extend 0 1]
  /\ serves CropData.limit Samples.refused_after_first
       (CropData.params CropData.CROP_RESOURCE_ID) 0 [] [Samples.a_record]
  /\ exists tr,
       CropData.fetch_all_data Samples.refused_after_first CropData.CROP_RESOURCE_ID 1 0 =
         Some (Returned (List.concat [] ++ [Samples.a_record]), (0 + 0 + 1)%nat, tr)
       /\ count_gets tr = (0 + 1)%nat.
Proof.
  assert (H : CropData.fetch_all_data Samples.refused_after_first
                CropData.CROP_RESOURCE_ID 1 0 =
              Some (Returned [Samples.a_record], 1%nat,
                    [Get (CropData.params CropData.CROP_RESOURCE_ID 0); Extend 0 1]))
    by reflexivity.
  assert (Hs : serves CropData.limit Samples.refused_after_first
                 (CropData.params CropData.CROP_RESOURCE_ID) 0 [] [Samples.a_record]).
  { split.
    - intros i p Hp. destruct i; discriminate Hp.
    - exists 200. split; [reflexivity|]. split; reflexivity. }
  split; [exact H|].
  split; [exact (proj1 (proj1 C7_pages_neither_duplicated_nor_dropped _ _ _ _ _ _ _ H))|].
  split; [exact (proj2 (proj1 C7_pages_neither_duplicated_nor_dropped _ _ _ _ _ _ _ H))|].
  split; [exact Hs|].
  exact (proj1 (proj2 (proj2 C7_pages_neither_duplicated_nor_dropped))
           Samples.refused_after_first CropData.CROP_RESOURCE_ID 1%nat 0%nat []
           [Samples.a_record] Hs (Nat.lt_0_1)).
Defined.

(** C3 as stated fails on [crop_data.py]: a 403 on the first request of
    [fetch_all_data] is tried five times, three seconds apart, and the
    fetch returns the empty list as an ordinary result. *)
Lemma C3_counterexample :
  CropData.fetch_all_data Samples.refused CropData.CROP_RESOURCE_ID 1 0 =
    Some (Returned [], 5%nat,
          failed_rounds (CropData.params CropData.CROP_RESOURCE_ID 0) 5).
Proof. reflexivity. Qed.

(** C3 (as the code has it).  [crop_data.py] has no fatal signal: five
    calls answered 403 are five failed tries like any other, and the
    accumulated records are returned.  In [rainfall.py] the fatal signal is
    no list of records; a query that returns it ends the loop over the
    states, and with it the loop over the years, with no further call, and
    a run of [main] that stops so writes no file. *)
Theorem C3_fatal_signal_stops_the_rainfall_run :
  (forall (srv : server) (t : nat),
     answers srv 403 t 5 ->
     forall resource fuel offset all_records,
       CropData.fetch_loop srv resource (S fuel) offset all_records t =
         Some (Returned all_records, (t + 5)%nat,
               failed_rounds (CropData.params resource offset) 5))
  /\ (forall all_records, Rainfall.FATAL_ERROR <> Rainfall.Records all_records)
  /\ (forall (srv : server) fuel year state states all_rainfall_records t t1 tr,
        Rainfall.fetch_paginated_data srv Rainfall.RAIN_RESOURCE_ID
          (Rainfall.query_filters year state) fuel t =
          Some (Returned Rainfall.FATAL_ERROR, t1, tr) ->
        Rainfall.states_loop srv fuel year (state :: states) all_rainfall_records t =
          Some (Rainfall.Stopped, t1, tr))
  /\ (forall (srv : server) fuel year years all_rainfall_records t t1 tr,
        Rainfall.states_loop srv fuel year Rainfall.STATES_LIST all_rainfall_records t =
          Some (Rainfall.Stopped, t1, tr) ->
        Rainfall.years_loop srv fuel (year :: years) all_rainfall_records t =
          Some (Rainfall.Stopped, t1, tr))
  /\ (forall (srv : server) fuel tr,
        Rainfall.main srv fuel = Some (Rainfall.Stopped, tr) ->
        filter is_to_csv tr = []).
Proof.
  split; [|split; [|split; [|split]]].
  - intros srv t H resource fuel offset all_records.
    cbn [CropData.fetch_loop]. change CropData.max_retries with (5 + 0)%nat.
    rewrite (Crop.crop_retry_loop_answers srv _ 403 5 0 t eq_refl H).
    cbn [CropData.retry_loop]. rewrite app_nil_r. reflexivity.
  - discriminate.
  - intros srv fuel year state states all_rainfall_records t t1 tr H.
    cbn [Rainfall.states_loop]. rewrite H. reflexivity.
  - intros srv fuel year years all_rainfall_records t t1 tr H.
    rewrite Rain.years_loop_cons, H. reflexivity.
  - intros srv fuel tr. unfold Rainfall.main.
    generalize Rainfall.YEARS_TO_FETCH. intros years.
    destruct (String.eqb Rainfall.API_KEY _); [discriminate|].
    destruct (Rainfall.years_loop srv fuel years [] 0)
      as [[[e t'] tr']|] eqn:E; [|discriminate].
    pose proof (Rain.years_loop_writes_nothing _ _ _ _ _ _ _ _ E) as Hw.
    intros H.
    destruct e as [all| | |]; try (inversion H; subst; exact Hw).
    destruct all; discriminate.
Qed.

Lemma C3_witness :
  Rainfall.fetch_paginated_data Samples.says_fatal Rainfall.RAIN_RESOURCE_ID
    (Rainfall.query_filters "2018" "Uttar Pradesh") 1 0 =
    Some (Returned Rainfall.FATAL_ERROR, 1%nat,
          [Get (Rainfall.params Rainfall.RAIN_RESOURCE_ID
                  (Rainfall.query_filters "2018" "Uttar Pradesh") 0)])
  /\ Rainfall.states_loop Samples.says_fatal 1 "2018" ("Uttar Pradesh" :: ["Goa"]) [] 0 =
       Some (Rainfall.Stopped, 1%nat,
             [Get (Rainfall.params Rainfall.RAIN_RESOURCE_ID
                     (Rainfall.query_filters "2018" "Uttar Pradesh") 0)])
  /\ Rainfall.main Samples.says_fatal 1 =
       Some (Rainfall.Stopped,
             [Get (Rainfall.params Rainfall.RAIN_RESOURCE_ID
                     (Rainfall.query_filters "2018" "Uttar Pradesh") 0)])
  /\ filter is_to_csv
       [Get (Rainfall.params Rainfall.RAIN_RESOURCE_ID
               (Rainfall.query_filters "2018" "Uttar Pradesh") 0)] = [].
Proof.
  assert (H : Rainfall.fetch_paginated_data Samples.says_fatal Rainfall.RAIN_RESOURCE_ID
                (Rainfall.query_filters "2018" "Uttar Pradesh") 1 0 =
              Some (Returned Rainfall.FATAL_ERROR, 1%nat,
                    [Get (Rainfall.params Rainfall.RAIN_RESOURCE_ID
                            (Rainfall.query_filters "2018" "Uttar Pradesh") 0)]))
    by reflexivity.
  assert (Hmain : Rainfall.main Samples.says_fatal 1 =
                  Some (Rainfall.Stopped,
                        [Get (Rainfall.params Rainfall.RAIN_RESOURCE_ID
                                (Rainfall.query_filters "2018" "Uttar Pradesh") 0)]))
    by (vm_compute; reflexivity).
  split; [exact H|]. split.
  - exact (proj1 (proj2 (proj2 C3_fatal_signal_stops_the_rainfall_run))
             Samples.says_fatal 1%nat "2018" "Uttar Pradesh" ["Goa"] [] 0%nat _ _ H).
  - split; [exact Hmain|].
    exact (proj2 (proj2 (proj2 (proj2 C3_fatal_signal_stops_the_rainfall_run)))
             Samples.says_fatal 1%nat _ Hmain).
Defined.

(** C10 (what the code does).  In [rainfall.py] the retry loop never ends
    with the fatal signal, whatever the server answers; five calls
    answered 403 are five failed tries: the query returns the records it
    has, as a list.  So with one record fetched for the first query and every later
    call answered 403, [main] goes through all 264 queries (1 + 263 * 5
    calls) and writes the output file with that record; and a 403 after a
    full first page returns that page as an ordinary list. *)
Theorem C10_forbidden_calls_do_not_stop_the_run :
  (forall (srv : server) req retries t,
     fst (fst (Rainfall.retry_loop srv req retries t)) <> Rainfall.Fatal)
  /\ (forall (srv : server) (t : nat),
     answers srv 403 t 5 ->
     forall resource query_filters fuel offset all_records,
       Rainfall.fetch_loop srv resource query_filters (S fuel) offset all_records t =
         Some (Returned (Rainfall.Records all_records), (t + 5)%nat,
               failed_rounds (Rainfall.params resource query_filters offset) 5))
  /\ (exists tr,
        Rainfall.main Samples.refused_after_first 1 =
          Some (Rainfall.Finished [Samples.a_record], tr)
        /\ filter is_to_csv tr = [ToCsv Rainfall.RAIN_OUTPUT_FILE [Samples.a_record]]
        /\ count_gets tr = 1316%nat)
  /\ (exists t' tr,
        Rainfall.fetch_paginated_data Samples.refused_after_full_page
          Rainfall.RAIN_RESOURCE_ID (Rainfall.query_filters "2018" "Goa") 2 0 =
          Some (Returned (Rainfall.Records (repeat Samples.a_record 1000)), t', tr)
        /\ count_gets tr = 6%nat).
Proof.
  split; [|split; [|split]].
  - intros srv req retries t. apply Rain.rain_retry_loop_never_fatal.
  - intros srv t H resource query_filters fuel offset all_records.
    cbn [Rainfall.fetch_loop]. change Rainfall.max_retries with (5 + 0)%nat.
    rewrite (Rain.rain_retry_loop_answers srv _ 403 5 0 t eq_refl H).
    cbn [Rainfall.retry_loop]. rewrite app_nil_r. reflexivity.
  - eexists. split; [vm_compute; reflexivity|]. split; reflexivity.
  - do 2 eexists. split; [vm_compute; reflexivity|]. reflexivity.
Qed.

Lemma C10_witness :
  answers Samples.refused 403 0 5
  /\ Rainfall.fetch_paginated_data Samples.refused Rainfall.RAIN_RESOURCE_ID
       (Rainfall.query_filters "2018" "Goa") 1 0 =
     Some (Returned (Rainfall.Records []), 5%nat,
           failed_rounds (Rainfall.params Rainfall.RAIN_RESOURCE_ID
                            (Rainfall.query_filters "2018" "Goa") 0) 5).
Proof.
  assert (H : answers Samples.refused 403 0 5)
    by (intros i req _; exists JOther; reflexivity).
  split; [exact H|].
  exact (proj1 (proj2 C10_forbidden_calls_do_not_stop_the_run) Samples.refused 0%nat H
           Rainfall.RAIN_RESOURCE_ID (Rainfall.query_filters "2018" "Goa")
           0%nat 0 []).
Defined.

End FetcherProperties.

(* ================================================================== *)
(** * The cleaning *)
(* ================================================================== *)

Module TableFacts.
Import Http Pandas DbCreator.

Section Tables.
Context `{pandas : Conversions}.

(** [for col in labels: df[col] = f(df[col])] on one row. *)
Definition apply_to (f : cell -> cell) (labels : list string) (r : row) : row :=
  fold_left (fun r col => set r col (f (get r col))) labels r.

(** A raw crop row after steps 1 to 3. *)
Definition crop_cleaned (r : row) : row :=
  apply_to to_numeric crop_num_cols
    (apply_to astype_str_strip crop_str_cols (rename_row crop_renames r)).

(** The production figure of a raw crop row as step 3 reads it. *)
Definition production (r : row) : cell :=
  to_numeric (get (rename_row crop_renames r) "production_tonnes").

(** The stored row of a raw crop row that is kept. *)
Definition crop_stored (r : row) : row :=
  select_row crop_final_cols
    (set (set (crop_cleaned r) "source_name"
            (Str "District-wise, season-wise crop production statistics"))
       "source_url" (Str CROP_API_URL)).

Definition has_label (l : string) (r : row) : bool :=
  existsb (fun kv => String.eqb (fst kv) l) r.

Lemma get_set r l v l' :
  get (set r l v) l' = if String.eqb l l' then v else get r l'.
Proof.
  induction r as [|[k w] r IH]; cbn [set get]; [reflexivity|].
  destruct (String.eqb k l) eqn:E.
  - apply String.eqb_eq in E. subst k. cbn [get].
    destruct (String.eqb l l'); reflexivity.
  - cbn [get]. rewrite IH.
    destruct (String.eqb k l') eqn:E2; destruct (String.eqb l l') eqn:E3;
      try reflexivity.
    apply String.eqb_eq in E2, E3. subst.
    rewrite String.eqb_refl in E. discriminate.
Qed.

Lemma get_without_label r l : has_label l r = false -> get r l = NaN.
Proof.
  induction r as [|[k w] r IH]; cbn [has_label existsb get fst]; [reflexivity|].
  destruct (String.eqb k l); [discriminate|]. exact IH.
Qed.

Lemma get_app r1 r2 l :
  get (r1 ++ r2) l = if has_label l r1 then get r1 l else get r2 l.
Proof.
  induction r1 as [|[k w] r1 IH]; cbn [app get has_label existsb fst]; [reflexivity|].
  destruct (String.eqb k l); [reflexivity|]. exact IH.
Qed.

Lemma get_filter_same r l :
  get (filter (fun kv => String.eqb (fst kv) l) r) l = get r l.
Proof.
  induction r as [|[k w] r IH]; cbn [filter get fst]; [reflexivity|].
  destruct (String.eqb k l) eqn:E; cbn [get]; [rewrite E; reflexivity | exact IH].
Qed.

Lemma has_label_filter r l0 l :
  has_label l (filter (fun kv => String.eqb (fst kv) l0) r) =
    String.eqb l0 l && has_label l r.
Proof.
  induction r as [|[k w] r IH]; cbn [filter has_label existsb fst].
  - rewrite andb_false_r. reflexivity.
  - destruct (String.eqb k l0) eqn:E; cbn [has_label existsb fst]; fold (has_label l r);
      fold (has_label l (filter (fun kv => String.eqb (fst kv) l0) r)); rewrite IH.
    + apply String.eqb_eq in E. subst k.
      destruct (String.eqb l0 l); reflexivity.
    + destruct (String.eqb k l) eqn:E2; [|reflexivity].
      apply String.eqb_eq in E2. subst k.
      rewrite String.eqb_sym, E. reflexivity.
Qed.

Lemma get_select_row labels r l :
  get (select_row labels r) l =
    if existsb (String.eqb l) labels then get r l else NaN.
Proof.
  induction labels as [|l0 labels IH]; cbn [select_row flat_map existsb];
    [reflexivity|].
  fold (select_row labels r). rewrite get_app, has_label_filter, IH.
  rewrite (String.eqb_sym l l0).
  destruct (String.eqb l0 l) eqn:E; cbn [andb orb]; [|reflexivity].
  apply String.eqb_eq in E. subst l0.
  destruct (has_label l r) eqn:Hl; [apply get_filter_same|].
  rewrite (get_without_label _ _ Hl). destruct (existsb _ labels); reflexivity.
Qed.

Lemma update_columns_spec f labels : forall df df',
  update_columns f labels df = Some df' ->
  columns df' = columns df /\ rows df' = map (apply_to f labels) (rows df).
Proof.
  induction labels as [|col labels IH]; intros df df' H; cbn [update_columns] in H.
  - inversion H; subst. split; [reflexivity|].
    symmetry. apply map_id.
  - unfold update_column in H. destruct (has_column df col); [|discriminate].
    apply IH in H. cbn [columns rows] in H. destruct H as [Hc Hr].
    split; [exact Hc|]. rewrite Hr, map_map. reflexivity.
Qed.

Lemma update_column_spec f col df df' :
  update_column f col df = Some df' ->
  columns df' = columns df
  /\ rows df' = map (fun r => set r col (f (get r col))) (rows df).
Proof.
  unfold update_column. destruct (has_column df col); [|discriminate].
  intros H. inversion H; subst. split; reflexivity.
Qed.

Lemma production_cleaned r :
  get (crop_cleaned r) "production_tonnes" = production r.
Proof.
  unfold crop_cleaned, production, apply_to. cbn [fold_left crop_num_cols crop_str_cols].
  rewrite !get_set. reflexivity.
Qed.

Lemma production_stored r :
  get (crop_stored r) "production_tonnes" = production r.
Proof.
  unfold crop_stored. rewrite get_select_row, !get_set.
  cbn [existsb crop_final_cols String.eqb Ascii.eqb Bool.eqb orb andb].
  apply production_cleaned.
Qed.

(** What [process_crop_data] returns and prints for a file it can clean. *)
Lemma process_crop_data_spec fs filepath raw printed out :
  fs filepath = Some (CsvFile raw) ->
  process_crop_data fs filepath = (printed, Returned (Some out)) ->
  let kept := filter (fun r => notna (production r)) (rows raw) in
  let dropped_count := (len raw - List.length kept)%nat in
  rows out = map crop_stored kept
  /\ printed =
       [Processing (len raw) filepath]
       ++ (if Nat.ltb 0 dropped_count then [Dropped dropped_count] else [])
       ++ [Complete (List.length kept)].
Proof.
  intros Hfile Hrun. unfold process_crop_data, read_csv in Hrun. rewrite Hfile in Hrun.
  destruct (update_columns astype_str_strip crop_str_cols (rename crop_renames raw))
    as [df1|] eqn:E1; [|inversion Hrun].
  destruct (update_columns to_numeric crop_num_cols df1) as [df2|] eqn:E2;
    [|inversion Hrun].
  destruct (select crop_final_cols _) as [df_clean|] eqn:E3; [|inversion Hrun].
  apply update_columns_spec in E1, E2. destruct E1 as [_ Hr1], E2 as [_ Hr2].
  cbn [rename rows] in Hr1. rewrite Hr1, !map_map in Hr2.
  unfold select in E3. destruct (forallb _ _); [|discriminate].
  inversion E3; subst df_clean; clear E3.
  inversion Hrun; subst printed out; clear Hrun.
  unfold len. cbn [rows dropna assign].
  rewrite Hr2, filter_map_swap, !map_map, !length_map.
  rewrite (filter_ext (fun r => notna (get (apply_to to_numeric crop_num_cols
             (apply_to astype_str_strip crop_str_cols (rename_row crop_renames r)))
             "production_tonnes"))
           (fun r => notna (production r)))
    by (intros r; f_equal; apply production_cleaned).
  split; reflexivity.
Qed.

(** ** Tables the cleaning accepts *)

(** The crop table has, after renaming, each string and numeric column
    once, and a year. *)
Definition crop_ready (raw : DataFrame) : bool :=
  forallb (has_column (rename crop_renames raw)) (crop_str_cols ++ crop_num_cols)
  && existsb (String.eqb "year") (columns (rename crop_renames raw)).

(** The rainfall table has, after renaming, each of its four columns once. *)
Definition rain_ready (raw : DataFrame) : bool :=
  forallb (has_column (rename rain_renames raw)) (rain_by ++ ["rainfall_mm"]).

Lemma forallb_same {A} (f g : A -> bool) (l : list A) :
  (forall a, f a = g a) -> forallb f l = forallb g l.
Proof.
  intros E. induction l as [|a l IH]; cbn [forallb]; [reflexivity|].
  rewrite E, IH. reflexivity.
Qed.

Lemma has_column_columns df df' label :
  columns df' = columns df -> has_column df' label = has_column df label.
Proof. unfold has_column. intros ->. reflexivity. Qed.

Lemma update_columns_succeeds f labels : forall df,
  forallb (has_column df) labels = true ->
  exists df', update_columns f labels df = Some df' /\ columns df' = columns df.
Proof.
  induction labels as [|col labels IH]; intros df Hall; cbn [update_columns].
  - eauto.
  - cbn [forallb] in Hall. apply andb_true_iff in Hall. destruct Hall as [Hcol Hall].
    unfold update_column. rewrite Hcol.
    destruct (IH {| columns := columns df;
                    rows := map (fun r => set r col (f (get r col))) (rows df) |})
      as [df' [Hrun Hcols]].
    + rewrite <- Hall. apply forallb_same. intros l.
      apply has_column_columns. reflexivity.
    + exists df'. split; [exact Hrun | exact Hcols].
Qed.

Lemma has_column_exists df label :
  has_column df label = true -> existsb (String.eqb label) (columns df) = true.
Proof.
  unfold has_column. intros Hone. apply existsb_exists. exists label.
  split; [|apply String.eqb_refl].
  apply (count_occ_In string_dec). apply Nat.eqb_eq in Hone. lia.
Qed.

Lemma exists_assign label v df l :
  existsb (String.eqb l) (columns df) = true ->
  existsb (String.eqb l) (columns (assign label v df)) = true.
Proof.
  intros Hl. cbn [assign columns].
  destruct (existsb (String.eqb label) (columns df)); [exact Hl|].
  rewrite existsb_app, Hl. reflexivity.
Qed.

Lemma exists_assigned label v df :
  existsb (String.eqb label) (columns (assign label v df)) = true.
Proof.
  cbn [assign columns].
  destruct (existsb (String.eqb label) (columns df)) eqn:E; [exact E|].
  rewrite existsb_app. cbn [existsb]. rewrite String.eqb_refl.
  apply orb_true_iff. right. reflexivity.
Qed.

(** [process_crop_data] returns a table for every file of a ready table. *)
Lemma process_crop_data_returns fs filepath raw :
  fs filepath = Some (CsvFile raw) ->
  crop_ready raw = true ->
  exists printed out,
    process_crop_data fs filepath = (printed, Returned (Some out)).
Proof.
  intros Hfile Hready. unfold crop_ready in Hready.
  apply andb_true_iff in Hready. destruct Hready as [Hcols Hyear].
  rewrite forallb_app in Hcols. apply andb_true_iff in Hcols.
  destruct Hcols as [Hstr Hnum].
  unfold process_crop_data, read_csv. rewrite Hfile.
  destruct (update_columns_succeeds astype_str_strip crop_str_cols _ Hstr)
    as [df1 [E1 C1]]. rewrite E1.
  assert (Hnum1 : forallb (has_column df1) crop_num_cols = true).
  { rewrite <- Hnum. apply forallb_same. intros l. apply has_column_columns. exact C1. }
  destruct (update_columns_succeeds to_numeric crop_num_cols _ Hnum1)
    as [df2 [E2 C2]]. rewrite E2.
  assert (Hin : forall l, In l (crop_str_cols ++ crop_num_cols ++ ["year"]) ->
                          existsb (String.eqb l) (columns df2) = true).
  { intros l Hl. rewrite C2, C1.
    rewrite app_assoc in Hl. apply in_app_or in Hl. destruct Hl as [Hl|[<-|[]]].
    - apply has_column_exists. apply in_app_or in Hl.
      destruct Hl as [Hl|Hl];
        [rewrite forallb_forall in Hstr; apply Hstr
        |rewrite forallb_forall in Hnum; apply Hnum]; exact Hl.
    - exact Hyear. }
  unfold select.
  match goal with
  | |- context [forallb ?f crop_final_cols] =>
      assert (Hsel : forallb f crop_final_cols = true)
  end.
  { apply forallb_forall. intros l Hl. cbn [crop_final_cols In] in Hl.
    repeat (destruct Hl as [<-|Hl]);
      try contradiction;
      try apply exists_assigned;
      try (apply exists_assign; apply exists_assigned);
      apply exists_assign, exists_assign; apply Hin; cbn; tauto. }
  rewrite Hsel. eauto.
Qed.

(** [process_rainfall_data] returns a table for every file of a ready
    table. *)
Lemma process_rainfall_data_returns fs filepath raw :
  fs filepath = Some (CsvFile raw) ->
  rain_ready raw = true ->
  exists printed out,
    process_rainfall_data fs filepath = (printed, Returned (Some out)).
Proof.
  intros Hfile Hready. unfold rain_ready in Hready.
  cbn [rain_by app forallb] in Hready.
  repeat (apply andb_true_iff in Hready;
          let H := fresh "Hc" in destruct Hready as [H Hready]).
  unfold process_rainfall_data, read_csv. rewrite Hfile.
  destruct (update_columns_succeeds astype_str_strip rain_str_cols
              (rename rain_renames raw)) as [df1 [E1 C1]].
  { cbn [forallb rain_str_cols]. rewrite Hc, Hc0. reflexivity. }
  rewrite E1. unfold update_column.
  rewrite (has_column_columns _ _ "rainfall_mm" C1), Hc2.
  cbn [columns]. unfold has_column at 1. cbn [columns]. fold (has_column df1 "rainfall_mm").
  rewrite (has_column_columns _ _ "rainfall_mm" C1), Hc2.
  unfold has_column at 1. cbn [columns]. fold (has_column df1 "rainfall_mm").
  rewrite (has_column_columns _ _ "rainfall_mm" C1), Hc2.
  unfold groupby_sum. cbn [forallb rain_by].
  unfold has_column. cbn [columns]. rewrite C1.
  fold (has_column (rename rain_renames raw) "state").
  fold (has_column (rename rain_renames raw) "district").
  fold (has_column (rename rain_renames raw) "year").
  fold (has_column (rename rain_renames raw) "rainfall_mm").
  rewrite Hc, Hc0, Hc1, Hc2. cbn [andb]. eauto.
Qed.

(** ** Grouping *)

Lemma cell_eqb_eq (c d : cell) : cell_eqb c d = true <-> c = d.
Proof.
  destruct c as [x|s|], d as [y|u|]; cbn [cell_eqb];
    try (split; [discriminate | intros E; inversion E]).
  - rewrite number_eqb_eq.
    split; [intros ->; reflexivity | intros E; inversion E; reflexivity].
  - rewrite String.eqb_eq. split; [intros ->; reflexivity | intros E; inversion E; reflexivity].
  - split; reflexivity.
Qed.

Lemma key_eqb_eq : forall k k' : key, key_eqb k k' = true <-> k = k'.
Proof.
  induction k as [|c k IH]; destruct k' as [|d k']; cbn [key_eqb];
    try (split; [discriminate | intros E; inversion E]).
  - split; reflexivity.
  - rewrite andb_true_iff, cell_eqb_eq, IH.
    split; [intros [-> ->]; reflexivity | intros E; inversion E; auto].
Qed.

Lemma key_eqb_refl (k : key) : key_eqb k k = true.
Proof. apply key_eqb_eq. reflexivity. Qed.

Lemma key_eqb_neq (k k' : key) : key_eqb k k' = false <-> k <> k'.
Proof.
  rewrite <- key_eqb_eq. destruct (key_eqb k k'); split; congruence.
Qed.

(** What is recorded for a key, if the key has a group. *)
Fixpoint lookup {A : Type} (k : key) (groups : list (key * A)) : option A :=
  match groups with
  | [] => None
  | (k', s) :: groups' => if key_eqb k k' then Some s else lookup k groups'
  end.

(** Whether a row falls under a key. *)
Definition key_matches (k : key) (o : option key) : bool :=
  match o with Some k' => key_eqb k k' | None => false end.

Lemma lookup_accumulate k v groups k' :
  lookup k' (accumulate k v groups) =
    if key_eqb k' k
    then Some (match lookup k groups with Some vs => vs ++ [v] | None => [v] end)
    else lookup k' groups.
Proof.
  induction groups as [|[k0 s0] groups IH]; cbn [accumulate lookup]; [reflexivity|].
  destruct (key_eqb k k0) eqn:E.
  - apply key_eqb_eq in E. subst k0. cbn [lookup].
    destruct (key_eqb k' k); reflexivity.
  - cbn [lookup]. rewrite IH.
    destruct (key_eqb k' k0) eqn:E2; destruct (key_eqb k' k) eqn:E3; try reflexivity.
    apply key_eqb_eq in E2, E3. subst. rewrite key_eqb_refl in E. discriminate.
Qed.

Lemma In_accumulate_keys k v groups k' :
  In k' (map fst (accumulate k v groups)) <-> k' = k \/ In k' (map fst groups).
Proof.
  induction groups as [|[k0 s0] groups IH]; cbn [accumulate map fst In].
  - intuition congruence.
  - destruct (key_eqb k k0) eqn:E; cbn [map fst In].
    + apply key_eqb_eq in E. subst k0. intuition congruence.
    + rewrite IH. intuition congruence.
Qed.

Lemma NoDup_accumulate k v groups :
  NoDup (map fst groups) -> NoDup (map fst (accumulate k v groups)).
Proof.
  induction groups as [|[k0 s0] groups IH]; cbn [accumulate map fst]; intros Hnd.
  - constructor; [intros []|constructor].
  - inversion Hnd as [|? ? Hnotin Hnd']; subst.
    destruct (key_eqb k k0) eqn:E; cbn [map fst].
    + constructor; assumption.
    + constructor; [|apply IH; exact Hnd'].
      rewrite In_accumulate_keys. intros [->|Hin]; [|contradiction].
      rewrite key_eqb_refl in E. discriminate.
Qed.


Lemma lookup_key {A : Type} (groups : list (key * A)) k :
  In k (map fst groups) <-> lookup k groups <> None.
Proof.
  induction groups as [|[k0 s0] groups IH]; cbn [map fst In lookup].
  - split; [intros [] | congruence].
  - destruct (key_eqb k k0) eqn:E.
    + apply key_eqb_eq in E. subst. split; [discriminate | auto].
    + apply key_eqb_neq in E. rewrite <- IH. intuition congruence.
Qed.

Lemma filter_none {A} (f : A -> bool) (l : list A) :
  existsb f l = false -> filter f l = [].
Proof.
  induction l as [|a l IH]; cbn [existsb filter]; [reflexivity|].
  destruct (f a); [discriminate|]. exact IH.
Qed.

(** The group of a key holds the cells of the rows that fall under it, in
    the order of the rows, and a key has a group exactly when a row falls
    under it. *)
Lemma lookup_group_values by_ value : forall rs k,
  lookup k (group_values by_ value rs) =
    if existsb (fun r => key_matches k (group_key by_ r)) rs
    then Some (map (fun r => get r value)
                   (filter (fun r => key_matches k (group_key by_ r)) rs))
    else None.
Proof.
  induction rs as [|r rs IH] using rev_ind; intros k; [reflexivity|].
  unfold group_values. rewrite fold_left_app. cbn [fold_left].
  fold (group_values by_ value rs).
  rewrite existsb_app, filter_app, map_app. cbn [existsb filter].
  rewrite orb_false_r.
  destruct (group_key by_ r) as [k0|] eqn:Hk; cbn [key_matches].
  - rewrite lookup_accumulate. destruct (key_eqb k k0) eqn:E.
    + apply key_eqb_eq in E. subst k0. rewrite orb_true_r, IH.
      destruct (existsb _ rs) eqn:Hex.
      * reflexivity.
      * rewrite (filter_none _ _ Hex). reflexivity.
    + rewrite orb_false_r, app_nil_r. apply IH.
  - rewrite orb_false_r, app_nil_r. apply IH.
Qed.

Lemma NoDup_group_values by_ value rs : NoDup (map fst (group_values by_ value rs)).
Proof.
  induction rs as [|r rs IH] using rev_ind; [constructor|].
  unfold group_values. rewrite fold_left_app. cbn [fold_left].
  fold (group_values by_ value rs).
  destruct (group_key by_ r); [apply NoDup_accumulate|]; exact IH.
Qed.

Lemma lookup_map {A B : Type} (f : A -> B) (groups : list (key * A)) k :
  lookup k (map (fun g => (fst g, f (snd g))) groups) = option_map f (lookup k groups).
Proof.
  induction groups as [|[k0 vs] groups IH]; cbn [map lookup fst snd]; [reflexivity|].
  destruct (key_eqb k k0); [reflexivity | exact IH].
Qed.

Lemma group_sums_keys by_ value rs :
  map fst (group_sums by_ value rs) = map fst (group_values by_ value rs).
Proof. unfold group_sums. rewrite map_map. reflexivity. Qed.

Lemma NoDup_group_sums by_ value rs : NoDup (map fst (group_sums by_ value rs)).
Proof. rewrite group_sums_keys. apply NoDup_group_values. Qed.

(** The sum recorded for a key is the sum of the cells of the rows that
    fall under it, in the order of the rows. *)
Lemma lookup_group_sums by_ value rs k :
  lookup k (group_sums by_ value rs) =
    if existsb (fun r => key_matches k (group_key by_ r)) rs
    then Some (sum_cells (map (fun r => get r value)
                              (filter (fun r => key_matches k (group_key by_ r)) rs)))
    else None.
Proof.
  unfold group_sums. rewrite lookup_map, lookup_group_values.
  destruct (existsb _ rs); reflexivity.
Qed.

Lemma insert_sorted_perm g gs : Permutation (insert_sorted g gs) (g :: gs).
Proof.
  induction gs as [|g' gs IH]; cbn [insert_sorted]; [reflexivity|].
  destruct (key_leb (fst g) (fst g')); [reflexivity|].
  rewrite IH. apply perm_swap.
Qed.

Lemma sort_groups_perm gs : Permutation (sort_groups gs) gs.
Proof.
  induction gs as [|g gs IH]; cbn [sort_groups]; [reflexivity|].
  rewrite insert_sorted_perm, IH. reflexivity.
Qed.

(** ** The rainfall table *)

(** A raw rainfall row after steps 1 to 3. *)
Definition rain_cleaned (r : row) : row :=
  let r := apply_to astype_str_strip rain_str_cols (rename_row rain_renames r) in
  let r := set r "rainfall_mm" (replace "NR" (Num zero) (get r "rainfall_mm")) in
  let r := set r "rainfall_mm" (to_numeric (get r "rainfall_mm")) in
  set r "rainfall_mm" (fillna (Num zero) (get r "rainfall_mm")).

(** The group of a raw rainfall row: its trimmed state and district and its
    year; none when the year is missing. *)
Definition rain_key (r : row) : option key :=
  let r0 := rename_row rain_renames r in
  if isna (get r0 "year") then None
  else Some [ astype_str_strip (get r0 "state");
              astype_str_strip (get r0 "district");
              get r0 "year" ].

(** The number of a cell that holds one. *)
Definition number_of (c : cell) : number :=
  match c with Num x => x | _ => zero end.

(** What a raw rainfall row adds to the sum of its group. *)
Definition rain_value (r : row) : number :=
  number_of (rain_repair (get (rename_row rain_renames r) "rainfall_mm")).

(** The annual figure of the numbers of a group: their sum as the library
    computes it, missing when that sum is NaN. *)
Definition annual (xs : list number) : cell :=
  match sum_numbers xs with
  | Some x => Num x
  | None => NaN
  end.

(** The stored row of a group. *)
Definition rain_stored (g : key * cell) : row :=
  set (set (rename_row [("rainfall_mm", "annual_rainfall_mm")]
              (group_row rain_by "rainfall_mm" g))
         "source_name"
         (Str "Daily District-wise Rainfall Data (Aggregated to Annual)"))
    "source_url" (Str RAIN_API_URL).

(** The key columns of a stored rainfall row. *)
Definition stored_key (o : row) : key :=
  [get o "state"; get o "district"; get o "year"].

Lemma astype_str_strip_notna c : isna (astype_str_strip c) = false.
Proof. destruct c; reflexivity. Qed.

Lemma group_key_cleaned r :
  group_key rain_by (rain_cleaned r) = rain_key r.
Proof.
  unfold group_key, rain_cleaned, rain_key, apply_to.
  cbn [map fold_left rain_by rain_str_cols]. rewrite !get_set.
  cbn [String.eqb Ascii.eqb Bool.eqb existsb orb].
  rewrite !astype_str_strip_notna. cbn [orb].
  destruct (isna (get (rename_row rain_renames r) "year")); reflexivity.
Qed.





Lemma group_key_shape r k :
  group_key rain_by r = Some k -> exists a b c, k = [a; b; c].
Proof.
  unfold group_key. destruct (existsb isna _); [discriminate|].
  intros E. inversion E. cbn [map rain_by]. eauto.
Qed.



(** What [process_rainfall_data] returns for a file it can clean. *)
Lemma process_rainfall_data_spec fs filepath raw printed out :
  fs filepath = Some (CsvFile raw) ->
  process_rainfall_data fs filepath = (printed, Returned (Some out)) ->
  rows out =
    map rain_stored
      (sort_groups (group_sums rain_by "rainfall_mm" (map rain_cleaned (rows raw)))).
Proof.
  intros Hfile Hrun. unfold process_rainfall_data, read_csv in Hrun.
  rewrite Hfile in Hrun.
  destruct (update_columns astype_str_strip rain_str_cols (rename rain_renames raw))
    as [df1|] eqn:E1; [|inversion Hrun].
  destruct (update_column (replace "NR" (Num zero)) "rainfall_mm" df1)
    as [df2|] eqn:E2; [|inversion Hrun].
  destruct (update_column to_numeric "rainfall_mm" df2) as [df3|] eqn:E3;
    [|inversion Hrun].
  destruct (update_column (fillna (Num zero)) "rainfall_mm" df3) as [df4|] eqn:E4;
    [|inversion Hrun].
  destruct (groupby_sum rain_by "rainfall_mm" df4) as [annual|] eqn:E5;
    [|inversion Hrun].
  inversion Hrun; subst printed out; clear Hrun.
  apply update_columns_spec in E1. apply update_column_spec in E2, E3, E4.
  destruct E1 as [_ Hr1], E2 as [_ Hr2], E3 as [_ Hr3], E4 as [_ Hr4].
  cbn [rename rows] in Hr1.
  rewrite Hr1, map_map in Hr2. rewrite Hr2, map_map in Hr3.
  rewrite Hr3, map_map in Hr4.
  unfold groupby_sum in E5. destruct (_ && _); [|discriminate].
  inversion E5; subst annual; clear E5.
  cbn [assign rename rows]. rewrite Hr4, !map_map. reflexivity.
Qed.

(** The keys of the rainfall table: each once, and exactly those of the
    input rows that have a year. *)
Lemma rain_output_keys fs filepath raw printed out :
  fs filepath = Some (CsvFile raw) ->
  process_rainfall_data fs filepath = (printed, Returned (Some out)) ->
  NoDup (map stored_key (rows out))
  /\ (forall k, In k (map stored_key (rows out)) <->
                exists r, In r (rows raw) /\ rain_key r = Some k).
Proof.
  intros Hfile Hrun.
  pose proof (process_rainfall_data_spec fs filepath raw printed out Hfile Hrun) as Hrows.
  set (groups := group_sums rain_by "rainfall_mm" (map rain_cleaned (rows raw))) in *.
  pose proof (sort_groups_perm groups) as Hperm.
  pose proof (NoDup_group_sums rain_by "rainfall_mm" (map rain_cleaned (rows raw)))
    as Hnd. fold groups in Hnd.
  assert (Hhas : forall k, In k (map fst groups) <->
                           exists r, In r (rows raw) /\ rain_key r = Some k).
  { intros k. rewrite lookup_key. unfold groups. rewrite lookup_group_sums.
    destruct (existsb _ _) eqn:Hex.
    - split; [intros _|discriminate].
      apply existsb_exists in Hex. destruct Hex as [r' [Hin Hm]].
      apply in_map_iff in Hin. destruct Hin as [r [<- Hin]].
      rewrite group_key_cleaned in Hm. exists r. split; [exact Hin|].
      destruct (rain_key r) as [k'|]; [|discriminate].
      apply key_eqb_eq in Hm. subst. reflexivity.
    - split; [congruence|]. intros [r [Hin Hk]]. exfalso.
      assert (Htrue : existsb (fun r0 => key_matches k (group_key rain_by r0))
                        (map rain_cleaned (rows raw)) = true).
      { apply existsb_exists. exists (rain_cleaned r). split; [apply in_map; exact Hin|].
        rewrite group_key_cleaned, Hk. apply key_eqb_refl. }
      congruence. }
  assert (Hkeys : map stored_key (rows out) = map fst (sort_groups groups)).
  { rewrite Hrows, map_map. apply map_ext_in. intros [k s] Hg.
    apply (Permutation_in _ Hperm) in Hg.
    assert (Hk : In k (map fst groups)) by (apply in_map_iff; exists (k, s); auto).
    apply Hhas in Hk. destruct Hk as [r [_ Hk]].
    rewrite <- group_key_cleaned in Hk. apply group_key_shape in Hk.
    destruct Hk as [a [b [c ->]]]. reflexivity. }
  split.
  - rewrite Hkeys. apply (Permutation_NoDup (l := map fst groups)); [|exact Hnd].
    apply Permutation_map. symmetry. exact Hperm.
  - intros k. rewrite Hkeys, <- Hhas. split; apply Permutation_in;
      apply Permutation_map; [|symmetry]; exact Hperm.
Qed.

End Tables.

End TableFacts.

(* ================================================================== *)
(** * Properties of the Transformer *)
(* ================================================================== *)

Section TransformerProperties.
Import Http Pandas DbCreator TableFacts.
Context `{Conversions}.

Lemma to_numeric_notna (c : cell) :
  notna (to_numeric c) = true -> exists x, to_numeric c = Num x.
Proof.
  destruct c as [x|s|]; cbn [to_numeric]; [eauto | | discriminate].
  destruct (parse_number s); [eauto | discriminate].
Qed.

(** C2.  No stored crop row lacks [production_tonnes]: the stored rows are
    those of the input, in order, whose production figure [to_numeric]
    could read; the others, and only they, are dropped, their number is
    the count the script reports, and it is the difference between the
    numbers of input and output rows. *)
Theorem C2_rows_without_production_are_dropped :
  forall (fs : filesystem) (filepath : string) (raw : DataFrame)
         (printed : list message) (out : DataFrame),
    fs filepath = Some (CsvFile raw) ->
    process_crop_data fs filepath = (printed, Returned (Some out)) ->
    let unparseable := fun r => isna (production r) in
    let dropped_count := List.length (filter unparseable (rows raw)) in
    Forall (fun o => exists x, get o "production_tonnes" = Num x) (rows out)
    /\ rows out = map crop_stored (filter (fun r => negb (unparseable r)) (rows raw))
    /\ len out = (len raw - dropped_count)%nat
    /\ (len out + dropped_count)%nat = len raw
    /\ (In (Dropped dropped_count) printed <-> (0 < dropped_count)%nat)
    /\ (forall d, In (Dropped d) printed -> d = dropped_count).
Proof.
  intros fs filepath raw printed out Hfile Hrun unparseable dropped_count.
  destruct (process_crop_data_spec fs filepath raw printed out Hfile Hrun)
    as [Hrows Hprinted].
  fold (notna) in Hrows.
  assert (Hlen : (List.length (filter (fun r => notna (production r)) (rows raw))
                  + dropped_count)%nat = len raw).
  { unfold dropped_count, unparseable, len, notna.
    rewrite Nat.add_comm. apply filter_length. }
  assert (Hd : (len raw - List.length (filter (fun r => notna (production r)) (rows raw)))%nat
               = dropped_count).
  { lia. }
  rewrite Hd in Hprinted.
  change (fun r => negb (unparseable r)) with (fun r => notna (production r)).
  split; [|split; [exact Hrows|]].
  - rewrite Hrows. apply Forall_forall. intros o Ho.
    apply in_map_iff in Ho. destruct Ho as [r [<- Hr]].
    apply filter_In in Hr. destruct Hr as [_ Hr].
    rewrite production_stored. apply to_numeric_notna. exact Hr.
  - unfold len in *. rewrite Hrows, length_map.
    split; [lia|]. split; [lia|].
    rewrite Hprinted. split.
    + split.
      * intros Hin. destruct (Nat.ltb 0 dropped_count) eqn:E;
          [apply Nat.ltb_lt; exact E|].
        cbn in Hin. destruct Hin as [Hin|[Hin|[]]]; discriminate.
      * intros Hpos. apply Nat.ltb_lt in Hpos. rewrite Hpos.
        cbn. right. left. reflexivity.
    + intros d Hin. destruct (Nat.ltb 0 dropped_count); cbn in Hin.
      * destruct Hin as [Hin|[Hin|[Hin|[]]]]; try discriminate.
        inversion Hin. reflexivity.
      * destruct Hin as [Hin|[Hin|[]]]; discriminate.
Qed.


Lemma rain_repair_cases (c : cell) :
  rain_repair c =
    match c with
    | Num x => Num x
    | Str s =>
        if String.eqb s "NR" then Num zero
        else match parse_number s with
             | Some x => Num x
             | None => Num zero
             end
    | NaN => Num zero
    end.
Proof.
  unfold rain_repair. destruct c as [x|s|]; cbn [replace]; [reflexivity| |reflexivity].
  destruct (String.eqb s "NR"); [reflexivity|].
  cbn [to_numeric]. destruct (parse_number s); reflexivity.
Qed.

(** C8 (as the code has it).  The rainfall column is repaired by
    [rain_repair]: the sentinel ["NR"] becomes 0, a number (or a string
    that reads as one) is kept, every other value becomes the missing
    marker and then 0; so a rainfall cell ["NR"] adds 0 to the sum of its
    group.  The two numeric columns of the crop table are repaired by
    [to_numeric] alone: whatever does not read as a number, the sentinel
    included, becomes the missing marker and stays so.  Both repairs are
    total. *)
Theorem C8_numeric_repair :
  (forall c : cell,
     rain_repair c =
       match c with
       | Num x => Num x
       | Str s =>
           if String.eqb s "NR" then Num zero
           else match parse_number s with
                | Some x => Num x
                | None => Num zero
                end
       | NaN => Num zero
       end)
  /\ (forall s : string, parse_number s = None -> to_numeric (Str s) = NaN)
  /\ (forall fs filepath raw printed out,
        fs filepath = Some (CsvFile raw) ->
        process_rainfall_data fs filepath = (printed, Returned (Some out)) ->
        rows out =
          map rain_stored
            (sort_groups (group_sums rain_by "rainfall_mm" (map rain_cleaned (rows raw))))
        /\ forall r, get (rain_cleaned r) "rainfall_mm" =
                     rain_repair (get (rename_row rain_renames r) "rainfall_mm"))
  /\ (forall fs filepath raw printed out,
        fs filepath = Some (CsvFile raw) ->
        process_crop_data fs filepath = (printed, Returned (Some out)) ->
        rows out = map crop_stored (filter (fun r => notna (production r)) (rows raw))
        /\ forall r,
             get (crop_stored r) "production_tonnes" =
               to_numeric (get (rename_row crop_renames r) "production_tonnes")
             /\ get (crop_stored r) "area_hectares" =
                  to_numeric (get (rename_row crop_renames r) "area_hectares"))
  /\ (forall r, get (rename_row rain_renames r) "rainfall_mm" = Str "NR" ->
                rain_value r = zero).
Proof.
  split; [exact rain_repair_cases|]. split; [|split; [|split]].
  - intros s Hs. cbn [to_numeric]. rewrite Hs. reflexivity.
  - intros fs filepath raw printed out Hfile Hrun. split.
    + exact (process_rainfall_data_spec fs filepath raw printed out Hfile Hrun).
    + intros r. unfold rain_cleaned, rain_repair, apply_to.
      cbn [fold_left rain_str_cols]. rewrite !get_set.
      cbn [String.eqb Ascii.eqb Bool.eqb]. reflexivity.
  - intros fs filepath raw printed out Hfile Hrun. split.
    + exact (proj1 (process_crop_data_spec fs filepath raw printed out Hfile Hrun)).
    + intros r. split; [apply production_stored|].
      unfold crop_stored. rewrite get_select_row, !get_set.
      cbn [existsb crop_final_cols String.eqb Ascii.eqb Bool.eqb orb andb].
      unfold crop_cleaned, apply_to. cbn [fold_left crop_num_cols crop_str_cols].
      rewrite !get_set. reflexivity.
  - intros r Hr. unfold rain_value. rewrite Hr, rain_repair_cases. reflexivity.
Qed.

(** A cleaning that produced a table. *)
Definition cleaned (x : list message * outcome (option DataFrame)) : Prop :=
  exists df, snd x = Returned (Some df).

(** The database [main] leaves for two clean tables. *)
Definition built (df_crop_clean df_rain_clean : DataFrame) : database :=
  match to_sql "agriculture_production" df_crop_clean [] with
  | None => []
  | Some db =>
      match to_sql "climate_rainfall" df_rain_clean db with
      | None => db
      | Some db' => db'
      end
  end.

Lemma process_crop_data_reads_its_file (fs1 fs2 : filesystem) (filepath : string) :
  fs1 filepath = fs2 filepath ->
  process_crop_data fs1 filepath = process_crop_data fs2 filepath.
Proof. intros E. unfold process_crop_data, read_csv. rewrite E. reflexivity. Qed.

Lemma process_rainfall_data_reads_its_file (fs1 fs2 : filesystem) (filepath : string) :
  fs1 filepath = fs2 filepath ->
  process_rainfall_data fs1 filepath = process_rainfall_data fs2 filepath.
Proof. intros E. unfold process_rainfall_data, read_csv. rewrite E. reflexivity. Qed.

Lemma main_untouched (fs : filesystem) :
  ~ cleaned (process_crop_data fs CROP_FILE)
  \/ ~ cleaned (process_rainfall_data fs RAIN_FILE) ->
  fst (fst (main fs)) = fs.
Proof.
  intros Hfail. unfold main, cleaned in *.
  destruct (process_crop_data fs CROP_FILE) as [printed1 [[dc|]|]];
    try reflexivity;
    destruct (process_rainfall_data fs RAIN_FILE) as [printed2 [[dr|]|]];
    try reflexivity.
  exfalso. destruct Hfail as [Hf|Hf]; apply Hf; eexists; reflexivity.
Qed.

Lemma main_builds (fs : filesystem) printed1 printed2 dc dr :
  process_crop_data fs CROP_FILE = (printed1, Returned (Some dc)) ->
  process_rainfall_data fs RAIN_FILE = (printed2, Returned (Some dr)) ->
  snd (main fs) = Returned tt
  /\ forall p, fst (fst (main fs)) p =
               if String.eqb p DB_FILE then Some (SqliteFile (built dc dr)) else fs p.
Proof.
  intros Hc Hr. unfold main, built. rewrite Hc, Hr.
  destruct (exists_ fs DB_FILE);
    destruct (to_sql "agriculture_production" dc []) as [db|];
    try destruct (to_sql "climate_rainfall" dr db) as [db'|];
    (split; [reflexivity|]); intros p; cbn [fst]; unfold write, remove;
    destruct (String.eqb p DB_FILE); reflexivity.
Qed.

Lemma main_other_files (fs : filesystem) (p : string) :
  String.eqb p DB_FILE = false -> fst (fst (main fs)) p = fs p.
Proof.
  intros Hp.
  destruct (process_crop_data fs CROP_FILE) as [printed1 [[dc|]|]] eqn:Hc;
    try (rewrite main_untouched;
         [reflexivity | left; intros [df Hdf]; rewrite Hc in Hdf; discriminate]).
  destruct (process_rainfall_data fs RAIN_FILE) as [printed2 [[dr|]|]] eqn:Hr;
    try (rewrite main_untouched;
         [reflexivity | right; intros [df Hdf]; rewrite Hr in Hdf; discriminate]).
  rewrite (proj2 (main_builds fs _ _ _ _ Hc Hr) p), Hp. reflexivity.
Qed.

(** C4.  When either cleaning ends without a table (its file is missing,
    or it raises) [main] leaves every file as it was, the database
    included; the database file is replaced only when both cleanings
    returned a table, and then no other file changes. *)
Theorem C4_database_untouched_unless_both_cleaned :
  forall (fs : filesystem),
    (~ cleaned (process_crop_data fs CROP_FILE)
     \/ ~ cleaned (process_rainfall_data fs RAIN_FILE) ->
     fst (fst (main fs)) = fs)
    /\ (fs CROP_FILE = None \/ fs RAIN_FILE = None -> fst (fst (main fs)) = fs)
    /\ (fst (fst (main fs)) DB_FILE <> fs DB_FILE ->
        cleaned (process_crop_data fs CROP_FILE)
        /\ cleaned (process_rainfall_data fs RAIN_FILE))
    /\ (cleaned (process_crop_data fs CROP_FILE) ->
        cleaned (process_rainfall_data fs RAIN_FILE) ->
        (exists db, fst (fst (main fs)) DB_FILE = Some (SqliteFile db))
        /\ forall p, p <> DB_FILE -> fst (fst (main fs)) p = fs p).
Proof.
  intros fs. split; [apply main_untouched|]. split; [|split].
  - intros Hmissing. apply main_untouched.
    destruct Hmissing as [E|E]; [left|right]; intros [df Hdf].
    + unfold process_crop_data, read_csv in Hdf. rewrite E in Hdf. discriminate.
    + unfold process_rainfall_data, read_csv in Hdf. rewrite E in Hdf. discriminate.
  - intros Hchanged.
    destruct (process_crop_data fs CROP_FILE) as [printed1 [[dc|]|]] eqn:Hc;
      try (exfalso; apply Hchanged; rewrite main_untouched;
           [reflexivity | left; intros [df Hdf]; rewrite Hc in Hdf; discriminate]).
    destruct (process_rainfall_data fs RAIN_FILE) as [printed2 [[dr|]|]] eqn:Hr;
      try (exfalso; apply Hchanged; rewrite main_untouched;
           [reflexivity | right; intros [df Hdf]; rewrite Hr in Hdf; discriminate]).
    split; eexists; reflexivity.
  - intros [dc Hc] [dr Hr].
    destruct (process_crop_data fs CROP_FILE) as [printed1 oc] eqn:Ec.
    destruct (process_rainfall_data fs RAIN_FILE) as [printed2 orr] eqn:Er.
    cbn [snd] in Hc, Hr. subst oc orr.
    destruct (main_builds fs _ _ _ _ Ec Er) as [_ Hfiles]. split.
    + exists (built dc dr). rewrite Hfiles, String.eqb_refl. reflexivity.
    + intros p Hp. apply main_other_files. apply String.eqb_neq. exact Hp.
Qed.

(** C9.  Each cleaning is a function of the content of the file it is
    given, whatever else the file system holds; two runs of [main] on the
    same two input files end alike and, when both tables are cleaned,
    leave the same database; and running [main] again on what it left
    changes nothing. *)
Theorem C9_cleaning_is_a_function_of_the_input :
  forall (fs1 fs2 : filesystem),
    (forall filepath,
       fs1 filepath = fs2 filepath ->
       process_crop_data fs1 filepath = process_crop_data fs2 filepath
       /\ process_rainfall_data fs1 filepath = process_rainfall_data fs2 filepath)
    /\ (fs1 CROP_FILE = fs2 CROP_FILE ->
        fs1 RAIN_FILE = fs2 RAIN_FILE ->
        snd (main fs1) = snd (main fs2)
        /\ (cleaned (process_crop_data fs1 CROP_FILE) ->
            cleaned (process_rainfall_data fs1 RAIN_FILE) ->
            fst (fst (main fs1)) DB_FILE = fst (fst (main fs2)) DB_FILE))
    /\ (forall p, fst (fst (main (fst (fst (main fs1))))) p = fst (fst (main fs1)) p).
Proof.
  intros fs1 fs2.
  assert (Hsame : forall fa fb : filesystem,
             fa CROP_FILE = fb CROP_FILE -> fa RAIN_FILE = fb RAIN_FILE ->
             snd (main fa) = snd (main fb)
             /\ (cleaned (process_crop_data fa CROP_FILE) ->
                 cleaned (process_rainfall_data fa RAIN_FILE) ->
                 fst (fst (main fa)) DB_FILE = fst (fst (main fb)) DB_FILE)).
  { intros fa fb Ec Er.
    pose proof (process_crop_data_reads_its_file fa fb CROP_FILE Ec) as Pc.
    pose proof (process_rainfall_data_reads_its_file fa fb RAIN_FILE Er) as Pr.
    split.
    - unfold main. rewrite <- Pc, <- Pr.
      destruct (process_crop_data fa CROP_FILE) as [printed1 [[dc|]|]];
        try reflexivity;
        destruct (process_rainfall_data fa RAIN_FILE) as [printed2 [[dr|]|]];
        try reflexivity.
      destruct (exists_ fa DB_FILE); destruct (exists_ fb DB_FILE);
        destruct (to_sql "agriculture_production" dc []) as [db|];
        try destruct (to_sql "climate_rainfall" dr db) as [db'|]; reflexivity.
    - intros [dc Hc] [dr Hr].
      destruct (process_crop_data fa CROP_FILE) as [printed1 oc] eqn:Eca.
      destruct (process_rainfall_data fa RAIN_FILE) as [printed2 orr] eqn:Era.
      cbn [snd] in Hc, Hr. subst oc orr.
      rewrite (proj2 (main_builds fa _ _ _ _ Eca Era) DB_FILE).
      symmetry in Pc, Pr.
      rewrite (proj2 (main_builds fb _ _ _ _ Pc Pr) DB_FILE). reflexivity. }
  split; [|split].
  - intros filepath E. split.
    + apply process_crop_data_reads_its_file; exact E.
    + apply process_rainfall_data_reads_its_file; exact E.
  - apply Hsame.
  - intros p. destruct (String.eqb p DB_FILE) eqn:Hp.
    + apply String.eqb_eq in Hp. subst p.
      destruct (process_crop_data fs1 CROP_FILE) as [printed1 [[dc|]|]] eqn:Hc;
        try (rewrite (main_untouched fs1) at 1;
             [reflexivity | left; intros [df Hdf]; rewrite Hc in Hdf; discriminate]).
      destruct (process_rainfall_data fs1 RAIN_FILE) as [printed2 [[dr|]|]] eqn:Hr;
        try (rewrite (main_untouched fs1) at 1;
             [reflexivity | right; intros [df Hdf]; rewrite Hr in Hdf; discriminate]).
      symmetry. apply Hsame.
      * symmetry. apply main_other_files. reflexivity.
      * symmetry. apply main_other_files. reflexivity.
      * exists dc. rewrite Hc. reflexivity.
      * exists dr. rewrite Hr. reflexivity.
    + apply main_other_files. exact Hp.
Qed.

End TransformerProperties.

Section TransformerExamples.
Import Http Pandas DbCreator TableFacts TableSamples.
Local Existing Instance plain_decimals.

Lemma C2_witness :
  only CROP_FILE crop_example CROP_FILE = Some (CsvFile crop_example)
  /\ @process_crop_data plain_decimals (only CROP_FILE crop_example) CROP_FILE =
       ([Processing 2 CROP_FILE; Dropped 1; Complete 1],
        Returned (Some {| columns := crop_final_cols;
                          rows := [@crop_stored plain_decimals
                                     (crop_row " Punjab " (Q2Qc 2005)
                                        (Num (Q2Qc (1234 # 10))))] |}))
  /\ Forall (fun o => exists x, get o "production_tonnes" = Num x)
       [@crop_stored plain_decimals
          (crop_row " Punjab " (Q2Qc 2005) (Num (Q2Qc (1234 # 10))))].
Proof.
  assert (Hrun : @process_crop_data plain_decimals (only CROP_FILE crop_example) CROP_FILE =
       ([Processing 2 CROP_FILE; Dropped 1; Complete 1],
        Returned (Some {| columns := crop_final_cols;
                          rows := [@crop_stored plain_decimals
                                     (crop_row " Punjab " (Q2Qc 2005)
                                        (Num (Q2Qc (1234 # 10))))] |})))
    by reflexivity.
  split; [reflexivity|]. split; [exact Hrun|].
  exact (proj1 (@C2_rows_without_production_are_dropped plain_decimals
                  (only CROP_FILE crop_example) CROP_FILE crop_example _ _
                  eq_refl Hrun)).
Defined.

Lemma C4_witness :
  (fun _ : string => @None file) CROP_FILE = None
  /\ fst (fst (@main plain_decimals (fun _ => None))) = (fun _ => None).
Proof.
  split; [reflexivity|].
  exact (proj1 (proj2 (@C4_database_untouched_unless_both_cleaned plain_decimals
                         (fun _ => None))) (or_introl eq_refl)).
Defined.

Lemma C9_witness :
  only CROP_FILE crop_example CROP_FILE =
    write (only CROP_FILE crop_example) DB_FILE (SqliteFile []) CROP_FILE
  /\ @process_crop_data plain_decimals (only CROP_FILE crop_example) CROP_FILE =
     @process_crop_data plain_decimals
       (write (only CROP_FILE crop_example) DB_FILE (SqliteFile [])) CROP_FILE.
Proof.
  split; [reflexivity|].
  exact (proj1 (proj1 (@C9_cleaning_is_a_function_of_the_input plain_decimals
                         (only CROP_FILE crop_example)
                         (write (only CROP_FILE crop_example) DB_FILE (SqliteFile [])))
                  CROP_FILE eq_refl)).
Defined.



(** C8 as stated fails on the crop table: the sentinel in the production
    column is not mapped to zero; it becomes the missing marker and the row
    is dropped. *)
Lemma C8_counterexample :
  @to_numeric plain_decimals (Str "NR") = NaN
  /\ @process_crop_data plain_decimals (only CROP_FILE crop_with_sentinel) CROP_FILE =
       ([Processing 2 CROP_FILE; Dropped 1; Complete 1],
        Returned
          (Some {| columns := crop_final_cols;
                   rows := [@crop_stored plain_decimals
                              (crop_row "Punjab" (Q2Qc 2005) (Str "12.5"))] |})).
Proof. split; reflexivity. Qed.

Lemma C8_witness :
  get (rename_row rain_renames (rain_row (Num (Q2Qc 2019)) (Str "NR"))) "rainfall_mm" =
    Str "NR"
  /\ @rain_value plain_decimals (rain_row (Num (Q2Qc 2019)) (Str "NR")) = Q2Qc 0.
Proof.
  split; [reflexivity|].
  exact (proj2 (proj2 (proj2 (proj2 (@C8_numeric_repair plain_decimals))))
           (rain_row (Num (Q2Qc 2019)) (Str "NR")) eq_refl).
Defined.

End TransformerExamples.

(* ================================================================== *)
(** * crop_data.py: main *)
(* ================================================================== *)

Module CropMain.
Import Http CropData.

Definition CROP_OUTPUT_FILE := "raw_crop_data.csv".
Definition RAIN_OUTPUT_FILE := "raw_rainfall_data.csv".

(** [pd.DataFrame(records).empty]: no row, or no column (every record is
    the empty mapping). *)
Definition empty (records : list record) : bool :=
  forallb (fun r => match r with [] => true | _ => false end) records.

(** [if not df.empty: df.to_csv(path, index=False)]. *)
Definition save (path : string) (df : list record) : list event :=
  if empty df then [] else [ToCsv path df].

(** [main()]: the crop resource, then the rainfall resource, each saved
    when its frame is not empty.  An exception of a fetch leaves [main]. *)
Definition main (srv : server) (fuel : nat) : option (outcome unit * list event) :=
  match fetch_all_data srv CROP_RESOURCE_ID fuel O with
  | None => None
  | Some (Raised, _, tr1) => Some (Raised, tr1)
  | Some (Returned df_crop, t1, tr1) =>
      match fetch_all_data srv RAIN_RESOURCE_ID fuel t1 with
      | None => None
      | Some (Raised, _, tr2) =>
          Some (Raised, tr1 ++ save CROP_OUTPUT_FILE df_crop ++ tr2)
      | Some (Returned df_rain, _, tr2) =>
          Some (Returned tt,
                tr1 ++ save CROP_OUTPUT_FILE df_crop
                    ++ tr2 ++ save RAIN_OUTPUT_FILE df_rain)
      end
  end.

End CropMain.

(* ================================================================== *)
(** * More on the fetch loops *)
(* ================================================================== *)

Module FetchBounds.
Import Http FetchFacts.

(** The half-second pauses of a trace (the sleeps between two queries). *)
Definition is_pause (e : event) : bool :=
  match e with Sleep s => Qeq_bool s (1 # 2) | _ => false end.

Definition pauses (tr : list event) : nat := List.length (filter is_pause tr).

(** An event of the retry loop on [req]: the request itself or a 3-second
    sleep. *)
Definition retry_event (req : request) (e : event) : Prop :=
  match e with
  | Get r => r = req
  | Sleep s => s = 3%Q
  | _ => False
  end.

(** An event of a fetch of [resource] with [query_filters] (under the key
    [key]) that started at [offset]: a request of a page at [offset] plus
    a multiple of 1000, a 3-second sleep, or the growth of the list. *)
Definition fetch_event (resource key : string) (query_filters : list (string * string))
    (offset : Z) (e : event) : Prop :=
  match e with
  | Get r =>
      exists i : nat,
        r = {| resource_id := resource; api_key := key; filters := query_filters;
               limit := 1000; Http.offset := offset + Z.of_nat i * 1000 |}
  | Sleep s => s = 3%Q
  | Extend _ _ => True
  | ToCsv _ _ => False
  end.

Lemma pauses_app tr1 tr2 : pauses (tr1 ++ tr2) = (pauses tr1 + pauses tr2)%nat.
Proof. unfold pauses. rewrite filter_app, length_app. reflexivity. Qed.

Lemma fetch_event_shift resource key qf offset e :
  fetch_event resource key qf (offset + 1000) e -> fetch_event resource key qf offset e.
Proof.
  destruct e as [r|s|o n|p rows]; cbn [fetch_event]; try tauto.
  intros [i ->]. exists (S i). f_equal. lia.
Qed.

Lemma retry_event_fetch_event resource key qf offset e :
  retry_event {| resource_id := resource; api_key := key; filters := qf;
                 limit := 1000; Http.offset := offset |} e ->
  fetch_event resource key qf offset e.
Proof.
  destruct e as [r|s|o n|p rows]; cbn [retry_event fetch_event]; try tauto.
  intros ->. exists 0%nat. f_equal. lia.
Qed.

Lemma retry_event_pause req e : retry_event req e -> is_pause e = false.
Proof.
  destruct e as [r|s|o n|p rows]; cbn [retry_event is_pause]; try reflexivity.
  intros ->. reflexivity.
Qed.

Lemma fetch_event_quiet resource key qf offset tr :
  Forall (fetch_event resource key qf offset) tr ->
  pauses tr = 0%nat /\ filter is_to_csv tr = [].
Proof.
  induction 1 as [|e tr He _ [IHp IHw]]; [split; reflexivity|].
  unfold pauses in *. cbn [filter].
  destruct e as [r|s|o n|p rows]; cbn [fetch_event is_pause is_to_csv] in *;
    try (split; assumption).
  - subst s. split; assumption.
  - contradiction.
Qed.

(** ** crop_data.py *)

(** The retry loop makes at most [retries] calls, counts each of them, and
    gives up only after all of them. *)
Lemma crop_retry_loop_budget srv req : forall retries t a t' tr,
  CropData.retry_loop srv req retries t = (a, t', tr) ->
  t' = (t + count_gets tr)%nat
  /\ (count_gets tr <= retries)%nat
  /\ (a = CropData.GaveUp -> count_gets tr = retries)
  /\ Forall (retry_event req) tr.
Proof.
  induction retries as [|n IH]; intros t a t' tr H; cbn [CropData.retry_loop] in H.
  - inversion H; subst. cbn. repeat split; auto; lia.
  - assert (Hfail : forall a1 t1 tr1,
              CropData.retry_loop srv req n (S t) = (a1, t1, tr1) ->
              (a1, t1, Get req :: Sleep 3 :: tr1) = (a, t', tr) ->
              t' = (t + count_gets tr)%nat /\ (count_gets tr <= S n)%nat
              /\ (a = CropData.GaveUp -> count_gets tr = S n)
              /\ Forall (retry_event req) tr).
    { intros a1 t1 tr1 E E'. inversion E'; subst.
      destruct (IH _ _ _ _ E) as [Ht [Hle [Hg Hall]]].
      unfold count_gets in *. cbn [filter is_get List.length].
      repeat split; try lia.
      - intros Ha. rewrite (Hg Ha). reflexivity.
      - constructor; [reflexivity|]. constructor; [reflexivity|]. exact Hall. }
    destruct (srv t req) as [code body|].
    + destruct (raises_for_status code).
      * destruct (CropData.retry_loop srv req n (S t)) as [[a1 t1] tr1].
        exact (Hfail _ _ _ eq_refl H).
      * inversion H; subst. unfold count_gets. cbn.
        repeat split; try lia; [discriminate|].
        constructor; [reflexivity|constructor].
    + destruct (CropData.retry_loop srv req n (S t)) as [[a1 t1] tr1].
      exact (Hfail _ _ _ eq_refl H).
Qed.

(** A fetch counts every call it makes, makes at most five per page it
    asks for, and asks only for pages of its resource at multiples of
    1000. *)
Lemma crop_fetch_loop_budget srv resource : forall fuel offset all_records t r t' tr,
  CropData.fetch_loop srv resource fuel offset all_records t = Some (r, t', tr) ->
  t' = (t + count_gets tr)%nat
  /\ (count_gets tr <= 5 * (List.length (extended_counts tr) + 1))%nat
  /\ Forall (fetch_event resource CropData.API_KEY [] offset) tr.
Proof.
  induction fuel as [|fuel IH]; intros offset all_records t r t' tr H;
    [discriminate|].
  cbn [CropData.fetch_loop] in H.
  destruct (CropData.retry_loop srv (CropData.params resource offset)
              CropData.max_retries t) as [[a t1] tr1] eqn:Hretry.
  destruct (crop_retry_loop_budget _ _ _ _ _ _ _ Hretry) as [Ht [Hle [_ Hall]]].
  destruct (Crop.crop_retry_loop_trace _ _ _ _ _ _ _ Hretry) as [_ Hcnt].
  change CropData.max_retries with 5%nat in Hle.
  assert (Hall' : Forall (fetch_event resource CropData.API_KEY [] offset) tr1).
  { eapply Forall_impl; [|exact Hall]. intros e.
    apply retry_event_fetch_event. }
  assert (Hbase : t1 = (t + count_gets tr1)%nat
                  /\ (count_gets tr1 <= 5 * (List.length (extended_counts tr1) + 1))%nat
                  /\ Forall (fetch_event resource CropData.API_KEY [] offset) tr1).
  { rewrite Hcnt. cbn [List.length]. repeat split; [exact Ht | lia | exact Hall']. }
  destruct a as [data|]; [|inversion H; subst; exact Hbase].
  destruct (get_records data) as [[|r0 records]|];
    try (inversion H; subst; exact Hbase).
  assert (Hone : t1 = (t + count_gets (tr1 ++ [Extend offset (List.length (r0 :: records))]))%nat
                 /\ (count_gets (tr1 ++ [Extend offset (List.length (r0 :: records))]) <=
                     5 * (List.length (extended_counts
                            (tr1 ++ [Extend offset (List.length (r0 :: records))])) + 1))%nat
                 /\ Forall (fetch_event resource CropData.API_KEY [] offset)
                      (tr1 ++ [Extend offset (List.length (r0 :: records))])).
  { rewrite count_gets_app, extended_counts_app, Hcnt.
    unfold count_gets at 2 4. cbn [filter is_get List.length extended_counts app].
    repeat split; try lia.
    apply Forall_app. split; [exact Hall'|]. constructor; [exact I|constructor]. }
  destruct (Z.of_nat (List.length (r0 :: records)) <? CropData.limit).
  - inversion H; subst. exact Hone.
  - destruct (CropData.fetch_loop srv resource fuel (offset + CropData.limit)
                (all_records ++ r0 :: records) t1) as [[[r1 t2] tr2]|] eqn:E;
      [|discriminate].
    inversion H; subst. destruct (IH _ _ _ _ _ _ E) as [Ht2 [Hle2 Hall2]].
    destruct Hone as [Ht1 [Hle1 Hall1]].
    rewrite !count_gets_app, !extended_counts_app, !length_app in *.
    rewrite Hcnt in *. cbn [extended_counts List.length app] in *.
    unfold count_gets at 2 in Ht1. unfold count_gets at 2 in Hle1.
    unfold count_gets at 2. unfold count_gets at 4.
    cbn [filter is_get List.length] in *.
    repeat split; try lia.
    apply Forall_app. split; [exact Hall1|].
    eapply Forall_impl; [|exact Hall2]. intros e. apply fetch_event_shift.
Qed.

(** ** rainfall.py *)

Lemma rain_retry_loop_budget srv req : forall retries t a t' tr,
  Rainfall.retry_loop srv req retries t = (a, t', tr) ->
  t' = (t + count_gets tr)%nat
  /\ (count_gets tr <= retries)%nat
  /\ (a = Rainfall.GaveUp -> count_gets tr = retries)
  /\ Forall (retry_event req) tr.
Proof.
  induction retries as [|n IH]; intros t a t' tr H; cbn [Rainfall.retry_loop] in H.
  - inversion H; subst. cbn. repeat split; auto; lia.
  - assert (Hfail : forall a1 t1 tr1,
              Rainfall.retry_loop srv req n (S t) = (a1, t1, tr1) ->
              (a1, t1, Get req :: Sleep 3 :: tr1) = (a, t', tr) ->
              t' = (t + count_gets tr)%nat /\ (count_gets tr <= S n)%nat
              /\ (a = Rainfall.GaveUp -> count_gets tr = S n)
              /\ Forall (retry_event req) tr).
    { intros a1 t1 tr1 E E'. inversion E'; subst.
      destruct (IH _ _ _ _ E) as [Ht [Hle [Hg Hall]]].
      unfold count_gets in *. cbn [filter is_get List.length].
      repeat split; try lia.
      - intros Ha. rewrite (Hg Ha). reflexivity.
      - constructor; [reflexivity|]. constructor; [reflexivity|]. exact Hall. }
    destruct (srv t req) as [code body|]; rewrite ?forbidden_is_dead in H.
    + destruct (raises_for_status code).
      * destruct (Rainfall.retry_loop srv req n (S t)) as [[a1 t1] tr1].
        exact (Hfail _ _ _ eq_refl H).
      * inversion H; subst. unfold count_gets. cbn.
        repeat split; try lia; [discriminate|].
        constructor; [reflexivity|constructor].
    + destruct (Rainfall.retry_loop srv req n (S t)) as [[a1 t1] tr1].
      exact (Hfail _ _ _ eq_refl H).
Qed.

Lemma rain_fetch_loop_budget srv resource qf : forall fuel offset all_records t r t' tr,
  Rainfall.fetch_loop srv resource qf fuel offset all_records t = Some (r, t', tr) ->
  t' = (t + count_gets tr)%nat
  /\ (count_gets tr <= 5 * (List.length (extended_counts tr) + 1))%nat
  /\ Forall (fetch_event resource Rainfall.API_KEY qf offset) tr.
Proof.
  induction fuel as [|fuel IH]; intros offset all_records t r t' tr H;
    [discriminate|].
  cbn [Rainfall.fetch_loop] in H.
  destruct (Rainfall.retry_loop srv (Rainfall.params resource qf offset)
              Rainfall.max_retries t) as [[a t1] tr1] eqn:Hretry.
  destruct (rain_retry_loop_budget _ _ _ _ _ _ _ Hretry) as [Ht [Hle [_ Hall]]].
  destruct (Rain.rain_retry_loop_trace _ _ _ _ _ _ _ Hretry) as [_ [Hcnt _]].
  change Rainfall.max_retries with 5%nat in Hle.
  assert (Hall' : Forall (fetch_event resource Rainfall.API_KEY qf offset) tr1).
  { eapply Forall_impl; [|exact Hall]. intros e.
    apply retry_event_fetch_event. }
  assert (Hbase : t1 = (t + count_gets tr1)%nat
                  /\ (count_gets tr1 <= 5 * (List.length (extended_counts tr1) + 1))%nat
                  /\ Forall (fetch_event resource Rainfall.API_KEY qf offset) tr1).
  { rewrite Hcnt. cbn [List.length]. repeat split; [exact Ht | lia | exact Hall']. }
  destruct a as [data| |]; try (inversion H; subst; exact Hbase).
  destruct (json_is_string data "FATAL_ERROR"); [inversion H; subst; exact Hbase|].
  destruct (get_records data) as [[|r0 records]|];
    try (inversion H; subst; exact Hbase).
  assert (Hone : t1 = (t + count_gets (tr1 ++ [Extend offset (List.length (r0 :: records))]))%nat
                 /\ (count_gets (tr1 ++ [Extend offset (List.length (r0 :: records))]) <=
                     5 * (List.length (extended_counts
                            (tr1 ++ [Extend offset (List.length (r0 :: records))])) + 1))%nat
                 /\ Forall (fetch_event resource Rainfall.API_KEY qf offset)
                      (tr1 ++ [Extend offset (List.length (r0 :: records))])).
  { rewrite count_gets_app, extended_counts_app, Hcnt.
    unfold count_gets at 2 4. cbn [filter is_get List.length extended_counts app].
    repeat split; try lia.
    apply Forall_app. split; [exact Hall'|]. constructor; [exact I|constructor]. }
  destruct (Z.of_nat (List.length (r0 :: records)) <? Rainfall.limit).
  - inversion H; subst. exact Hone.
  - destruct (Rainfall.fetch_loop srv resource qf fuel (offset + Rainfall.limit)
                (all_records ++ r0 :: records) t1) as [[[r1 t2] tr2]|] eqn:E;
      [|discriminate].
    inversion H; subst. destruct (IH _ _ _ _ _ _ E) as [Ht2 [Hle2 Hall2]].
    destruct Hone as [Ht1 [Hle1 Hall1]].
    rewrite !count_gets_app, !extended_counts_app, !length_app in *.
    rewrite Hcnt in *. cbn [extended_counts List.length app] in *.
    unfold count_gets at 2 in Ht1. unfold count_gets at 2 in Hle1.
    unfold count_gets at 2. unfold count_gets at 4.
    cbn [filter is_get List.length] in *.
    repeat split; try lia.
    apply Forall_app. split; [exact Hall1|].
    eapply Forall_impl; [|exact Hall2]. intros e. apply fetch_event_shift.
Qed.

(** The next [k] calls, whatever they ask, fail: no response, or a
    response with a status of 400 to 599. *)
Definition failing (srv : server) (t k : nat) : Prop :=
  forall i req, (i < k)%nat ->
    srv (t + i)%nat req = NoResponse
    \/ exists code body,
         srv (t + i)%nat req = Response code body /\ raises_for_status code = true.

Lemma failing_tail srv t k : failing srv t (S k) -> failing srv (S t) k.
Proof.
  intros H i req Hi. replace (S t + i)%nat with (t + S i)%nat by lia.
  apply H. lia.
Qed.

Lemma crop_retry_loop_failing srv req : forall k t,
  failing srv t k ->
  CropData.retry_loop srv req k t = (CropData.GaveUp, (t + k)%nat, failed_rounds req k).
Proof.
  induction k as [|k IH]; intros t H; cbn [CropData.retry_loop failed_rounds].
  - rewrite Nat.add_0_r. reflexivity.
  - rewrite (IH (S t) (failing_tail _ _ _ H)).
    replace (S t + k)%nat with (t + S k)%nat by lia.
    destruct (H 0%nat req (Nat.lt_0_succ k)) as [E|[code [body [E Hc]]]];
      rewrite Nat.add_0_r in E; rewrite E; [|rewrite Hc]; reflexivity.
Qed.

Lemma rain_retry_loop_failing srv req : forall k t,
  failing srv t k ->
  Rainfall.retry_loop srv req k t = (Rainfall.GaveUp, (t + k)%nat, failed_rounds req k).
Proof.
  induction k as [|k IH]; intros t H; cbn [Rainfall.retry_loop failed_rounds].
  - rewrite Nat.add_0_r. reflexivity.
  - rewrite (IH (S t) (failing_tail _ _ _ H)).
    replace (S t + k)%nat with (t + S k)%nat by lia.
    destruct (H 0%nat req (Nat.lt_0_succ k)) as [E|[code [body [E Hc]]]];
      rewrite Nat.add_0_r in E; rewrite E; rewrite ?forbidden_is_dead, ?Hc;
      reflexivity.
Qed.

End FetchBounds.

Module MoreSamples.
Import Http.

(** A server that fails every call, in turn without a response and with
    status 500. *)
Definition flaky : server :=
  fun t _ => if Nat.even t then NoResponse else Response 500 JOther.

(** A server that answers every call with a full page. *)
Definition endless : server :=
  fun _ _ => Response 200 (JDict (Some (repeat Samples.a_record 1000))).

(** One record for the first query, a body that is no object ever after. *)
Definition garbled_after_first : server :=
  fun t _ =>
    match t with
    | O => Response 200 (JDict (Some [Samples.a_record]))
    | _ => Response 200 JOther
    end.

End MoreSamples.

(* ================================================================== *)
(** * Further properties of the fetchers *)
(* ================================================================== *)

Section MoreFetcherProperties.
Import Http FetchFacts FetchBounds.

(** X1.  Whatever the server answers, a fetch that ends has made at most
    five calls for each page it asked for (one page more than it
    appended), the count of calls it reports is the number of requests it
    made, every sleep between tries lasts 3 seconds, and every request is
    for the given resource (and filters) with limit 1000 at an offset that
    is a multiple of 1000. *)
Theorem X1_requests_are_bounded_and_well_formed :
  (forall (srv : server) resource fuel t r t' tr,
     CropData.fetch_all_data srv resource fuel t = Some (r, t', tr) ->
     t' = (t + count_gets tr)%nat
     /\ (count_gets tr <= 5 * (List.length (extended_counts tr) + 1))%nat
     /\ Forall (fetch_event resource CropData.API_KEY [] 0) tr)
  /\ (forall (srv : server) resource query_filters fuel t r t' tr,
        Rainfall.fetch_paginated_data srv resource query_filters fuel t =
          Some (r, t', tr) ->
        t' = (t + count_gets tr)%nat
        /\ (count_gets tr <= 5 * (List.length (extended_counts tr) + 1))%nat
        /\ Forall (fetch_event resource Rainfall.API_KEY query_filters 0) tr).
Proof.
  split.
  - intros srv resource fuel t r t' tr H.
    exact (crop_fetch_loop_budget _ _ _ _ _ _ _ _ _ H).
  - intros srv resource query_filters fuel t r t' tr H.
    exact (rain_fetch_loop_budget _ _ _ _ _ _ _ _ _ _ H).
Qed.

Lemma X1_witness :
  CropData.fetch_all_data MoreSamples.flaky CropData.CROP_RESOURCE_ID 1 0 =
    Some (Returned [], 5%nat,
          failed_rounds (CropData.params CropData.CROP_RESOURCE_ID 0) 5)
  /\ (count_gets (failed_rounds (CropData.params CropData.CROP_RESOURCE_ID 0) 5)
      <= 5 * (List.length
                (extended_counts
                   (failed_rounds (CropData.params CropData.CROP_RESOURCE_ID 0) 5)) + 1))%nat.
Proof.
  assert (H : CropData.fetch_all_data MoreSamples.flaky CropData.CROP_RESOURCE_ID 1 0 =
              Some (Returned [], 5%nat,
                    failed_rounds (CropData.params CropData.CROP_RESOURCE_ID 0) 5))
    by reflexivity.
  split; [exact H|].
  exact (proj1 (proj2 (proj1 X1_requests_are_bounded_and_well_formed _ _ _ _ _ _ _ H))).
Defined.

(** X2.  Failures of any kind count against the same budget: when the next
    five calls fail, each without a response or with any status of 400 to
    599, in any mix, either fetch sleeps 3 seconds after each and returns
    the records accumulated so far. *)
Theorem X2_any_five_failures_end_the_fetch :
  forall (srv : server) (t : nat),
    failing srv t 5 ->
    forall resource query_filters fuel offset all_records,
      CropData.fetch_loop srv resource (S fuel) offset all_records t =
        Some (Returned all_records, (t + 5)%nat,
              failed_rounds (CropData.params resource offset) 5)
      /\ Rainfall.fetch_loop srv resource query_filters (S fuel) offset all_records t =
           Some (Returned (Rainfall.Records all_records), (t + 5)%nat,
                 failed_rounds (Rainfall.params resource query_filters offset) 5).
Proof.
  intros srv t H resource query_filters fuel offset all_records. split.
  - cbn [CropData.fetch_loop]. change CropData.max_retries with 5%nat.
    rewrite (crop_retry_loop_failing srv _ 5 t H). reflexivity.
  - cbn [Rainfall.fetch_loop]. change Rainfall.max_retries with 5%nat.
    rewrite (rain_retry_loop_failing srv _ 5 t H). reflexivity.
Qed.

Lemma flaky_failing : failing MoreSamples.flaky 0 5.
Proof.
  intros i req Hi. unfold MoreSamples.flaky.
  destruct (Nat.even (0 + i)); [left; reflexivity|].
  right. exists 500, JOther. split; reflexivity.
Defined.

Lemma X2_witness :
  failing MoreSamples.flaky 0 5
  /\ Rainfall.fetch_paginated_data MoreSamples.flaky Rainfall.RAIN_RESOURCE_ID
       (Rainfall.query_filters "2018" "Goa") 1 0 =
     Some (Returned (Rainfall.Records []), 5%nat,
           failed_rounds (Rainfall.params Rainfall.RAIN_RESOURCE_ID
                            (Rainfall.query_filters "2018" "Goa") 0) 5).
Proof.
  split; [exact flaky_failing|].
  exact (proj2 (X2_any_five_failures_end_the_fetch MoreSamples.flaky 0%nat flaky_failing
                  Rainfall.RAIN_RESOURCE_ID (Rainfall.query_filters "2018" "Goa")
                  0%nat 0 [])).
Defined.

(** Every call is answered with a page of at least 1000 records. *)
Definition full_pages (srv : server) : Prop :=
  forall t req, exists code records,
    srv t req = Response code (JDict (Some records))
    /\ raises_for_status code = false
    /\ 1000 <= Z.of_nat (List.length records).

(** X3.  The loops have no bound on the number of pages: against a server
    that answers every call with a full page, neither fetch ends, however
    many pages it is allowed to ask for. *)
Theorem X3_no_bound_on_the_number_of_pages :
  forall (srv : server),
    full_pages srv ->
    forall fuel resource query_filters offset all_records t,
      CropData.fetch_loop srv resource fuel offset all_records t = None
      /\ Rainfall.fetch_loop srv resource query_filters fuel offset all_records t = None.
Proof.
  intros srv Hfull. induction fuel as [|fuel IH];
    intros resource query_filters offset all_records t; [split; reflexivity|].
  split.
  - cbn [CropData.fetch_loop]. change CropData.max_retries with 5%nat.
    destruct (Hfull t (CropData.params resource offset))
      as [code [records [E [Hc Hlen]]]].
    rewrite (Crop.crop_retry_loop_ok _ _ _ _ code _ E Hc). cbn [get_records].
    destruct records as [|r records]; [cbn in Hlen; lia|].
    assert (Hge : (Z.of_nat (List.length (r :: records)) <? CropData.limit) = false)
      by (apply Z.ltb_ge; exact Hlen).
    rewrite Hge.
    rewrite (proj1 (IH resource query_filters (offset + CropData.limit)
                      (all_records ++ r :: records) (S t))).
    reflexivity.
  - cbn [Rainfall.fetch_loop]. change Rainfall.max_retries with 5%nat.
    destruct (Hfull t (Rainfall.params resource query_filters offset))
      as [code [records [E [Hc Hlen]]]].
    rewrite (Rain.rain_retry_loop_ok _ _ _ _ code _ E Hc).
    cbn [json_is_string get_records].
    destruct records as [|r records]; [cbn in Hlen; lia|].
    assert (Hge : (Z.of_nat (List.length (r :: records)) <? Rainfall.limit) = false)
      by (apply Z.ltb_ge; exact Hlen).
    rewrite Hge.
    rewrite (proj2 (IH resource query_filters (offset + Rainfall.limit)
                      (all_records ++ r :: records) (S t))).
    reflexivity.
Qed.

Lemma endless_full_pages : full_pages MoreSamples.endless.
Proof.
  intros t req. exists 200, (repeat Samples.a_record 1000).
  split; [reflexivity|]. split; [reflexivity|].
  rewrite repeat_length. apply Z.le_refl.
Defined.

Lemma X3_witness :
  full_pages MoreSamples.endless
  /\ CropData.fetch_all_data MoreSamples.endless CropData.CROP_RESOURCE_ID 3 0 = None.
Proof.
  split; [exact endless_full_pages|].
  exact (proj1 (X3_no_bound_on_the_number_of_pages MoreSamples.endless
                  endless_full_pages 3%nat CropData.CROP_RESOURCE_ID [] 0 [] 0%nat)).
Defined.

(** X4.  A good response whose body is an object without the member
    ["records"] ends either fetch like an empty page, with the records
    accumulated so far.  A body that is not an object makes either fetch
    raise, so that nothing is returned; in [rainfall.py] the one exception
    is the string ["FATAL_ERROR"], for which the fatal signal is returned. *)
Theorem X4_bodies_without_records :
  forall (srv : server) (t : nat) (code : Z) (body : json)
         resource query_filters fuel offset all_records,
    raises_for_status code = false ->
    srv t (CropData.params resource offset) = Response code body ->
    srv t (Rainfall.params resource query_filters offset) = Response code body ->
    (body = JDict None ->
     CropData.fetch_loop srv resource (S fuel) offset all_records t =
       Some (Returned all_records, S t, [Get (CropData.params resource offset)])
     /\ Rainfall.fetch_loop srv resource query_filters (S fuel) offset all_records t =
          Some (Returned (Rainfall.Records all_records), S t,
                [Get (Rainfall.params resource query_filters offset)]))
    /\ (get_records body = None ->
        CropData.fetch_loop srv resource (S fuel) offset all_records t =
          Some (Raised, S t, [Get (CropData.params resource offset)])
        /\ Rainfall.fetch_loop srv resource query_filters (S fuel) offset all_records t =
             Some ((if json_is_string body "FATAL_ERROR"
                    then Returned Rainfall.FATAL_ERROR else Raised),
                   S t, [Get (Rainfall.params resource query_filters offset)])).
Proof.
  intros srv t code body resource query_filters fuel offset all_records Hc Ecrop Erain.
  split.
  - intros ->. split.
    + cbn [CropData.fetch_loop]. change CropData.max_retries with 5%nat.
      rewrite (Crop.crop_retry_loop_ok _ _ _ _ code _ Ecrop Hc). reflexivity.
    + cbn [Rainfall.fetch_loop]. change Rainfall.max_retries with 5%nat.
      rewrite (Rain.rain_retry_loop_ok _ _ _ _ code _ Erain Hc). reflexivity.
  - intros Hnone. split.
    + cbn [CropData.fetch_loop]. change CropData.max_retries with 5%nat.
      rewrite (Crop.crop_retry_loop_ok _ _ _ _ code _ Ecrop Hc), Hnone. reflexivity.
    + cbn [Rainfall.fetch_loop]. change Rainfall.max_retries with 5%nat.
      rewrite (Rain.rain_retry_loop_ok _ _ _ _ code _ Erain Hc), Hnone.
      destruct (json_is_string body "FATAL_ERROR"); reflexivity.
Qed.

Lemma X4_witness :
  raises_for_status 200 = false
  /\ get_records JOther = None
  /\ CropData.fetch_loop MoreSamples.garbled_after_first CropData.CROP_RESOURCE_ID
       1 1000 [Samples.a_record] 1 =
     Some (Raised, 2%nat, [Get (CropData.params CropData.CROP_RESOURCE_ID 1000)]).
Proof.
  split; [reflexivity|]. split; [reflexivity|].
  exact (proj1 (proj2 (X4_bodies_without_records MoreSamples.garbled_after_first
                         1%nat 200 JOther CropData.CROP_RESOURCE_ID [] 0%nat 1000
                         [Samples.a_record] eq_refl eq_refl eq_refl) eq_refl)).
Defined.

End MoreFetcherProperties.

(* ================================================================== *)
(** * The two fetcher programs as a whole *)
(* ================================================================== *)

Module RunFacts.
Import Http FetchFacts FetchBounds.

(** A fetch neither pauses between queries nor writes a file. *)
Lemma crop_fetch_quiet srv resource fuel t r t' tr :
  CropData.fetch_all_data srv resource fuel t = Some (r, t', tr) ->
  pauses tr = 0%nat /\ filter is_to_csv tr = [].
Proof.
  intros H.
  destruct (crop_fetch_loop_budget _ _ _ _ _ _ _ _ _ H) as [_ [_ Hall]].
  exact (fetch_event_quiet _ _ _ _ _ Hall).
Qed.

Lemma rain_fetch_quiet srv resource qf fuel t r t' tr :
  Rainfall.fetch_paginated_data srv resource qf fuel t = Some (r, t', tr) ->
  pauses tr = 0%nat /\ filter is_to_csv tr = [].
Proof.
  intros H.
  destruct (rain_fetch_loop_budget _ _ _ _ _ _ _ _ _ _ H) as [_ [_ Hall]].
  exact (fetch_event_quiet _ _ _ _ _ Hall).
Qed.

Lemma rain_fetch_length srv resource qf fuel t rs t' tr :
  Rainfall.fetch_paginated_data srv resource qf fuel t =
    Some (Returned (Rainfall.Records rs), t', tr) ->
  List.length rs = list_sum (extended_counts tr).
Proof.
  intros H.
  destruct (Rain.rain_fetch_loop_pages _ _ _ _ _ _ _ _ _ _ H) as [pages [-> [-> _]]].
  cbn [app]. apply length_concat.
Qed.

Lemma save_is_to_csv path df :
  filter is_to_csv (CropMain.save path df) = CropMain.save path df.
Proof. unfold CropMain.save. destruct (CropMain.empty df); reflexivity. Qed.

Lemma save_count_gets path df : count_gets (CropMain.save path df) = 0%nat.
Proof. unfold CropMain.save. destruct (CropMain.empty df); reflexivity. Qed.

(** The inner loop of [rainfall.py]: one pause after each query that
    returned records or nothing, and every record of every page kept. *)
Lemma states_loop_pauses srv fuel year : forall states all_records t e t' tr,
  Rainfall.states_loop srv fuel year states all_records t = Some (e, t', tr) ->
  (pauses tr <= List.length states)%nat
  /\ (forall rs, e = Rainfall.Finished rs ->
        pauses tr = List.length states
        /\ List.length rs =
             (List.length all_records + list_sum (extended_counts tr))%nat).
Proof.
  induction states as [|state states IH]; intros all_records t e t' tr H;
    cbn [Rainfall.states_loop] in H.
  - inversion H; subst. split; [apply Nat.le_refl|].
    intros rs [= <-]. split; [reflexivity|]. cbn. lia.
  - destruct (Rainfall.fetch_paginated_data srv Rainfall.RAIN_RESOURCE_ID
                (Rainfall.query_filters year state) fuel t)
      as [[[r t1] tr1]|] eqn:E; [|discriminate].
    destruct (rain_fetch_quiet _ _ _ _ _ _ _ _ E) as [Hp _].
    destruct r as [[records|]|].
    + pose proof (rain_fetch_length _ _ _ _ _ _ _ _ E) as Hlen.
      destruct (Rainfall.states_loop srv fuel year states _ t1)
        as [[[e2 t2] tr2]|] eqn:E2; [|discriminate].
      destruct (IH _ _ _ _ _ E2) as [Hle Hfin].
      inversion H; subst.
      assert (Hps : pauses (tr1 ++ Sleep (1 # 2) :: tr2) = S (pauses tr2)).
      { rewrite pauses_app, Hp. reflexivity. }
      rewrite Hps. split; [cbn [List.length]; lia|].
      intros rs ->. destruct (Hfin rs eq_refl) as [Hq Hl].
      split; [cbn [List.length]; lia|].
      rewrite Hl, extended_counts_app. cbn [extended_counts].
      rewrite list_sum_app, <- Hlen.
      destruct records; [cbn [List.length]; lia | rewrite length_app; lia].
    + inversion H; subst. rewrite Hp. split; [lia | discriminate].
    + inversion H; subst. rewrite Hp. split; [lia | discriminate].
Qed.

Lemma years_loop_pauses srv fuel : forall years all_records t e t' tr,
  Rainfall.years_loop srv fuel years all_records t = Some (e, t', tr) ->
  (pauses tr <= List.length years * List.length Rainfall.STATES_LIST)%nat
  /\ (forall rs, e = Rainfall.Finished rs ->
        pauses tr = (List.length years * List.length Rainfall.STATES_LIST)%nat
        /\ List.length rs =
             (List.length all_records + list_sum (extended_counts tr))%nat).
Proof.
  generalize Rainfall.STATES_LIST (Rain.years_loop_cons srv fuel).
  intros states Hcons.
  induction years as [|year years IH]; intros all_records t e t' tr H.
  - inversion H; subst. split; [apply Nat.le_0_l|].
    intros rs [= <-]. split; [reflexivity|]. cbn. lia.
  - rewrite Hcons in H.
    destruct (Rainfall.states_loop srv fuel year states all_records t)
      as [[[e1 t1] tr1]|] eqn:E; [|discriminate].
    destruct (states_loop_pauses _ _ _ _ _ _ _ _ _ E) as [Hle Hfin].
    destruct e1 as [all'| | |];
      try (inversion H; subst; split; [cbn [List.length]; lia | discriminate]).
    destruct (Hfin all' eq_refl) as [Hq Hl].
    destruct (Rainfall.years_loop srv fuel years all' t1)
      as [[[e2 t2] tr2]|] eqn:E2; [|discriminate].
    destruct (IH _ _ _ _ _ E2) as [Hle2 Hfin2].
    inversion H; subst. rewrite pauses_app. split; [cbn [List.length]; lia|].
    intros rs ->. destruct (Hfin2 rs eq_refl) as [Hq2 Hl2].
    split; [cbn [List.length]; lia|].
    rewrite extended_counts_app, list_sum_app. lia.
Qed.

Lemma pauses_snoc_to_csv tr path rows : pauses (tr ++ [ToCsv path rows]) = pauses tr.
Proof. rewrite pauses_app. cbn. lia. Qed.

Lemma concat_repeat_app {A} (l : list A) n :
  l ++ List.concat (repeat l n) = List.concat (repeat l (S n)).
Proof. reflexivity. Qed.

(** Against a well-behaved API every query returns the whole record set. *)
Lemma states_loop_api db fuel year :
  (List.length db / 1000 < fuel)%nat ->
  forall states all_records t,
  exists tr,
    Rainfall.states_loop (Samples.api db) fuel year states all_records t =
      Some (Rainfall.Finished (all_records ++ List.concat (repeat db (List.length states))),
            (t + List.length states * (List.length db / 1000 + 1))%nat, tr)
    /\ count_gets tr = (List.length states * (List.length db / 1000 + 1))%nat.
Proof.
  intros Hfuel. induction states as [|state states IH]; intros all_records t.
  - exists []. cbn. rewrite app_nil_r, Nat.add_0_r. split; reflexivity.
  - destruct (Rain.rain_fetch_loop_api db Rainfall.RAIN_RESOURCE_ID
                (Rainfall.query_filters year state) fuel 0 [] t)
      as [tr1 [Hrun Hgets]]; [lia | cbn [Z.to_nat skipn]; exact Hfuel |].
    cbn [Z.to_nat skipn app] in Hrun, Hgets.
    destruct (IH (all_records ++ db) (t + List.length db / 1000 + 1)%nat)
      as [tr2 [Hrun2 Hgets2]].
    exists (tr1 ++ Sleep (1 # 2) :: tr2).
    cbn [Rainfall.states_loop]. unfold Rainfall.fetch_paginated_data. rewrite Hrun.
    assert (Hacc : match db with [] => all_records | _ => all_records ++ db end =
                   all_records ++ db)
      by (destruct db; [rewrite app_nil_r|]; reflexivity).
    rewrite Hacc, Hrun2. split.
    + cbn [List.length repeat List.concat]. rewrite <- app_assoc.
      do 3 f_equal. lia.
    + rewrite count_gets_app.
      change (count_gets (Sleep (1 # 2) :: tr2)) with (count_gets tr2).
      rewrite Hgets, Hgets2. cbn [List.length]. lia.
Qed.

Lemma years_loop_api db fuel :
  (List.length db / 1000 < fuel)%nat ->
  forall years all_records t,
  exists t' tr,
    Rainfall.years_loop (Samples.api db) fuel years all_records t =
      Some (Rainfall.Finished
              (all_records ++
               List.concat (repeat db (List.length years * List.length Rainfall.STATES_LIST))),
            t', tr)
    /\ count_gets tr =
         (List.length years * List.length Rainfall.STATES_LIST
          * (List.length db / 1000 + 1))%nat.
Proof.
  intros Hfuel.
  generalize (states_loop_api db fuel) Rainfall.STATES_LIST
             (Rain.years_loop_cons (Samples.api db) fuel).
  intros Hstates_api states Hcons.
  induction years as [|year years IH]; intros all_records t.
  - exists t, []. cbn. rewrite app_nil_r. split; reflexivity.
  - destruct (Hstates_api year Hfuel states all_records t) as [tr1 [Hrun Hgets]].
    destruct (IH (all_records ++ List.concat (repeat db (List.length states)))
                 (t + List.length states * (List.length db / 1000 + 1))%nat)
      as [t2 [tr2 [Hrun2 Hgets2]]].
    exists t2, (tr1 ++ tr2). rewrite Hcons, Hrun, Hrun2. split.
    + rewrite <- app_assoc. do 3 f_equal.
      cbn [List.length Nat.mul]. rewrite repeat_app, concat_app. reflexivity.
    + rewrite count_gets_app, Hgets, Hgets2. cbn [List.length]. lia.
Qed.

End RunFacts.

Module RunSamples.
Import Http.

(** The network is down for the first five calls; after that the API
    serves [db]. *)
Definition late (db : list record) : server :=
  fun t req => if (t <? 5)%nat then NoResponse else Samples.api db t req.

End RunSamples.

Section RunProperties.
Import Http FetchFacts FetchBounds RunFacts.

(** X5.  In [crop_data.py] a crop fetch that fails does not stop the run:
    when the first five calls fail, [main] writes no crop file and goes on
    to fetch the rainfall resource, whose table it saves if it is not
    empty. *)
Theorem X5_failed_crop_fetch_does_not_stop_the_rainfall_fetch :
  forall (srv : server) fuel df_rain t2 tr2,
    failing srv 0 5 ->
    CropData.fetch_all_data srv CropData.RAIN_RESOURCE_ID (S fuel) 5 =
      Some (Returned df_rain, t2, tr2) ->
    CropMain.main srv (S fuel) =
      Some (Returned tt,
            failed_rounds (CropData.params CropData.CROP_RESOURCE_ID 0) 5
              ++ tr2 ++ CropMain.save CropMain.RAIN_OUTPUT_FILE df_rain).
Proof.
  intros srv fuel df_rain t2 tr2 Hfail Hrain. unfold CropMain.main.
  assert (Hcrop : CropData.fetch_all_data srv CropData.CROP_RESOURCE_ID (S fuel) 0 =
                  Some (Returned [], 5%nat,
                        failed_rounds (CropData.params CropData.CROP_RESOURCE_ID 0) 5)).
  { unfold CropData.fetch_all_data. cbn [CropData.fetch_loop].
    change CropData.max_retries with 5%nat.
    rewrite (crop_retry_loop_failing srv _ 5 0 Hfail). reflexivity. }
  rewrite Hcrop, Hrain. reflexivity.
Qed.

Lemma late_failing db : failing (RunSamples.late db) 0 5.
Proof.
  intros i req Hi. left. unfold RunSamples.late.
  destruct (Nat.ltb_spec (0 + i) 5) as [_|Hge]; [reflexivity | cbn in Hge; lia].
Defined.

Lemma X5_witness :
  failing (RunSamples.late [Samples.a_record]) 0 5
  /\ CropMain.main (RunSamples.late [Samples.a_record]) 1 =
       Some (Returned tt,
             failed_rounds (CropData.params CropData.CROP_RESOURCE_ID 0) 5
               ++ [Get (CropData.params CropData.RAIN_RESOURCE_ID 0); Extend 0 1]
               ++ CropMain.save CropMain.RAIN_OUTPUT_FILE [Samples.a_record]).
Proof.
  split; [exact (late_failing _)|].
  exact (X5_failed_crop_fetch_does_not_stop_the_rainfall_fetch
           (RunSamples.late [Samples.a_record]) 0%nat [Samples.a_record] 6%nat
           [Get (CropData.params CropData.RAIN_RESOURCE_ID 0); Extend 0 1]
           (late_failing _) eq_refl).
Defined.

(** X6.  [main] of [crop_data.py] writes at most two files, the crop file
    before the rainfall file; each file it writes holds a table that is
    not empty and that is what the fetch of that resource returned; the
    rainfall file is written only by a run that ends normally. *)
Theorem X6_crop_main_saves_only_fetched_tables :
  forall (srv : server) fuel r tr,
    CropMain.main srv fuel = Some (r, tr) ->
    exists crop_saved rain_saved,
      filter is_to_csv tr = crop_saved ++ rain_saved
      /\ (crop_saved = []
          \/ exists df t1 tr1,
               crop_saved = [ToCsv CropMain.CROP_OUTPUT_FILE df]
               /\ CropMain.empty df = false
               /\ CropData.fetch_all_data srv CropData.CROP_RESOURCE_ID fuel 0 =
                    Some (Returned df, t1, tr1))
      /\ (rain_saved = []
          \/ exists df t t1 tr1,
               rain_saved = [ToCsv CropMain.RAIN_OUTPUT_FILE df]
               /\ CropMain.empty df = false
               /\ CropData.fetch_all_data srv CropData.RAIN_RESOURCE_ID fuel t =
                    Some (Returned df, t1, tr1)
               /\ r = Returned tt).
Proof.
  intros srv fuel r tr. unfold CropMain.main.
  destruct (CropData.fetch_all_data srv CropData.CROP_RESOURCE_ID fuel 0)
    as [[[r1 t1] tr1]|] eqn:E1; [|discriminate].
  destruct (crop_fetch_quiet _ _ _ _ _ _ _ E1) as [_ Hw1].
  destruct r1 as [df_crop|].
  2:{ intros [= <- <-]. exists [], []. rewrite Hw1. auto. }
  assert (Hcrop : CropMain.save CropMain.CROP_OUTPUT_FILE df_crop = []
                  \/ exists df (t' : nat) (tr' : list event),
                       CropMain.save CropMain.CROP_OUTPUT_FILE df_crop =
                         [ToCsv CropMain.CROP_OUTPUT_FILE df]
                       /\ CropMain.empty df = false
                       /\ Some (Returned df_crop, t1, tr1) = Some (Returned df, t', tr')).
  { unfold CropMain.save. destruct (CropMain.empty df_crop) eqn:Ee; [left; reflexivity|].
    right. exists df_crop, t1, tr1. auto. }
  destruct (CropData.fetch_all_data srv CropData.RAIN_RESOURCE_ID fuel t1)
    as [[[r2 t2] tr2]|] eqn:E2; [|discriminate].
  destruct (crop_fetch_quiet _ _ _ _ _ _ _ E2) as [_ Hw2].
  destruct r2 as [df_rain|]; intros [= <- <-].
  - exists (CropMain.save CropMain.CROP_OUTPUT_FILE df_crop),
           (CropMain.save CropMain.RAIN_OUTPUT_FILE df_rain).
    rewrite !filter_app, Hw1, Hw2, !save_is_to_csv. split; [reflexivity|].
    split; [exact Hcrop|].
    unfold CropMain.save. destruct (CropMain.empty df_rain) eqn:Ee; [left; reflexivity|].
    right. exists df_rain, t1, t2, tr2. auto.
  - exists (CropMain.save CropMain.CROP_OUTPUT_FILE df_crop), [].
    rewrite !filter_app, Hw1, Hw2, !save_is_to_csv, app_nil_r. auto.
Qed.

Lemma X6_witness :
  exists crop_saved rain_saved,
    filter is_to_csv
      (failed_rounds (CropData.params CropData.CROP_RESOURCE_ID 0) 5
         ++ [Get (CropData.params CropData.RAIN_RESOURCE_ID 0); Extend 0 1]
         ++ CropMain.save CropMain.RAIN_OUTPUT_FILE [Samples.a_record]) =
      crop_saved ++ rain_saved.
Proof.
  destruct (X6_crop_main_saves_only_fetched_tables
              (RunSamples.late [Samples.a_record]) 1%nat (Returned tt)
              (failed_rounds (CropData.params CropData.CROP_RESOURCE_ID 0) 5
                 ++ [Get (CropData.params CropData.RAIN_RESOURCE_ID 0); Extend 0 1]
                 ++ CropMain.save CropMain.RAIN_OUTPUT_FILE [Samples.a_record])
              eq_refl) as [crop_saved [rain_saved [H _]]].
  exists crop_saved, rain_saved. exact H.
Defined.

(** X7.  Against a well-behaved API over a record set that makes a
    non-empty table, [main] of [crop_data.py] ends normally once both
    fetches are through, has saved the whole set under each of the two
    file names, crop first, and has made one request per page of each
    resource. *)
Theorem X7_crop_main_saves_both_tables :
  forall (db : list record) (fuel : nat),
    CropMain.empty db = false ->
    (List.length db / 1000 < fuel)%nat ->
    exists tr,
      CropMain.main (Samples.api db) fuel = Some (Returned tt, tr)
      /\ filter is_to_csv tr =
           [ToCsv CropMain.CROP_OUTPUT_FILE db; ToCsv CropMain.RAIN_OUTPUT_FILE db]
      /\ count_gets tr = (2 * (List.length db / 1000 + 1))%nat.
Proof.
  intros db fuel Hne Hfuel.
  destruct (Crop.crop_fetch_loop_api db CropData.CROP_RESOURCE_ID fuel 0 [] 0)
    as [tr1 [Hrun1 Hgets1]]; [lia | cbn [Z.to_nat skipn]; exact Hfuel |].
  cbn [Z.to_nat skipn app] in Hrun1, Hgets1.
  destruct (Crop.crop_fetch_loop_api db CropData.RAIN_RESOURCE_ID fuel 0 []
              (0 + List.length db / 1000 + 1))
    as [tr2 [Hrun2 Hgets2]]; [lia | cbn [Z.to_nat skipn]; exact Hfuel |].
  cbn [Z.to_nat skipn app] in Hrun2, Hgets2.
  exists (tr1 ++ CropMain.save CropMain.CROP_OUTPUT_FILE db
              ++ tr2 ++ CropMain.save CropMain.RAIN_OUTPUT_FILE db).
  unfold CropMain.main, CropData.fetch_all_data. rewrite Hrun1, Hrun2.
  split; [reflexivity|].
  destruct (crop_fetch_quiet _ _ _ _ _ _ _ Hrun1) as [_ Hw1].
  destruct (crop_fetch_quiet _ _ _ _ _ _ _ Hrun2) as [_ Hw2].
  split.
  - rewrite !filter_app, Hw1, Hw2, !save_is_to_csv. unfold CropMain.save.
    rewrite Hne. reflexivity.
  - rewrite !count_gets_app, Hgets1, Hgets2, !save_count_gets. lia.
Qed.

Lemma X7_witness :
  CropMain.empty [Samples.a_record] = false
  /\ (List.length [Samples.a_record] / 1000 < 1)%nat
  /\ exists tr,
       CropMain.main (Samples.api [Samples.a_record]) 1 = Some (Returned tt, tr)
       /\ filter is_to_csv tr =
            [ToCsv CropMain.CROP_OUTPUT_FILE [Samples.a_record];
             ToCsv CropMain.RAIN_OUTPUT_FILE [Samples.a_record]]
       /\ count_gets tr = (2 * (List.length [Samples.a_record] / 1000 + 1))%nat.
Proof.
  assert (H1 : CropMain.empty [Samples.a_record] = false) by reflexivity.
  assert (H2 : (List.length [Samples.a_record] / 1000 < 1)%nat) by (cbn; lia).
  split; [exact H1|]. split; [exact H2|].
  exact (X7_crop_main_saves_both_tables [Samples.a_record] 1%nat H1 H2).
Defined.

(** X8.  A run of [main] of [rainfall.py] writes at most one file: the
    rainfall output file, as the last thing it does, holding the whole
    list of records, and only when both loops ran to their end with a list
    that is not empty.  A run that gets through the loops has paused half
    a second after each of the 264 (year, state) queries, and its list
    holds exactly the records of the pages it appended. *)
Theorem X8_rainfall_main_saves_once_at_the_end :
  forall (srv : server) fuel e tr,
    Rainfall.main srv fuel = Some (e, tr) ->
    filter is_to_csv tr =
      match e with
      | Rainfall.Finished (r :: rs) => [ToCsv Rainfall.RAIN_OUTPUT_FILE (r :: rs)]
      | _ => []
      end
    /\ (pauses tr <= 264)%nat
    /\ (forall rs, e = Rainfall.Finished rs ->
          pauses tr = 264%nat
          /\ List.length rs = list_sum (extended_counts tr)
          /\ (rs <> [] -> exists tr0, tr = tr0 ++ [ToCsv Rainfall.RAIN_OUTPUT_FILE rs])).
Proof.
  intros srv fuel e tr.
  change 264%nat
    with (List.length Rainfall.YEARS_TO_FETCH * List.length Rainfall.STATES_LIST)%nat.
  unfold Rainfall.main. generalize Rainfall.YEARS_TO_FETCH. intros years.
  destruct (String.eqb Rainfall.API_KEY _).
  { intros [= <- <-]. split; [reflexivity|]. split; [apply Nat.le_0_l|]. discriminate. }
  destruct (Rainfall.years_loop srv fuel years [] 0)
    as [[[e1 t1] tr1]|] eqn:E; [|discriminate].
  pose proof (Rain.years_loop_writes_nothing _ _ _ _ _ _ _ _ E) as Hw.
  destruct (years_loop_pauses _ _ _ _ _ _ _ _ E) as [Hle Hfin].
  destruct e1 as [all| | |];
    try (intros [= <- <-]; split; [exact Hw|]; split; [exact Hle | discriminate]).
  destruct (Hfin all eq_refl) as [Hp Hl]. cbn [List.length Nat.add] in Hl.
  destruct all as [|r all]; intros [= <- <-].
  - split; [exact Hw|]. split; [exact Hle|].
    intros rs [= <-]. split; [exact Hp|]. split; [exact Hl|]. intros Hne. now elim Hne.
  - rewrite filter_app, Hw, pauses_snoc_to_csv. split; [reflexivity|].
    split; [exact Hle|].
    intros rs [= <-]. split; [exact Hp|]. split.
    + rewrite extended_counts_app. cbn [extended_counts]. rewrite app_nil_r. exact Hl.
    + intros _. exists tr1. reflexivity.
Qed.

Lemma X8_witness :
  filter is_to_csv
    [Get (Rainfall.params Rainfall.RAIN_RESOURCE_ID
            (Rainfall.query_filters "2018" "Uttar Pradesh") 0)] = []
  /\ (pauses [Get (Rainfall.params Rainfall.RAIN_RESOURCE_ID
                     (Rainfall.query_filters "2018" "Uttar Pradesh") 0)] <= 264)%nat.
Proof.
  assert (Hmain : Rainfall.main Samples.says_fatal 1 =
                  Some (Rainfall.Stopped,
                        [Get (Rainfall.params Rainfall.RAIN_RESOURCE_ID
                                (Rainfall.query_filters "2018" "Uttar Pradesh") 0)]))
    by (vm_compute; reflexivity).
  destruct (X8_rainfall_main_saves_once_at_the_end _ _ _ _ Hmain) as [H1 [H2 _]].
  split; [exact H1 | exact H2].
Defined.

(** Against a well-behaved API the two loops of [rainfall.py] run to their
    end. *)
Lemma rainfall_main_api (db : list record) (fuel : nat) :
  (List.length db / 1000 < fuel)%nat ->
  exists tr,
    Rainfall.main (Samples.api db) fuel =
      Some (Rainfall.Finished
              (List.concat
                 (repeat db (List.length Rainfall.YEARS_TO_FETCH
                             * List.length Rainfall.STATES_LIST))), tr)
    /\ count_gets tr =
         (List.length Rainfall.YEARS_TO_FETCH * List.length Rainfall.STATES_LIST
          * (List.length db / 1000 + 1))%nat.
Proof.
  intros Hfuel.
  unfold Rainfall.main. generalize Rainfall.YEARS_TO_FETCH. intros years.
  destruct (String.eqb Rainfall.API_KEY _) eqn:Ekey; [discriminate Ekey|].
  destruct (years_loop_api db fuel Hfuel years [] 0%nat) as [t' [tr [Hrun Hgets]]].
  cbn [app] in Hrun. rewrite Hrun.
  destruct (List.concat (repeat db (List.length years * List.length Rainfall.STATES_LIST)))
    as [|r rs].
  - exists tr. split; [reflexivity | exact Hgets].
  - exists (tr ++ [ToCsv Rainfall.RAIN_OUTPUT_FILE (r :: rs)]). split; [reflexivity|].
    rewrite count_gets_app, Hgets. cbn [count_gets filter is_get List.length]. lia.
Qed.

(** X9.  Against a well-behaved API, [main] of [rainfall.py] gets through
    both loops once each fetch is allowed its pages: it makes one request
    per page for each of the 264 queries and ends with the record set of
    every query, in the order of the queries. *)
Theorem X9_rainfall_main_runs_through :
  forall (db : list record) (fuel : nat),
    (List.length db / 1000 < fuel)%nat ->
    exists tr,
      Rainfall.main (Samples.api db) fuel =
        Some (Rainfall.Finished (List.concat (repeat db 264)), tr)
      /\ count_gets tr = (264 * (List.length db / 1000 + 1))%nat.
Proof.
  intros db fuel Hfuel.
  destruct (rainfall_main_api db fuel Hfuel) as [tr [Hrun Hgets]].
  exists tr. split; [exact Hrun | exact Hgets].
Qed.

Lemma X9_witness :
  (List.length [Samples.a_record] / 1000 < 1)%nat
  /\ exists tr,
       Rainfall.main (Samples.api [Samples.a_record]) 1 =
         Some (Rainfall.Finished (List.concat (repeat [Samples.a_record] 264)), tr)
       /\ count_gets tr = (264 * (List.length [Samples.a_record] / 1000 + 1))%nat.
Proof.
  assert (H : (List.length [Samples.a_record] / 1000 < 1)%nat) by (cbn; lia).
  split; [exact H|].
  exact (X9_rainfall_main_runs_through [Samples.a_record] 1%nat H).
Defined.

End RunProperties.

(* ================================================================== *)
(** * More on the cleaning *)
(* ================================================================== *)

Module TableMore.
Import Http Pandas DbCreator TableFacts.

Section Refusals.
Context `{pandas : Conversions}.

(** ** Tables the cleaning refuses *)

Lemma update_columns_fails f labels : forall df,
  forallb (has_column df) labels = false ->
  update_columns f labels df = None.
Proof.
  induction labels as [|col labels IH]; intros df Hall; cbn [forallb] in Hall;
    [discriminate|].
  cbn [update_columns]. unfold update_column.
  destruct (has_column df col) eqn:Hcol; [|reflexivity].
  cbn [andb] in Hall. apply IH. rewrite <- Hall. apply forallb_same.
  intros l. apply has_column_columns. reflexivity.
Qed.

Lemma exists_assign_other label v df l :
  String.eqb l label = false ->
  existsb (String.eqb l) (columns (assign label v df)) =
    existsb (String.eqb l) (columns df).
Proof.
  intros Hl. cbn [assign columns].
  destruct (existsb (String.eqb label) (columns df)); [reflexivity|].
  rewrite existsb_app. cbn [existsb]. rewrite Hl, !orb_false_r. reflexivity.
Qed.

Lemma select_fails labels df l :
  In l labels -> existsb (String.eqb l) (columns df) = false ->
  select labels df = None.
Proof.
  intros Hin Hl. unfold select.
  destruct (forallb _ labels) eqn:E; [|reflexivity].
  rewrite forallb_forall in E. rewrite (E l Hin) in Hl. discriminate.
Qed.

(** A crop table that is not ready makes [process_crop_data] raise. *)
Lemma process_crop_data_raises fs filepath raw :
  fs filepath = Some (CsvFile raw) ->
  crop_ready raw = false ->
  snd (process_crop_data fs filepath) = Raised.
Proof.
  intros Hfile Hready. unfold process_crop_data, read_csv. rewrite Hfile.
  destruct (update_columns astype_str_strip crop_str_cols (rename crop_renames raw))
    as [df1|] eqn:E1; [|reflexivity].
  destruct (update_columns to_numeric crop_num_cols df1) as [df2|] eqn:E2;
    [|reflexivity].
  destruct (update_columns_spec _ _ _ _ E1) as [C1 _].
  destruct (update_columns_spec _ _ _ _ E2) as [C2 _].
  assert (Hstr : forallb (has_column (rename crop_renames raw)) crop_str_cols = true).
  { destruct (forallb _ crop_str_cols) eqn:E; [reflexivity|].
    rewrite (update_columns_fails _ _ _ E) in E1. discriminate. }
  assert (Hnum : forallb (has_column (rename crop_renames raw)) crop_num_cols = true).
  { destruct (forallb _ crop_num_cols) eqn:E; [reflexivity|].
    rewrite (update_columns_fails to_numeric crop_num_cols df1) in E2; [discriminate|].
    rewrite <- E. apply forallb_same. intros l. apply has_column_columns. exact C1. }
  unfold crop_ready in Hready. rewrite forallb_app, Hstr, Hnum in Hready.
  cbn [andb] in Hready.
  match goal with
  | |- context [select crop_final_cols ?df] =>
      rewrite (select_fails crop_final_cols df "year")
  end; [reflexivity | cbn; tauto |].
  rewrite !exists_assign_other by reflexivity.
  cbn [dropna columns]. rewrite C2, C1. exact Hready.
Qed.

(** A rainfall table that is not ready makes [process_rainfall_data]
    raise. *)
Lemma process_rainfall_data_raises fs filepath raw :
  fs filepath = Some (CsvFile raw) ->
  rain_ready raw = false ->
  snd (process_rainfall_data fs filepath) = Raised.
Proof.
  intros Hfile Hready. unfold process_rainfall_data, read_csv. rewrite Hfile.
  destruct (update_columns astype_str_strip rain_str_cols (rename rain_renames raw))
    as [df1|] eqn:E1; [|reflexivity].
  destruct (update_column (replace "NR" (Num zero)) "rainfall_mm" df1)
    as [df2|] eqn:E2; [|reflexivity].
  destruct (update_column to_numeric "rainfall_mm" df2) as [df3|] eqn:E3;
    [|reflexivity].
  destruct (update_column (fillna (Num zero)) "rainfall_mm" df3) as [df4|] eqn:E4;
    [|reflexivity].
  destruct (update_columns_spec _ _ _ _ E1) as [C1 _].
  destruct (update_column_spec _ _ _ _ E2) as [C2 _].
  destruct (update_column_spec _ _ _ _ E3) as [C3 _].
  destruct (update_column_spec _ _ _ _ E4) as [C4 _].
  assert (C : columns df4 = columns (rename rain_renames raw)) by congruence.
  unfold groupby_sum.
  assert (Hcond : forallb (has_column df4) rain_by && has_column df4 "rainfall_mm" =
                  rain_ready raw).
  { unfold rain_ready. rewrite forallb_app. cbn [forallb].
    rewrite andb_true_r, (has_column_columns _ _ "rainfall_mm" C).
    f_equal. apply forallb_same. intros l. apply has_column_columns. exact C. }
  rewrite Hcond, Hready. reflexivity.
Qed.

(** Only a file that holds a table is cleaned. *)
Lemma process_crop_data_file fs filepath printed out :
  process_crop_data fs filepath = (printed, Returned (Some out)) ->
  exists raw, fs filepath = Some (CsvFile raw).
Proof.
  unfold process_crop_data, read_csv.
  destruct (fs filepath) as [[raw|db]|]; [eauto | discriminate | discriminate].
Qed.

Lemma process_rainfall_data_file fs filepath printed out :
  process_rainfall_data fs filepath = (printed, Returned (Some out)) ->
  exists raw, fs filepath = Some (CsvFile raw).
Proof.
  unfold process_rainfall_data, read_csv.
  destruct (fs filepath) as [[raw|db]|]; [eauto | discriminate | discriminate].
Qed.

(** [None] is returned for a missing file only. *)
Lemma process_crop_data_none fs filepath printed :
  process_crop_data fs filepath = (printed, Returned None) -> fs filepath = None.
Proof.
  unfold process_crop_data, read_csv.
  destruct (fs filepath) as [[raw|db]|]; [|discriminate|reflexivity].
  destruct (update_columns _ _ _); [|discriminate].
  destruct (update_columns _ _ _); [|discriminate].
  destruct (select _ _); discriminate.
Qed.

Lemma process_rainfall_data_none fs filepath printed :
  process_rainfall_data fs filepath = (printed, Returned None) -> fs filepath = None.
Proof.
  unfold process_rainfall_data, read_csv.
  destruct (fs filepath) as [[raw|db]|]; [|discriminate|reflexivity].
  destruct (update_columns _ _ _); [|discriminate].
  destruct (update_column _ _ _); [|discriminate].
  destruct (update_column _ _ _); [|discriminate].
  destruct (update_column _ _ _); [|discriminate].
  destruct (groupby_sum _ _ _); discriminate.
Qed.

(** ** What the two functions print *)

Definition crop_message (m : message) : Prop :=
  match m with
  | NotFound _ | Processing _ _ | Dropped _ | Complete _ => True
  | _ => False
  end.

Definition rain_message (m : message) : Prop :=
  match m with
  | NotFound _ | Processing _ _ | Aggregating | Complete _ => True
  | _ => False
  end.

Lemma process_crop_data_prints fs filepath :
  Forall crop_message (fst (process_crop_data fs filepath)).
Proof.
  unfold process_crop_data.
  destruct (read_csv fs filepath) as [df| |]; cbn [fst];
    [|repeat constructor|constructor].
  destruct (update_columns _ _ _); [|repeat constructor].
  destruct (update_columns _ _ _); [|repeat constructor].
  destruct (select _ _); cbn [fst]; destruct (Nat.ltb 0 _); repeat constructor.
Qed.

Lemma process_rainfall_data_prints fs filepath :
  Forall rain_message (fst (process_rainfall_data fs filepath)).
Proof.
  unfold process_rainfall_data.
  destruct (read_csv fs filepath) as [df| |]; cbn [fst];
    [|repeat constructor|constructor].
  destruct (update_columns _ _ _); [|repeat constructor].
  destruct (update_column _ _ _); [|repeat constructor].
  destruct (update_column _ _ _); [|repeat constructor].
  destruct (update_column _ _ _); [|repeat constructor].
  destruct (groupby_sum _ _ _); repeat constructor.
Qed.

End Refusals.

End TableMore.

Module RowFacts.
Import Http Pandas DbCreator TableFacts.

(** ** Trimmed strings *)

(** A list of bytes begins with a white-space character. *)
Definition starts_with (sp1 : ascii -> bool) (sp2 : ascii -> ascii -> bool)
    (sp3 : ascii -> ascii -> ascii -> bool) (l : list ascii) : bool :=
  match l with
  | [] => false
  | a :: l1 =>
      sp1 a
      || match l1 with
         | [] => false
         | b :: l2 =>
             sp2 a b
             || match l2 with
                | [] => false
                | c :: _ => sp3 a b c
                end
         end
  end.

Definition starts_with_space (l : list ascii) : bool :=
  starts_with is_space is_space2 is_space3 l.

Definition ends_with_space (l : list ascii) : bool :=
  starts_with is_space (fun a b => is_space2 b a) (fun a b c => is_space3 c b a)
    (rev l).

(** No white-space character at either end. *)
Definition trimmed_list (l : list ascii) : bool :=
  negb (starts_with_space l) && negb (ends_with_space l).

Definition trimmed (s : string) : bool := trimmed_list (list_ascii_of_string s).

Lemma lstrip_with_spec sp1 sp2 sp3 : forall n l,
  (List.length l <= n)%nat ->
  starts_with sp1 sp2 sp3 (lstrip_with sp1 sp2 sp3 l) = false
  /\ exists dropped, l = dropped ++ lstrip_with sp1 sp2 sp3 l.
Proof.
  induction n as [|n IH]; intros l Hlen.
  - destruct l; [|cbn in Hlen; lia]. split; [reflexivity | exists []; reflexivity].
  - destruct l as [|a l1]; [split; [reflexivity | exists []; reflexivity]|].
    cbn [List.length] in Hlen. cbn [lstrip_with].
    destruct (sp1 a) eqn:E1.
    { destruct (IH l1) as [Hs [d Hd]]; [lia|]. split; [exact Hs|].
      exists (a :: d). cbn [app]. rewrite <- Hd. reflexivity. }
    destruct l1 as [|b l2].
    { split; [cbn [starts_with]; rewrite E1; reflexivity | exists []; reflexivity]. }
    cbn [List.length] in Hlen.
    destruct (sp2 a b) eqn:E2.
    { destruct (IH l2) as [Hs [d Hd]]; [lia|]. split; [exact Hs|].
      exists (a :: b :: d). cbn [app]. rewrite <- Hd. reflexivity. }
    destruct l2 as [|c l3].
    { split; [cbn [starts_with]; rewrite E1, E2; reflexivity | exists []; reflexivity]. }
    cbn [List.length] in Hlen.
    destruct (sp3 a b c) eqn:E3.
    { destruct (IH l3) as [Hs [d Hd]]; [lia|]. split; [exact Hs|].
      exists (a :: b :: c :: d). cbn [app]. rewrite <- Hd. reflexivity. }
    split; [cbn [starts_with]; rewrite E1, E2, E3; reflexivity | exists []; reflexivity].
Qed.

Lemma starts_with_app sp1 sp2 sp3 l more :
  starts_with sp1 sp2 sp3 l = true -> starts_with sp1 sp2 sp3 (l ++ more) = true.
Proof.
  destruct l as [|a [|b [|c l]]]; cbn [starts_with app]; try discriminate.
  - rewrite orb_false_r. intros ->. reflexivity.
  - rewrite orb_false_r. intros E. apply orb_true_iff in E.
    destruct E as [->| ->]; [reflexivity|].
    destruct more; rewrite ?orb_true_r; reflexivity.
  - intros E. exact E.
Qed.

Lemma strip_list_trimmed l : trimmed_list (rstrip (lstrip l)) = true.
Proof.
  unfold trimmed_list, starts_with_space, ends_with_space, rstrip, lstrip.
  set (m := lstrip_with is_space is_space2 is_space3 l).
  destruct (lstrip_with_spec is_space is_space2 is_space3 _ l (Nat.le_refl _))
    as [Hstart _]. fold m in Hstart.
  destruct (lstrip_with_spec is_space (fun a b => is_space2 b a)
              (fun a b c => is_space3 c b a) _ (rev m) (Nat.le_refl _))
    as [Hend [dropped Hdropped]].
  set (e := lstrip_with is_space (fun a b => is_space2 b a)
              (fun a b c => is_space3 c b a) (rev m)) in *.
  rewrite rev_involutive, Hend. rewrite andb_true_r. apply negb_true_iff.
  destruct (starts_with is_space is_space2 is_space3 (rev e)) eqn:E; [|reflexivity].
  assert (Hm : m = rev e ++ rev dropped).
  { rewrite <- rev_app_distr, <- Hdropped, rev_involutive. reflexivity. }
  rewrite Hm, (starts_with_app _ _ _ _ _ E) in Hstart. discriminate.
Qed.

(** What [strip] returns has no white space at either end. *)
Lemma strip_trimmed s : trimmed (strip s) = true.
Proof.
  unfold trimmed, strip. rewrite list_ascii_of_string_of_list_ascii.
  apply strip_list_trimmed.
Qed.

Section Rows.
Context `{pandas : Conversions}.

Lemma astype_str_strip_trimmed c :
  exists s, astype_str_strip c = Str s /\ trimmed s = true.
Proof.
  destruct c as [x|s|]; cbn [astype_str_strip]; eexists; split;
    try reflexivity; apply strip_trimmed.
Qed.

(** ** The stored crop row, column by column *)

Lemma not_in_existsb (l : string) (labels : list string) :
  ~ In l labels -> existsb (String.eqb l) labels = false.
Proof.
  intros Hn. destruct (existsb _ labels) eqn:E; [|reflexivity].
  apply existsb_exists in E. destruct E as [l' [Hin E]].
  apply String.eqb_eq in E. subst l'. contradiction.
Qed.

Lemma crop_stored_fields (r : row) :
  let r0 := rename_row crop_renames r in
  (forall l, In l crop_str_cols -> get (crop_stored r) l = astype_str_strip (get r0 l))
  /\ get (crop_stored r) "year" = get r0 "year"
  /\ (forall l, In l crop_num_cols -> get (crop_stored r) l = to_numeric (get r0 l))
  /\ get (crop_stored r) "source_name" =
       Str "District-wise, season-wise crop production statistics"
  /\ get (crop_stored r) "source_url" = Str CROP_API_URL
  /\ (forall l, ~ In l crop_final_cols -> get (crop_stored r) l = NaN).
Proof.
  intros r0.
  assert (Hget : forall l, In l crop_final_cols ->
            get (crop_stored r) l =
              get (set (set (crop_cleaned r) "source_name"
                          (Str "District-wise, season-wise crop production statistics"))
                     "source_url" (Str CROP_API_URL)) l).
  { intros l Hl. unfold crop_stored. rewrite get_select_row.
    destruct (existsb (String.eqb l) crop_final_cols) eqn:E; [reflexivity|].
    exfalso. apply (not_true_iff_false _) in E. apply E.
    apply existsb_exists. exists l. split; [exact Hl | apply String.eqb_refl]. }
  split; [|split; [|split; [|split; [|split]]]].
  - intros l Hl. rewrite Hget by (cbn in *; tauto).
    cbn [crop_str_cols In] in Hl.
    unfold crop_cleaned, apply_to. cbn [fold_left crop_num_cols crop_str_cols].
    fold r0.
    repeat (destruct Hl as [<-|Hl]); try contradiction;
      rewrite !get_set; reflexivity.
  - rewrite Hget by (cbn; tauto).
    unfold crop_cleaned, apply_to. cbn [fold_left crop_num_cols crop_str_cols].
    rewrite !get_set. reflexivity.
  - intros l Hl. rewrite Hget by (cbn in *; tauto).
    cbn [crop_num_cols In] in Hl.
    unfold crop_cleaned, apply_to. cbn [fold_left crop_num_cols crop_str_cols].
    fold r0.
    repeat (destruct Hl as [<-|Hl]); try contradiction;
      rewrite !get_set; reflexivity.
  - rewrite Hget by (cbn; tauto). rewrite !get_set. reflexivity.
  - rewrite Hget by (cbn; tauto). rewrite !get_set. reflexivity.
  - intros l Hl. unfold crop_stored.
    rewrite get_select_row, (not_in_existsb _ _ Hl). reflexivity.
Qed.

(** ** The groups of the rainfall table *)

(** Every group comes from a row with a year. *)
Lemma group_has_row (rs : list row) (g : key * cell) :
  In g (group_sums rain_by "rainfall_mm" (map rain_cleaned rs)) ->
  exists r, In r rs /\ rain_key r = Some (fst g).
Proof.
  intros Hg.
  assert (Hk : In (fst g) (map fst (group_sums rain_by "rainfall_mm"
                                      (map rain_cleaned rs))))
    by (apply in_map; exact Hg).
  apply lookup_key in Hk. rewrite lookup_group_sums in Hk.
  destruct (existsb _ _) eqn:Hex; [|congruence].
  apply existsb_exists in Hex. destruct Hex as [r' [Hin Hm]].
  apply in_map_iff in Hin. destruct Hin as [r [<- Hin]].
  rewrite group_key_cleaned in Hm. exists r. split; [exact Hin|].
  destruct (rain_key r) as [k'|]; [|discriminate].
  apply key_eqb_eq in Hm. rewrite Hm. reflexivity.
Qed.

(** The sum of a group is a number or missing. *)
Lemma sum_cells_shape (cells : list cell) :
  (exists x, sum_cells cells = Num x) \/ sum_cells cells = NaN.
Proof. unfold sum_cells. destruct (sum_numbers _); eauto. Qed.

(** A row has a year. *)
Definition dated (r : row) : bool := notna (get (rename_row rain_renames r) "year").

Lemma rain_key_dated r k : rain_key r = Some k -> dated r = true.
Proof.
  unfold rain_key, dated, notna. destruct (isna _); [discriminate | reflexivity].
Qed.

Lemma dated_rain_key r : dated r = true -> exists k, rain_key r = Some k.
Proof.
  unfold rain_key, dated, notna. destruct (isna _); [discriminate | eauto].
Qed.

(** The rows of a key. *)
Definition rows_of (rs : list row) (k : key) : list row :=
  filter (fun r => key_matches k (rain_key r)) rs.

Lemma rows_of_dated rs k : rows_of (filter dated rs) k = rows_of rs k.
Proof.
  unfold rows_of. induction rs as [|r rs IH]; [reflexivity|]. cbn [filter].
  destruct (dated r) eqn:Hd; cbn [filter]; rewrite IH; [reflexivity|].
  destruct (rain_key r) as [k0|] eqn:Hk; [|reflexivity].
  rewrite (rain_key_dated _ _ Hk) in Hd. discriminate.
Qed.

Lemma rows_of_other rs r k k0 :
  rain_key r = Some k0 -> k <> k0 -> rows_of (r :: rs) k = rows_of rs k.
Proof.
  intros Hk Hne. unfold rows_of. cbn [filter]. rewrite Hk. cbn [key_matches].
  apply key_eqb_neq in Hne. rewrite Hne. reflexivity.
Qed.

Lemma rows_of_same rs r k :
  rain_key r = Some k -> rows_of (r :: rs) k = r :: rows_of rs k.
Proof.
  intros Hk. unfold rows_of. cbn [filter]. rewrite Hk. cbn [key_matches].
  rewrite key_eqb_refl. reflexivity.
Qed.

(** Keys that are distinct and cover the rows split them: every row falls
    under exactly one. *)
Lemma rows_split_by_keys : forall (rs : list row) (ks : list key),
  NoDup ks ->
  (forall r, In r rs -> exists k, rain_key r = Some k /\ In k ks) ->
  Permutation (flat_map (rows_of rs) ks) rs.
Proof.
  induction rs as [|r rs IH]; intros ks Hnd Hcover.
  - assert (E : flat_map (rows_of []) ks = []).
    { clear Hnd Hcover. induction ks as [|k ks IHk]; [reflexivity|].
      cbn [flat_map]. rewrite IHk. reflexivity. }
    rewrite E. constructor.
  - destruct (Hcover r (or_introl eq_refl)) as [k0 [Hk0 Hin]].
    destruct (in_split _ _ Hin) as [ks1 [ks2 ->]].
    pose proof (NoDup_remove_2 _ _ _ Hnd) as Hnotin.
    assert (Hother : forall ks', ~ In k0 ks' ->
              flat_map (rows_of (r :: rs)) ks' = flat_map (rows_of rs) ks').
    { intros ks' Hn. induction ks' as [|k ks' IHk]; [reflexivity|].
      cbn [flat_map]. rewrite IHk by (intros Hk; apply Hn; right; exact Hk).
      rewrite (rows_of_other rs r k k0 Hk0); [reflexivity|].
      intros ->. apply Hn. left. reflexivity. }
    rewrite flat_map_app. cbn [flat_map].
    rewrite (Hother ks1), (Hother ks2), (rows_of_same _ _ _ Hk0)
      by (intros Hn; apply Hnotin; apply in_or_app; auto).
    cbn [app]. rewrite <- Permutation_middle. constructor.
    specialize (IH (ks1 ++ k0 :: ks2) Hnd).
    rewrite flat_map_app in IH. cbn [flat_map] in IH. apply IH.
    intros r' Hr'. apply Hcover. right. exact Hr'.
Qed.

Lemma length_flat_map_nonempty {A B : Type} (f : A -> list B) (l : list A) :
  (forall a, In a l -> f a <> []) ->
  (List.length l <= List.length (flat_map f l))%nat.
Proof.
  induction l as [|a l IH]; intros Hne; [apply Nat.le_refl|].
  cbn [flat_map List.length]. rewrite length_app.
  assert (Ha : f a <> []) by (apply Hne; left; reflexivity).
  assert (Hl : (List.length l <= List.length (flat_map f l))%nat)
    by (apply IH; intros a' Ha'; apply Hne; right; exact Ha').
  destruct (f a); [contradiction | cbn [List.length]; lia].
Qed.

(** The columns of the rainfall table. *)
Definition rain_final_cols :=
  ["state"; "district"; "year"; "annual_rainfall_mm"; "source_name"; "source_url"].

Lemma rain_output_columns fs filepath printed out :
  process_rainfall_data fs filepath = (printed, Returned (Some out)) ->
  columns out = rain_final_cols.
Proof.
  unfold process_rainfall_data.
  destruct (read_csv fs filepath) as [df| |]; [|discriminate|discriminate].
  destruct (update_columns _ _ _); [|discriminate].
  destruct (update_column _ _ _); [|discriminate].
  destruct (update_column _ _ _); [|discriminate].
  destruct (update_column _ _ _); [|discriminate].
  unfold groupby_sum. destruct (_ && _); [|discriminate].
  intros [= _ <-]. reflexivity.
Qed.

End Rows.

End RowFacts.

Section MoreTransformerProperties.
Import Http Pandas DbCreator TableFacts TableMore RowFacts.
Context `{Conversions}.

(** X10.  How the two cleaning functions end, by what the path holds.
    For a missing file each prints the not-found message and returns
    [None].  For a table each either returns a cleaned table or raises,
    and never returns [None]: [process_crop_data] returns exactly when,
    after renaming, each of state, district, crop, season, area_hectares
    and production_tonnes is the label of one column and year is a label;
    [process_rainfall_data] exactly when each of state, district, year and
    rainfall_mm is the label of one column.  A file that is no table makes
    both raise. *)
Theorem X10_how_the_cleaning_ends :
  forall (fs : filesystem) (filepath : string),
    match fs filepath with
    | None =>
        process_crop_data fs filepath = ([NotFound filepath], Returned None)
        /\ process_rainfall_data fs filepath = ([NotFound filepath], Returned None)
    | Some (CsvFile raw) =>
        (if crop_ready raw
         then exists printed out,
                process_crop_data fs filepath = (printed, Returned (Some out))
         else snd (process_crop_data fs filepath) = Raised)
        /\ (if rain_ready raw
            then exists printed out,
                   process_rainfall_data fs filepath = (printed, Returned (Some out))
            else snd (process_rainfall_data fs filepath) = Raised)
    | Some (SqliteFile _) =>
        snd (process_crop_data fs filepath) = Raised
        /\ snd (process_rainfall_data fs filepath) = Raised
    end.
Proof.
  intros fs filepath. destruct (fs filepath) as [[raw|db]|] eqn:Hfile.
  - split.
    + destruct (crop_ready raw) eqn:E.
      * exact (process_crop_data_returns fs filepath raw Hfile E).
      * exact (process_crop_data_raises fs filepath raw Hfile E).
    + destruct (rain_ready raw) eqn:E.
      * exact (process_rainfall_data_returns fs filepath raw Hfile E).
      * exact (process_rainfall_data_raises fs filepath raw Hfile E).
  - unfold process_crop_data, process_rainfall_data, read_csv. rewrite Hfile.
    split; reflexivity.
  - unfold process_crop_data, process_rainfall_data, read_csv. rewrite Hfile.
    split; reflexivity.
Qed.

(** X11.  Every row of the cleaned crop table comes from an input row and
    holds, under the nine final labels and no other: the state, district,
    crop and season of that row as strings without white space at either
    end; its year as it was read; its area and production as
    [pd.to_numeric] reads them; and the two constant source columns. *)
Theorem X11_stored_crop_rows_column_by_column :
  forall (fs : filesystem) (filepath : string) (raw : DataFrame)
         (printed : list message) (out : DataFrame),
    fs filepath = Some (CsvFile raw) ->
    process_crop_data fs filepath = (printed, Returned (Some out)) ->
    Forall
      (fun o =>
         exists r, In r (rows raw) /\
           let r0 := rename_row crop_renames r in
           (forall l, In l crop_str_cols ->
              get o l = astype_str_strip (get r0 l)
              /\ exists s, get o l = Str s /\ trimmed s = true)
           /\ get o "year" = get r0 "year"
           /\ (forall l, In l crop_num_cols -> get o l = to_numeric (get r0 l))
           /\ get o "source_name" =
                Str "District-wise, season-wise crop production statistics"
           /\ get o "source_url" = Str CROP_API_URL
           /\ (forall l, ~ In l crop_final_cols -> get o l = NaN))
      (rows out).
Proof.
  intros fs filepath raw printed out Hfile Hrun.
  destruct (process_crop_data_spec fs filepath raw printed out Hfile Hrun) as [Hrows _].
  rewrite Hrows. apply Forall_forall. intros o Ho.
  apply in_map_iff in Ho. destruct Ho as [r [<- Hr]].
  apply filter_In in Hr. destruct Hr as [Hr _].
  exists r. split; [exact Hr|].
  destruct (crop_stored_fields r) as [Hstr [Hyear [Hnum [Hname [Hurl Hother]]]]].
  cbv zeta. split; [|split; [exact Hyear|split; [exact Hnum|split;
    [exact Hname|split; [exact Hurl|exact Hother]]]]].
  intros l Hl. split; [exact (Hstr l Hl)|].
  rewrite (Hstr l Hl). apply astype_str_strip_trimmed.
Qed.

(** X12.  The cleaned rainfall table always has the six columns state,
    district, year, annual_rainfall_mm, source_name and source_url, in
    this order, and each of its rows has exactly these labels.  In every
    row the state and the district are strings without white space at
    either end, the year is not missing, the annual rainfall is a number
    (or missing, when the sum of its group is NaN), and the two source
    columns hold the constants of the script. *)
Theorem X12_stored_rainfall_rows :
  forall (fs : filesystem) (filepath : string) (raw : DataFrame)
         (printed : list message) (out : DataFrame),
    fs filepath = Some (CsvFile raw) ->
    process_rainfall_data fs filepath = (printed, Returned (Some out)) ->
    columns out = rain_final_cols
    /\ Forall
         (fun o =>
            map fst o = rain_final_cols
            /\ (exists s, get o "state" = Str s /\ trimmed s = true)
            /\ (exists d, get o "district" = Str d /\ trimmed d = true)
            /\ isna (get o "year") = false
            /\ ((exists x, get o "annual_rainfall_mm" = Num x)
                \/ get o "annual_rainfall_mm" = NaN)
            /\ get o "source_name" =
                 Str "Daily District-wise Rainfall Data (Aggregated to Annual)"
            /\ get o "source_url" = Str RAIN_API_URL)
         (rows out).
Proof.
  intros fs filepath raw printed out Hfile Hrun.
  split; [exact (rain_output_columns fs filepath printed out Hrun)|].
  rewrite (process_rainfall_data_spec fs filepath raw printed out Hfile Hrun).
  apply Forall_forall. intros o Ho.
  apply in_map_iff in Ho. destruct Ho as [[k s] [<- Hg]].
  apply (Permutation_in _ (sort_groups_perm _)) in Hg.
  destruct (group_has_row _ _ Hg) as [r [_ Hk]]. cbn [fst] in Hk.
  assert (Hsum : (exists x, s = Num x) \/ s = NaN).
  { unfold group_sums in Hg. apply in_map_iff in Hg.
    destruct Hg as [g [Hg _]]. inversion Hg. apply sum_cells_shape. }
  unfold rain_key in Hk.
  destruct (isna (get (rename_row rain_renames r) "year")) eqn:Hyear; [discriminate|].
  inversion Hk as [Hkey]. clear Hk.
  split; [reflexivity|].
  split; [exact (astype_str_strip_trimmed _)|].
  split; [exact (astype_str_strip_trimmed _)|].
  split; [exact Hyear|]. split; [exact Hsum|].
  split; reflexivity.
Qed.

(** X13.  Aggregation counts every daily row once: the input rows that
    have a year are split among the rows of the cleaned rainfall table by
    their key, each falling under exactly one stored row, and every stored
    row has at least one; so the table has no more rows than there are
    input rows with a year. *)
Theorem X13_every_dated_row_is_summed_once :
  forall (fs : filesystem) (filepath : string) (raw : DataFrame)
         (printed : list message) (out : DataFrame),
    fs filepath = Some (CsvFile raw) ->
    process_rainfall_data fs filepath = (printed, Returned (Some out)) ->
    Permutation
      (flat_map (fun o => rows_of (rows raw) (stored_key o)) (rows out))
      (filter dated (rows raw))
    /\ Forall (fun o => rows_of (rows raw) (stored_key o) <> []) (rows out)
    /\ (len out <= List.length (filter dated (rows raw)))%nat.
Proof.
  intros fs filepath raw printed out Hfile Hrun.
  destruct (rain_output_keys fs filepath raw printed out Hfile Hrun) as [Hnd Hhas].
  assert (Hflat : forall outs,
            flat_map (fun o => rows_of (rows raw) (stored_key o)) outs =
              flat_map (rows_of (filter dated (rows raw))) (map stored_key outs)).
  { induction outs as [|o outs IH]; [reflexivity|].
    cbn [flat_map map]. rewrite IH, rows_of_dated. reflexivity. }
  assert (Hsplit : Permutation
                     (flat_map (rows_of (filter dated (rows raw)))
                        (map stored_key (rows out)))
                     (filter dated (rows raw))).
  { apply rows_split_by_keys; [exact Hnd|].
    intros r Hr. apply filter_In in Hr. destruct Hr as [Hin Hd].
    destruct (dated_rain_key r Hd) as [k Hk]. exists k. split; [exact Hk|].
    apply Hhas. exists r. auto. }
  assert (Hsome : forall k, In k (map stored_key (rows out)) ->
                            rows_of (rows raw) k <> []).
  { intros k Hk. apply Hhas in Hk. destruct Hk as [r [Hin Hk]].
    assert (Hr : In r (rows_of (rows raw) k)).
    { apply filter_In. split; [exact Hin|]. rewrite Hk. apply key_eqb_refl. }
    intros E. rewrite E in Hr. exact Hr. }
  split; [rewrite Hflat; exact Hsplit|]. split.
  - apply Forall_forall. intros o Ho. apply Hsome. apply in_map. exact Ho.
  - unfold len. rewrite <- (Permutation_length Hsplit).
    rewrite <- (length_map stored_key (rows out)).
    apply length_flat_map_nonempty. intros k Hk.
    rewrite rows_of_dated. exact (Hsome k Hk).
Qed.


(** X15.  [main] prints that the build failed exactly when it ends
    normally with at least one of the two raw files missing.  A file that
    is there but cannot be cleaned makes [main] raise instead: when the
    cleaning of the crop file raises, the rainfall file is not even
    read, and nothing is printed after the messages of the crop
    cleaning. *)
Theorem X15_build_failed_is_printed_for_missing_files_only :
  forall (fs : filesystem),
    (In BuildFailed (snd (fst (main fs))) <->
     snd (main fs) = Returned tt /\ (fs CROP_FILE = None \/ fs RAIN_FILE = None))
    /\ (snd (process_crop_data fs CROP_FILE) = Raised ->
        main fs = (fs, fst (process_crop_data fs CROP_FILE), Raised))
    /\ (forall raw, fs CROP_FILE = Some (CsvFile raw) -> crop_ready raw = false ->
        main fs = (fs, fst (process_crop_data fs CROP_FILE), Raised)).
Proof.
  intros fs.
  assert (Hraise : snd (process_crop_data fs CROP_FILE) = Raised ->
                   main fs = (fs, fst (process_crop_data fs CROP_FILE), Raised)).
  { unfold main. destruct (process_crop_data fs CROP_FILE) as [printed1 [c|]];
      cbn [fst snd]; [discriminate | reflexivity]. }
  split; [|split; [exact Hraise|]].
  2:{ intros raw Hfile Hready. apply Hraise.
      exact (process_crop_data_raises fs CROP_FILE raw Hfile Hready). }
  clear Hraise.
  pose proof (process_crop_data_prints fs CROP_FILE) as Hp1.
  pose proof (process_rainfall_data_prints fs RAIN_FILE) as Hp2.
  pose proof (process_crop_data_none fs CROP_FILE) as Hn1.
  pose proof (process_rainfall_data_none fs RAIN_FILE) as Hn2.
  pose proof (process_crop_data_file fs CROP_FILE) as Hf1.
  pose proof (process_rainfall_data_file fs RAIN_FILE) as Hf2.
  unfold main.
  destruct (process_crop_data fs CROP_FILE) as [printed1 [c|]]; cbn [fst snd] in *.
  2:{ split; [|intros [Hr _]; discriminate].
      intros Hin. rewrite Forall_forall in Hp1. exact (match Hp1 _ Hin with end). }
  destruct (process_rainfall_data fs RAIN_FILE) as [printed2 [r|]]; cbn [fst snd] in *.
  2:{ split; [|intros [Hr _]; discriminate].
      intros Hin. apply in_app_or in Hin. rewrite Forall_forall in Hp1, Hp2.
      destruct Hin as [Hin|Hin];
        [exact (match Hp1 _ Hin with end) | exact (match Hp2 _ Hin with end)]. }
  assert (Hquiet : ~ In BuildFailed (printed1 ++ printed2)).
  { intros Hin. apply in_app_or in Hin. rewrite Forall_forall in Hp1, Hp2.
    destruct Hin as [Hin|Hin];
      [exact (match Hp1 _ Hin with end) | exact (match Hp2 _ Hin with end)]. }
  destruct c as [dc|], r as [dr|].
  - destruct (Hf1 _ _ eq_refl) as [raw1 Hraw1].
    destruct (Hf2 _ _ eq_refl) as [raw2 Hraw2].
    split.
    + intros Hin. exfalso.
      destruct (exists_ fs DB_FILE);
        destruct (to_sql "agriculture_production" dc []) as [db|];
        try destruct (to_sql "climate_rainfall" dr db) as [db'|];
        cbn [fst snd] in Hin;
        repeat (apply in_app_or in Hin; destruct Hin as [Hin|Hin];
                [|destruct Hin as [Hin|[]]; discriminate]);
        exact (Hquiet Hin).
    + intros [_ [Hnone|Hnone]]; congruence.
  - cbn [fst snd]. split; [intros _|intros _; apply in_or_app; right; left; reflexivity].
    split; [reflexivity|]. right. exact (Hn2 _ eq_refl).
  - cbn [fst snd]. split; [intros _|intros _; apply in_or_app; right; left; reflexivity].
    split; [reflexivity|]. left. exact (Hn1 _ eq_refl).
  - cbn [fst snd]. split; [intros _|intros _; apply in_or_app; right; left; reflexivity].
    split; [reflexivity|]. left. exact (Hn1 _ eq_refl).
Qed.

End MoreTransformerProperties.

Module MoreTableSamples.
Import Http Pandas DbCreator TableFacts TableSamples.
#[local] Existing Instance plain_decimals.


(** The two tables the cleaning makes of them. *)
Definition crop_clean_example : DataFrame :=
  {| columns := crop_final_cols;
     rows := [@crop_stored plain_decimals
                (crop_row " Punjab " (Q2Qc 2005) (Num (Q2Qc (1234 # 10))))] |}.

Definition rain_clean_example : DataFrame :=
  {| columns := RowFacts.rain_final_cols;
     rows := [rain_stored ([Str "Goa"; Str "Panaji"; Num (Q2Qc 2019)], Num (Q2Qc 100))] |}.

(** A crop file without a production column. *)
Definition crop_without_production : DataFrame :=
  {| columns := ["state_name"; "district_name"; "crop_year"; "season"; "crop"; "area_"];
     rows := [] |}.

(** What the cleaning makes of the rainfall table with a row without a
    year. *)
Definition rain_dated_example : DataFrame :=
  {| columns := RowFacts.rain_final_cols;
     rows := [rain_stored ([Str "Goa"; Str "Panaji"; Num (Q2Qc 2019)], Num (Q2Qc 5))] |}.

(** A second stand-in for the library, with the two infinities among its
    numbers: the literals ["inf"] and ["-inf"] read as them, a sum that
    meets one of them is that infinity, and a sum that meets both is
    NaN. *)
Inductive extended :=
| Finite (q : Qc)
| PlusInf
| MinusInf.

Definition extended_eqb (x y : extended) : bool :=
  match x, y with
  | Finite p, Finite q => Qc_eqb p q
  | PlusInf, PlusInf => true
  | MinusInf, MinusInf => true
  | _, _ => false
  end.

Lemma extended_eqb_eq (x y : extended) : extended_eqb x y = true <-> x = y.
Proof.
  destruct x as [p| |], y as [q| |]; cbn [extended_eqb];
    try (split; [discriminate | intros E; inversion E]);
    try (split; reflexivity).
  rewrite Qc_eqb_eq. split; [intros ->; reflexivity | intros E; inversion E; reflexivity].
Qed.

Definition extended_leb (x y : extended) : bool :=
  match x, y with
  | MinusInf, _ => true
  | _, PlusInf => true
  | Finite p, Finite q => Qc_leb p q
  | _, _ => false
  end.

Definition parse_extended (s : string) : option extended :=
  if String.eqb s "inf" then Some PlusInf
  else if String.eqb s "-inf" then Some MinusInf
  else option_map Finite (parse_decimal s).

Definition print_extended (x : extended) : string :=
  match x with
  | Finite q => print_fraction q
  | PlusInf => "inf"
  | MinusInf => "-inf"
  end.

Definition sum_extended (xs : list extended) : option extended :=
  let finite :=
    fold_right (fun x acc => match x with Finite q => (q + acc)%Qc | _ => acc end)
      (Q2Qc 0) xs in
  let plus := existsb (fun x => match x with PlusInf => true | _ => false end) xs in
  let minus := existsb (fun x => match x with MinusInf => true | _ => false end) xs in
  if plus then (if minus then None else Some PlusInf)
  else if minus then Some MinusInf
  else Some (Finite finite).

Definition with_infinities : Conversions :=
  {| number := extended;
     number_eqb := extended_eqb;
     number_eqb_eq := extended_eqb_eq;
     number_leb := extended_leb;
     zero := Finite (Q2Qc 0);
     parse_number := parse_extended;
     str_of_number := print_extended;
     sum_numbers := sum_extended |}.

(** Two daily rows of one key, with the one and the other infinity. *)
Definition infinite_row (rainfall : string) : @row with_infinities :=
  [ ("State", @Str with_infinities "Goa"); ("District", @Str with_infinities "Panaji");
    ("Year", @Num with_infinities (Finite (Q2Qc 2019)));
    ("Avg_rainfall", @Str with_infinities rainfall) ].

Definition rain_both_infinities : @DataFrame with_infinities :=
  @mkDataFrame with_infinities rain_columns [infinite_row "inf"; infinite_row "-inf"].

Definition holding (df : @DataFrame with_infinities) : @filesystem with_infinities :=
  fun p => if String.eqb p RAIN_FILE then Some (@CsvFile with_infinities df) else None.

End MoreTableSamples.

Section MoreTransformerExamples.
Import Http Pandas DbCreator TableFacts TableSamples RowFacts MoreTableSamples.
Local Existing Instance plain_decimals.

Lemma X11_witness :
  only CROP_FILE crop_example CROP_FILE = Some (CsvFile crop_example)
  /\ @process_crop_data plain_decimals (only CROP_FILE crop_example) CROP_FILE =
       ([Processing 2 CROP_FILE; Dropped 1; Complete 1],
        Returned (Some crop_clean_example))
  /\ get (@crop_stored plain_decimals
            (crop_row " Punjab " (Q2Qc 2005) (Num (Q2Qc (1234 # 10)))))
         "source_url" = Str CROP_API_URL.
Proof.
  assert (Hrun : @process_crop_data plain_decimals (only CROP_FILE crop_example) CROP_FILE =
                 ([Processing 2 CROP_FILE; Dropped 1; Complete 1],
                  Returned (Some crop_clean_example)))
    by reflexivity.
  split; [reflexivity|]. split; [exact Hrun|].
  pose proof (@X11_stored_crop_rows_column_by_column plain_decimals
                (only CROP_FILE crop_example) CROP_FILE crop_example _ _
                eq_refl Hrun) as Hall.
  apply Forall_inv in Hall. destruct Hall as [r [_ [_ [_ [_ [_ [Hurl _]]]]]]].
  exact Hurl.
Defined.

Lemma X12_witness :
  only RAIN_FILE rain_example RAIN_FILE = Some (CsvFile rain_example)
  /\ @process_rainfall_data plain_decimals (only RAIN_FILE rain_example) RAIN_FILE =
       ([Processing 2 RAIN_FILE; Aggregating; Complete 1],
        Returned (Some rain_clean_example))
  /\ columns rain_clean_example = rain_final_cols.
Proof.
  assert (Hrun : @process_rainfall_data plain_decimals (only RAIN_FILE rain_example)
                   RAIN_FILE =
                 ([Processing 2 RAIN_FILE; Aggregating; Complete 1],
                  Returned (Some rain_clean_example)))
    by reflexivity.
  split; [reflexivity|]. split; [exact Hrun|].
  exact (proj1 (@X12_stored_rainfall_rows plain_decimals
                  (only RAIN_FILE rain_example) RAIN_FILE rain_example _ _
                  eq_refl Hrun)).
Defined.

Lemma X13_witness :
  only RAIN_FILE rain_without_year RAIN_FILE = Some (CsvFile rain_without_year)
  /\ @process_rainfall_data plain_decimals (only RAIN_FILE rain_without_year) RAIN_FILE =
       ([Processing 2 RAIN_FILE; Aggregating; Complete 1],
        Returned (Some rain_dated_example))
  /\ Permutation
       (flat_map (fun o => rows_of (rows rain_without_year) (stored_key o))
          (rows rain_dated_example))
       (filter dated (rows rain_without_year))
  /\ Forall (fun o => rows_of (rows rain_without_year) (stored_key o) <> [])
       (rows rain_dated_example)
  /\ (len rain_dated_example <= List.length (filter dated (rows rain_without_year)))%nat.
Proof.
  assert (Hrun : @process_rainfall_data plain_decimals (only RAIN_FILE rain_without_year)
                   RAIN_FILE =
                 ([Processing 2 RAIN_FILE; Aggregating; Complete 1],
                  Returned (Some rain_dated_example)))
    by reflexivity.
  split; [reflexivity|]. split; [exact Hrun|].
  exact (@X13_every_dated_row_is_summed_once plain_decimals
           (only RAIN_FILE rain_without_year) RAIN_FILE rain_without_year _ _
           eq_refl Hrun).
Defined.

(** The annual figure of a key can be missing: with a library that reads
    the two infinities, the sum of a group that holds both is NaN. *)
Lemma annual_rainfall_can_be_missing :
  @process_rainfall_data with_infinities (holding rain_both_infinities) RAIN_FILE =
    ([Processing 2 RAIN_FILE; Aggregating; Complete 1],
     Returned
       (Some (@mkDataFrame with_infinities rain_final_cols
                [@rain_stored with_infinities
                   ([@Str with_infinities "Goa"; @Str with_infinities "Panaji";
                     @Num with_infinities (Finite (Q2Qc 2019))],
                    @NaN with_infinities)]))).
Proof. reflexivity. Qed.


Lemma X15_witness :
  In BuildFailed (snd (fst (@main plain_decimals (only RAIN_FILE rain_example))))
  /\ crop_ready crop_without_production = false
  /\ @main plain_decimals (only CROP_FILE crop_without_production) =
       (only CROP_FILE crop_without_production,
        fst (@process_crop_data plain_decimals
               (only CROP_FILE crop_without_production) CROP_FILE),
        Raised).
Proof.
  split; [|split; [reflexivity|]].
  - exact (proj2 (proj1 (@X15_build_failed_is_printed_for_missing_files_only
                           plain_decimals (only RAIN_FILE rain_example)))
             (conj eq_refl (or_introl eq_refl))).
  - exact (proj2 (proj2 (@X15_build_failed_is_printed_for_missing_files_only
                           plain_decimals (only CROP_FILE crop_without_production)))
             crop_without_production eq_refl eq_refl).
Defined.

End MoreTransformerExamples.

(* ================================================================== *)
(** * app.py: reading the answer of the agent *)
(* ================================================================== *)

Module App.
Import Http.

(** A decoded JSON document. *)
#[warnings="-register-all"] Inductive pyjson :=
| JNull
| JBool (b : bool)
| JNumber (literal : string)
| JStr (s : string)
| JArray (items : list pyjson)
| JObject (members : list (string * pyjson)).

(** [str.find(c)] for a single character: the index of its first
    occurrence, or -1. *)
Fixpoint find_in (c : ascii) (s : list ascii) : Z :=
  match s with
  | [] => -1
  | a :: s' =>
      if Ascii.eqb a c then 0
      else let i := find_in c s' in if i =? -1 then -1 else i + 1
  end.

(** [str.rfind(c)]: the index of its last occurrence, or -1. *)
Fixpoint rfind_in (c : ascii) (s : list ascii) : Z :=
  match s with
  | [] => -1
  | a :: s' =>
      let i := rfind_in c s' in
      if i =? -1 then (if Ascii.eqb a c then 0 else -1) else i + 1
  end.

(** [s[start:stop]]: a negative index counts from the end, and every
    index is clipped to the string. *)
Definition slice_of (s : list ascii) (start stop : Z) : list ascii :=
  let n := Z.of_nat (List.length s) in
  let clip i := if i <? 0 then Z.max 0 (i + n) else Z.min i n in
  firstn (Z.to_nat (clip stop - clip start)) (skipn (Z.to_nat (clip start)) s).

Definition find (s : string) (c : ascii) : Z := find_in c (list_ascii_of_string s).
Definition rfind (s : string) (c : ascii) : Z := rfind_in c (list_ascii_of_string s).
Definition slice (s : string) (start stop : Z) : string :=
  string_of_list_ascii (slice_of (list_ascii_of_string s) start stop).

(** [dict.get(key, default)]. *)
Fixpoint get (data : list (string * pyjson)) (key : string) (default : pyjson) : pyjson :=
  match data with
  | [] => default
  | (k, v) :: data' => if String.eqb k key then v else get data' key default
  end.

(** The block of [main] that turns the text of the agent into the answer
    and its sources (the statements from [final_answer = ...] to the end
    of the inner [try]).  [json_loads] is [json.loads], [None] standing
    for [JSONDecodeError]; [Raised] is an exception that leaves the block
    for the handler of the outer [try]. *)
Definition parse_answer (json_loads : string -> option pyjson) (output_str : string)
  : outcome (pyjson * pyjson) :=
  let json_start := find output_str "{" in
  let json_end := rfind output_str "}" + 1 in
  if negb (json_start =? -1) && negb (json_end =? -1) then
    let clean_json_str := slice output_str json_start json_end in
    match json_loads clean_json_str with
    | Some (JObject data) =>
        Returned
          (get data "answer"
             (JStr "Sorry, I couldn't find an answer in the expected format."),
           get data "sources" (JArray []))
    | Some _ => Raised
    | None => Returned (JStr output_str, JArray [])
    end
  else
    Returned
      (JStr ("Error: Agent returned invalid/incomplete JSON. (Raw response: "
             ++ output_str ++ ")"),
       JArray []).

End App.

Module AppFacts.
Import Http App.

Lemma find_in_range c s : -1 <= find_in c s < Z.of_nat (List.length s).
Proof.
  induction s as [|a s IH]; cbn [find_in List.length]; [lia|].
  destruct (Ascii.eqb a c); [lia|].
  destruct (find_in c s =? -1) eqn:E; lia.
Qed.

Lemma rfind_in_range c s : -1 <= rfind_in c s < Z.of_nat (List.length s).
Proof.
  induction s as [|a s IH]; cbn [rfind_in List.length]; [lia|].
  destruct (rfind_in c s =? -1) eqn:E; [|lia].
  destruct (Ascii.eqb a c); lia.
Qed.

Lemma find_in_none c s : find_in c s = -1 <-> ~ In c s.
Proof.
  induction s as [|a s IH]; cbn [find_in In]; [tauto|].
  destruct (Ascii.eqb_spec a c) as [->|Hne].
  - split; [discriminate | tauto].
  - pose proof (find_in_range c s).
    destruct (find_in c s =? -1) eqn:E.
    + apply Z.eqb_eq in E. split; [|reflexivity]. intros _. tauto.
    + apply Z.eqb_neq in E. split; [lia|]. intros Hn. exfalso. apply E, IH. tauto.
Qed.

Lemma rfind_in_none c s : rfind_in c s = -1 <-> ~ In c s.
Proof.
  induction s as [|a s IH]; cbn [rfind_in In]; [tauto|].
  pose proof (rfind_in_range c s).
  destruct (rfind_in c s =? -1) eqn:E.
  - apply Z.eqb_eq in E. destruct (Ascii.eqb_spec a c) as [->|Hne].
    + split; [discriminate | tauto].
    + split; [|reflexivity]. intros _. tauto.
  - apply Z.eqb_neq in E. split; [lia|]. intros Hn. exfalso. apply E, IH. tauto.
Qed.

(** The first occurrence: nothing of the kind before it. *)
Lemma find_in_first c pre rest :
  ~ In c pre -> find_in c (pre ++ c :: rest) = Z.of_nat (List.length pre).
Proof.
  induction pre as [|a pre IH]; intros Hn; cbn [find_in app List.length].
  - rewrite Ascii.eqb_refl. reflexivity.
  - destruct (Ascii.eqb_spec a c) as [->|Hne]; [exfalso; apply Hn; left; reflexivity|].
    rewrite IH by (intros Hin; apply Hn; right; exact Hin).
    destruct (_ =? -1) eqn:E; [apply Z.eqb_eq in E|]; lia.
Qed.

Lemma find_in_split (c : ascii) (s : list ascii) :
  In c s -> exists pre rest, s = pre ++ c :: rest /\ ~ In c pre.
Proof.
  induction s as [|a s IH]; [contradiction|]. intros Hin.
  destruct (Ascii.eqb_spec a c) as [->|Hne].
  - exists [], s. split; [reflexivity | tauto].
  - destruct Hin as [Hin|Hin]; [contradiction|].
    destruct (IH Hin) as [pre [rest [-> Hn]]].
    exists (a :: pre), rest. split; [reflexivity|].
    intros [Ha|Hp]; [contradiction | exact (Hn Hp)].
Qed.

(** The last occurrence across a split. *)
Lemma rfind_in_app c pre t :
  rfind_in c (pre ++ t) =
    if rfind_in c t =? -1 then rfind_in c pre
    else Z.of_nat (List.length pre) + rfind_in c t.
Proof.
  induction pre as [|a pre IH]; cbn [rfind_in app List.length].
  - destruct (rfind_in c t =? -1) eqn:E; [apply Z.eqb_eq in E; exact E | lia].
  - rewrite IH. pose proof (rfind_in_range c t). pose proof (rfind_in_range c pre).
    destruct (rfind_in c t =? -1) eqn:E; [reflexivity|].
    apply Z.eqb_neq in E.
    destruct (_ =? -1) eqn:E2; [apply Z.eqb_eq in E2|]; lia.
Qed.

Lemma rfind_in_last c mid post :
  ~ In c post -> rfind_in c (mid ++ c :: post) = Z.of_nat (List.length mid).
Proof.
  intros Hn. rewrite rfind_in_app. cbn [rfind_in].
  apply rfind_in_none in Hn. rewrite Hn, Z.eqb_refl, Ascii.eqb_refl.
  change (0 =? -1) with false. cbv iota. lia.
Qed.

Lemma rfind_in_split (c : ascii) (s : list ascii) :
  In c s -> exists mid post, s = mid ++ c :: post /\ ~ In c post.
Proof.
  intros Hin. apply in_rev in Hin.
  destruct (find_in_split c (rev s) Hin) as [pre [rest [E Hn]]].
  exists (rev rest), (rev pre). split.
  - rewrite <- (rev_involutive s), E, rev_app_distr. cbn [rev].
    rewrite <- app_assoc. reflexivity.
  - intros Hp. apply Hn. apply in_rev. exact Hp.
Qed.

Lemma slice_of_between s a b :
  0 <= a <= Z.of_nat (List.length s) -> 0 <= b <= Z.of_nat (List.length s) ->
  slice_of s a b = firstn (Z.to_nat (b - a)) (skipn (Z.to_nat a) s).
Proof.
  intros Ha Hb. unfold slice_of.
  destruct (Z.ltb_spec a 0); [lia|]. destruct (Z.ltb_spec b 0); [lia|].
  rewrite !Z.min_l by lia. reflexivity.
Qed.

Lemma skipn_length_app {A} (pre t : list A) :
  skipn (Z.to_nat (Z.of_nat (List.length pre))) (pre ++ t) = t.
Proof.
  rewrite Nat2Z.id, skipn_app, skipn_all, Nat.sub_diag. reflexivity.
Qed.

End AppFacts.

Module AppSamples.
Import App.

(** A stand-in for [json.loads] that knows one document. *)
Definition loads_empty_object (s : string) : option pyjson :=
  if String.eqb s "{}" then Some (JObject []) else None.

End AppSamples.

Section AppProperties.
Import Http App AppFacts.
Variable json_loads : string -> option pyjson.

Lemma rfind_end_not_minus_one (output_str : string) : 0 <= rfind output_str "}" + 1.
Proof.
  pose proof (rfind_in_range "}" (list_ascii_of_string output_str)) as Hr.
  fold (rfind output_str "}") in Hr. lia.
Qed.

Lemma parse_answer_with_brace (output_str : string) :
  In "{"%char (list_ascii_of_string output_str) ->
  parse_answer json_loads output_str =
    match json_loads (slice output_str (find output_str "{")
                        (rfind output_str "}" + 1)) with
    | Some (JObject data) =>
        Returned
          (get data "answer"
             (JStr "Sorry, I couldn't find an answer in the expected format."),
           get data "sources" (JArray []))
    | Some _ => Raised
    | None => Returned (JStr output_str, JArray [])
    end.
Proof.
  intros Hin. unfold parse_answer.
  pose proof (rfind_end_not_minus_one output_str) as Hr.
  assert (Hend : (rfind output_str "}" + 1 =? -1) = false) by (apply Z.eqb_neq; lia).
  rewrite Hend.
  destruct (find output_str "{" =? -1) eqn:E; [|reflexivity].
  apply Z.eqb_eq in E. apply find_in_none in E. contradiction.
Qed.

(** X16.  In the block of [app.py] that reads the answer of the agent, the
    second test of the guard never fails: [rfind('}') + 1] is at least 0,
    never -1.  So the branch is decided by the opening brace alone.
    Without one the block answers with the invalid-JSON message that
    quotes the raw text and has no sources; with one, [json.loads] is
    always called on the slice, and the block returns the raw text with no
    sources when it fails to decode, the answer and the sources of the
    object when it decodes to one, and raises when it decodes to anything
    else. *)
Theorem X16_answer_block_is_decided_by_the_opening_brace :
  forall (output_str : string),
    0 <= rfind output_str "}" + 1
    /\ (~ In "{"%char (list_ascii_of_string output_str) ->
        parse_answer json_loads output_str =
          Returned
            (JStr ("Error: Agent returned invalid/incomplete JSON. (Raw response: "
                   ++ output_str ++ ")"),
             JArray []))
    /\ (In "{"%char (list_ascii_of_string output_str) ->
        parse_answer json_loads output_str =
          match json_loads (slice output_str (find output_str "{")
                              (rfind output_str "}" + 1)) with
          | Some (JObject data) =>
              Returned
                (get data "answer"
                   (JStr "Sorry, I couldn't find an answer in the expected format."),
                 get data "sources" (JArray []))
          | Some _ => Raised
          | None => Returned (JStr output_str, JArray [])
          end).
Proof.
  intros output_str.
  split; [exact (rfind_end_not_minus_one output_str)|]. split.
  - intros Hn. unfold parse_answer.
    apply find_in_none in Hn. fold (find output_str "{") in Hn.
    rewrite Hn. reflexivity.
  - exact (parse_answer_with_brace output_str).
Qed.

(** X17.  What the block hands to [json.loads], for a text whose first
    opening brace comes after [pre]: when a closing brace follows it, the
    text from that opening brace to the last closing brace, both
    included; when none follows it, even if one comes before, the empty
    string, and then a failing decoder makes the block answer with the
    raw text. *)
Theorem X17_text_handed_to_json_loads :
  forall (output_str : string) (pre rest : list ascii),
    list_ascii_of_string output_str = pre ++ "{"%char :: rest ->
    ~ In "{"%char pre ->
    let clean_json_str :=
      slice output_str (find output_str "{") (rfind output_str "}" + 1) in
    (forall mid post,
       rest = mid ++ "}"%char :: post -> ~ In "}"%char post ->
       list_ascii_of_string clean_json_str = "{"%char :: mid ++ ["}"%char])
    /\ (~ In "}"%char rest ->
        clean_json_str = ""%string
        /\ (json_loads "" = None ->
            parse_answer json_loads output_str = Returned (JStr output_str, JArray []))).
Proof.
  intros output_str pre rest Hs Hpre clean_json_str.
  assert (Hfind : find output_str "{" = Z.of_nat (List.length pre)).
  { unfold find. rewrite Hs. apply find_in_first. exact Hpre. }
  assert (Hlen : Z.of_nat (List.length (list_ascii_of_string output_str)) =
                 Z.of_nat (List.length pre) + 1 + Z.of_nat (List.length rest)).
  { rewrite Hs, length_app. cbn [List.length]. lia. }
  split.
  - intros mid post Hrest Hpost.
    assert (Hrfind : rfind output_str "}" =
                     Z.of_nat (List.length pre) + 1 + Z.of_nat (List.length mid)).
    { unfold rfind. rewrite Hs, Hrest.
      replace (pre ++ "{"%char :: mid ++ "}"%char :: post)
        with ((pre ++ "{"%char :: mid) ++ "}"%char :: post)
        by (rewrite <- app_assoc; reflexivity).
      rewrite (rfind_in_last _ _ _ Hpost), length_app. cbn [List.length]. lia. }
    unfold clean_json_str, slice.
    rewrite list_ascii_of_string_of_list_ascii, Hfind, Hrfind.
    assert (Hrl : Z.of_nat (List.length rest) =
                  Z.of_nat (List.length mid) + 1 + Z.of_nat (List.length post)).
    { rewrite Hrest, length_app. cbn [List.length]. lia. }
    rewrite slice_of_between by lia.
    rewrite Hs, skipn_length_app, Hrest.
    replace (Z.to_nat (Z.of_nat (List.length pre) + 1 + Z.of_nat (List.length mid) + 1
                       - Z.of_nat (List.length pre)))
      with (S (List.length mid + 1)) by lia.
    cbn [firstn]. f_equal.
    replace (mid ++ "}"%char :: post) with ((mid ++ ["}"%char]) ++ post)
      by (rewrite <- app_assoc; reflexivity).
    rewrite firstn_app, length_app. cbn [List.length].
    rewrite Nat.sub_diag, firstn_O, app_nil_r.
    apply firstn_all2. rewrite length_app. cbn [List.length]. lia.
  - intros Hrest.
    assert (Hclean : clean_json_str = ""%string).
    { pose proof (rfind_in_range "}" pre) as Hr.
      assert (Hrfind : rfind output_str "}" = rfind_in "}" pre).
      { unfold rfind. rewrite Hs, rfind_in_app. cbn [rfind_in].
        apply rfind_in_none in Hrest. rewrite Hrest. reflexivity. }
      unfold clean_json_str, slice. rewrite Hfind, Hrfind.
      rewrite slice_of_between by lia.
      replace (Z.to_nat (rfind_in "}" pre + 1 - Z.of_nat (List.length pre)))
        with 0%nat by lia.
      reflexivity. }
    split; [exact Hclean|]. intros Hloads.
    rewrite parse_answer_with_brace
      by (rewrite Hs; apply in_or_app; right; left; reflexivity).
    fold clean_json_str. rewrite Hclean, Hloads. reflexivity.
Qed.

End AppProperties.

Section AppExamples.
Import Http App AppFacts AppSamples.

Lemma X16_witness :
  ~ In "{"%char (list_ascii_of_string "no answer")
  /\ parse_answer loads_empty_object "no answer" =
       Returned
         (JStr "Error: Agent returned invalid/incomplete JSON. (Raw response: no answer)",
          JArray []).
Proof.
  assert (Hn : ~ In "{"%char (list_ascii_of_string "no answer")).
  { apply find_in_none. reflexivity. }
  split; [exact Hn|].
  exact (proj1 (proj2 (X16_answer_block_is_decided_by_the_opening_brace
                         loads_empty_object "no answer")) Hn).
Defined.

Lemma X17_witness :
  list_ascii_of_string "} then {" = list_ascii_of_string "} then " ++ ["{"%char]
  /\ slice "} then {" (find "} then {" "{") (rfind "} then {" "}" + 1) = ""%string
  /\ parse_answer loads_empty_object "} then {" = Returned (JStr "} then {", JArray []).
Proof.
  assert (Hpre : ~ In "{"%char (list_ascii_of_string "} then "))
    by (apply find_in_none; reflexivity).
  assert (Hrest : ~ In "}"%char []) by (intros []).
  destruct (proj2 (X17_text_handed_to_json_loads loads_empty_object "} then {"
                     (list_ascii_of_string "} then ") [] eq_refl Hpre) Hrest)
    as [Hclean Hraw].
  split; [reflexivity|]. split; [exact Hclean | exact (Hraw eq_refl)].
Defined.

End AppExamples.

(* ================================================================== *)
(** * The two copies of the fetch loop *)
(* ================================================================== *)

Module TwoLoops.
Import Http.

(** The request [rainfall.py] sends where [crop_data.py] sends [req]: the
    same resource, limit and offset, under the other key and with the
    filters of the query. *)
Definition with_query (query_filters : list (string * string)) (req : request)
  : request :=
  {| resource_id := resource_id req; api_key := Rainfall.API_KEY;
     filters := query_filters; limit := limit req; offset := offset req |}.

Definition relabel (query_filters : list (string * string)) (e : event) : event :=
  match e with
  | Get r => Get (with_query query_filters r)
  | _ => e
  end.

(** A result of [fetch_all_data] read as one of [fetch_paginated_data]. *)
Definition as_rainfall (query_filters : list (string * string))
    (x : option (outcome (list record) * nat * list event))
  : option (outcome Rainfall.fetched * nat * list event) :=
  match x with
  | None => None
  | Some (r, t, tr) =>
      Some (match r with
            | Returned all_records => Returned (Rainfall.Records all_records)
            | Raised => Raised
            end,
            t, map (relabel query_filters) tr)
  end.

(** No good response has the string ["FATAL_ERROR"] for its body. *)
Definition never_says_fatal (srv : server) : Prop :=
  forall t req code,
    raises_for_status code = false ->
    srv t req <> Response code (JString "FATAL_ERROR").

Definition as_attempt (a : CropData.attempt) : Rainfall.attempt :=
  match a with
  | CropData.Got data => Rainfall.Got data
  | CropData.GaveUp => Rainfall.GaveUp
  end.

Lemma retry_loops_agree (srv : server) qf resource offset : forall retries t,
  Rainfall.retry_loop srv (Rainfall.params resource qf offset) retries t =
    (let '(a, t', tr) :=
       CropData.retry_loop (fun t req => srv t (with_query qf req))
         (CropData.params resource offset) retries t in
     (as_attempt a, t', map (relabel qf) tr)).
Proof.
  induction retries as [|n IH]; intros t;
    cbn [Rainfall.retry_loop CropData.retry_loop]; [reflexivity|].
  change (with_query qf (CropData.params resource offset))
    with (Rainfall.params resource qf offset).
  destruct (srv t (Rainfall.params resource qf offset)) as [code body|].
  - destruct (raises_for_status code); [|reflexivity].
    rewrite FetchFacts.forbidden_is_dead, IH.
    destruct (CropData.retry_loop _ _ n (S t)) as [[a t'] tr]. reflexivity.
  - rewrite FetchFacts.forbidden_is_dead, IH.
    destruct (CropData.retry_loop _ _ n (S t)) as [[a t'] tr]. reflexivity.
Qed.

(** The body the crop retry loop hands on came with a good response. *)
Lemma crop_retry_loop_got (srv : server) req : forall retries t data t' tr,
  CropData.retry_loop srv req retries t = (CropData.Got data, t', tr) ->
  exists t0 code, srv t0 req = Response code data /\ raises_for_status code = false.
Proof.
  induction retries as [|n IH]; intros t data t' tr H; cbn [CropData.retry_loop] in H;
    [discriminate|].
  destruct (srv t req) as [code body|] eqn:E.
  - destruct (raises_for_status code) eqn:Hc.
    + destruct (CropData.retry_loop srv req n (S t)) as [[a t1] tr1] eqn:E1.
      inversion H; subst. exact (IH _ _ _ _ E1).
    + inversion H; subst. eauto.
  - destruct (CropData.retry_loop srv req n (S t)) as [[a t1] tr1] eqn:E1.
    inversion H; subst. exact (IH _ _ _ _ E1).
Qed.

End TwoLoops.

Section TwoLoopsProperties.
Import Http TwoLoops.

(** X18.  The fetch loop of [rainfall.py] is the one of [crop_data.py]
    with the other key and the filters of the query: as long as no good
    response has the string ["FATAL_ERROR"] for its body, both make the
    same calls at the same offsets, sleep and append alike, and end alike,
    for every server and whatever the status codes.  The 403 test of
    [rainfall.py] makes no difference to any run. *)
Theorem X18_rainfall_fetch_is_the_crop_fetch_with_filters :
  forall (srv : server) (query_filters : list (string * string)),
    never_says_fatal srv ->
    forall resource fuel t,
      Rainfall.fetch_paginated_data srv resource query_filters fuel t =
        as_rainfall query_filters
          (CropData.fetch_all_data (fun t req => srv t (with_query query_filters req))
             resource fuel t).
Proof.
  intros srv qf Hnever resource fuel.
  unfold Rainfall.fetch_paginated_data, CropData.fetch_all_data.
  assert (Hloop : forall all_records offset t,
            Rainfall.fetch_loop srv resource qf fuel offset all_records t =
              as_rainfall qf
                (CropData.fetch_loop (fun t req => srv t (with_query qf req))
                   resource fuel offset all_records t));
    [|intros t; apply Hloop].
  induction fuel as [|fuel IH]; intros all_records offset t; [reflexivity|].
  cbn [Rainfall.fetch_loop CropData.fetch_loop].
  rewrite retry_loops_agree.
  change Rainfall.max_retries with CropData.max_retries.
  destruct (CropData.retry_loop _ (CropData.params resource offset) CropData.max_retries t)
    as [[a t1] tr] eqn:Hretry.
  destruct a as [data|]; cbn [as_attempt as_rainfall]; [|reflexivity].
  destruct (crop_retry_loop_got _ _ _ _ _ _ _ Hretry) as [t0 [code [Hsrv Hcode]]].
  assert (Hdata : json_is_string data "FATAL_ERROR" = false).
  { destruct data as [records|s|]; try reflexivity. cbn [json_is_string].
    destruct (String.eqb_spec s "FATAL_ERROR") as [->|]; [|reflexivity].
    exfalso. exact (Hnever _ _ _ Hcode Hsrv). }
  rewrite Hdata.
  destruct (get_records data) as [[|r records]|]; try reflexivity.
  change Rainfall.limit with CropData.limit.
  destruct (Z.of_nat (List.length (r :: records)) <? CropData.limit).
  - cbn [as_rainfall]. rewrite map_app. reflexivity.
  - rewrite IH.
    destruct (CropData.fetch_loop _ resource fuel (offset + CropData.limit)
                (all_records ++ r :: records) t1) as [[[r2 t2] tr2]|];
      [|reflexivity].
    cbn [as_rainfall]. rewrite !map_app. reflexivity.
Qed.

Lemma X18_witness :
  never_says_fatal (Samples.api [Samples.a_record])
  /\ Rainfall.fetch_paginated_data (Samples.api [Samples.a_record])
       Rainfall.RAIN_RESOURCE_ID (Rainfall.query_filters "2018" "Goa") 1 0 =
     as_rainfall (Rainfall.query_filters "2018" "Goa")
       (CropData.fetch_all_data
          (fun t req => Samples.api [Samples.a_record] t
                          (with_query (Rainfall.query_filters "2018" "Goa") req))
          Rainfall.RAIN_RESOURCE_ID 1 0).
Proof.
  assert (H : never_says_fatal (Samples.api [Samples.a_record]))
    by (intros t req code _; discriminate).
  split; [exact H|].
  exact (X18_rainfall_fetch_is_the_crop_fetch_with_filters
           (Samples.api [Samples.a_record]) (Rainfall.query_filters "2018" "Goa") H
           Rainfall.RAIN_RESOURCE_ID 1%nat 0%nat).
Defined.

End TwoLoopsProperties.
